(** * Google Maps reviews scraper: relative dates and the harvest loop

    A shallow embedding of the TypeScript sources
      - [dates.ts]               ([parseRelativeDate], [isDateBefore]),
      - [ScrapeReviewsUpdate.ts] ([ScraperReviews]),
      - [index.ts]               ([ScrapeReviews], [scrapeGoogleMapsReviews],
                                  [scrapeNewGoogleMapsReviews]),
    followed by the properties of the harvest that the specification states.

    Conventions.
    - A JavaScript string is a [string]: a sequence of code units below 256
      (the Latin-1 part of UTF-16).  [trim], [toLowerCase] and the regular
      expression class [\s] are given on exactly these code units.
    - A Number of the date computations is whole; sums, differences and
      products are rounded to the nearest double, ties to even, and a
      value that is not finite stays so.
    - A [Date] object holds an ECMAScript time value: a whole number of
      milliseconds since the epoch, or NaN once it leaves the range of
      8.64e15 ms on either side ([TimeClip]).
    - The time zone of the host is its function [LocalTZA(t, isUTC)]: the
      offset of local time from UTC in force at the instant [t], or at the
      wall-clock reading [t].  It may change with [t] (daylight saving).
    - The page (Puppeteer) is a collaborator: its answers are inputs. *)

From Stdlib Require Import ZArith List String Ascii Bool Lia PeanoNat DecimalString.
Import ListNotations.

Local Open Scope Z_scope.

(* ================================================================== *)
(** ** Strings *)
(* ================================================================== *)

Module JsString.

Definition chars (s : string) : list ascii := list_ascii_of_string s.

Definition code (c : ascii) : N := N_of_ascii c.

(** White space and line terminators below 256: TAB, LF, VT, FF, CR, SP,
    NBSP.  [String.prototype.trim] strips them, [\s] matches them. *)
Definition isWhiteSpace (c : ascii) : bool :=
  let n := code c in
  ((9 <=? n) && (n <=? 13) || (n =? 32) || (n =? 160))%N.

(** [\d] *)
Definition isDigit (c : ascii) : bool :=
  let n := code c in ((48 <=? n) && (n <=? 57))%N.

(** [String.prototype.toLowerCase] on one code unit: A-Z, and the Latin-1
    capitals 0xC0-0xDE except the multiplication sign 0xD7. *)
Definition lowerChar (c : ascii) : ascii :=
  let n := code c in
  if ((65 <=? n) && (n <=? 90)
      || (192 <=? n) && (n <=? 222) && negb (n =? 215))%N
  then ascii_of_N (n + 32) else c.

Definition toLowerCase (l : list ascii) : list ascii := map lowerChar l.

Fixpoint trimStart (l : list ascii) : list ascii :=
  match l with
  | [] => []
  | c :: t => if isWhiteSpace c then trimStart t else l
  end.

Definition trimEnd (l : list ascii) : list ascii := rev (trimStart (rev l)).

Definition trim (l : list ascii) : list ascii := trimEnd (trimStart l).

Fixpoint eqb_chars (a b : list ascii) : bool :=
  match a, b with
  | [], [] => true
  | x :: a', y :: b' => Ascii.eqb x y && eqb_chars a' b'
  | _, _ => false
  end.

(** [stripPrefix lit l] is what follows the literal [lit] at the head of
    [l], if [l] starts with it. *)
Fixpoint stripPrefix (lit l : list ascii) : option (list ascii) :=
  match lit, l with
  | [], _ => Some l
  | x :: lit', y :: l' => if Ascii.eqb x y then stripPrefix lit' l' else None
  | _ :: _, [] => None
  end.

(** The longest prefix of digits, and the rest. *)
Fixpoint spanDigits (l : list ascii) : list ascii * list ascii :=
  match l with
  | c :: t =>
      if isDigit c then let (d, r) := spanDigits t in (c :: d, r)
      else ([], l)
  | [] => ([], [])
  end.

(** The whole number that a string of decimal digits denotes:
    [parseInt(s, 10)] is the Number nearest to it.  (A host may round a
    string of more than 20 digits otherwise: no double below 1e20 comes
    of it.) *)
Definition digitValue (c : ascii) : Z := Z.of_N (code c) - 48.

Definition parseInt10 (l : list ascii) : Z :=
  fold_left (fun acc c => 10 * acc + digitValue c) l 0.

End JsString.

(* ================================================================== *)
(** ** Numbers *)
(* ================================================================== *)

Module JsNumber.

(** A Number of the date computations: a whole number that a double holds,
    or a value that is not finite (NaN, +Infinity or -Infinity; the date
    algorithms answer NaN to each of the three). *)
Inductive Number : Type :=
| NotFinite : Number
| Whole (z : Z) : Number.

(** The largest finite double. *)
Definition maxValue : Z := (2 ^ 53 - 1) * 2 ^ 971.

(** The Number for a whole number: the nearest double, with 53 significant
    bits, a tie going to the even significand; past the largest double it
    is an infinity. *)
Definition num (z : Z) : Number :=
  let a := Z.abs z in
  if a <? 2 ^ 53 then Whole z
  else
    let e := Z.log2 a - 52 in
    let q := a / 2 ^ e in
    let r := a mod 2 ^ e in
    let q' :=
      if 2 * r <? 2 ^ e then q
      else if 2 ^ e <? 2 * r then q + 1
      else if Z.even q then q else q + 1 in
    if maxValue <? q' * 2 ^ e then NotFinite
    else Whole (Z.sgn z * (q' * 2 ^ e)).

(** [x + y], [x - y] and [x * y] on Numbers. *)
Definition add (x y : Number) : Number :=
  match x, y with
  | Whole a, Whole b => num (a + b)
  | _, _ => NotFinite
  end.

Definition sub (x y : Number) : Number :=
  match x, y with
  | Whole a, Whole b => num (a - b)
  | _, _ => NotFinite
  end.

Definition mul (x y : Number) : Number :=
  match x, y with
  | Whole a, Whole b => num (a * b)
  | _, _ => NotFinite
  end.

End JsNumber.

(* ================================================================== *)
(** ** Dates (ECMAScript time values) *)
(* ================================================================== *)

Module JsDate.
Import JsNumber.

Definition msPerSecond : Z := 1000.
Definition msPerMinute : Z := 60000.
Definition msPerHour : Z := 3600000.
Definition msPerDay : Z := 86400000.

(** The time value of a [Date]: finite, or NaN (an invalid date). *)
Inductive TimeValue : Type :=
| NaN : TimeValue
| Finite (t : Z) : TimeValue.

Record Date : Type := mkDate { getTime : TimeValue }.

Definition maxTime : Z := 8640000000000000.

Definition TimeClip (time : Number) : TimeValue :=
  match time with
  | NotFinite => NaN
  | Whole t => if Z.abs t >? maxTime then NaN else Finite t
  end.

Definition Day (t : Z) : Z := t / msPerDay.
Definition TimeWithinDay (t : Z) : Z := t mod msPerDay.

Definition HourFromTime (t : Z) : Z := (t / msPerHour) mod 24.
Definition MinFromTime (t : Z) : Z := (t / msPerMinute) mod 60.
Definition SecFromTime (t : Z) : Z := (t / msPerSecond) mod 60.
Definition msFromTime (t : Z) : Z := t mod msPerSecond.

Definition isLeapYear (y : Z) : bool :=
  ((y mod 4 =? 0) && negb (y mod 100 =? 0)) || (y mod 400 =? 0).

Definition DaysInYear (y : Z) : Z := if isLeapYear y then 366 else 365.

Definition DayFromYear (y : Z) : Z :=
  365 * (y - 1970) + (y - 1969) / 4 - (y - 1901) / 100 + (y - 1601) / 400.

(** The largest year starting on or before day [d]: an estimate from the
    mean length of a year, corrected by at most one. *)
Definition YearFromDay (d : Z) : Z :=
  let y := 1970 + (d * 400) / 146097 in
  if DayFromYear y >? d then y - 1
  else if DayFromYear (y + 1) <=? d then y + 1
  else y.

Definition YearFromTime (t : Z) : Z := YearFromDay (Day t).

Definition InLeapYear (t : Z) : Z :=
  if isLeapYear (YearFromTime t) then 1 else 0.

Definition DayWithinYear (t : Z) : Z := Day t - DayFromYear (YearFromTime t).

(** Number of days of the year before month [m] (0 = January). *)
Definition monthStart (leap : Z) (m : Z) : Z :=
  match m with
  | 0 => 0
  | 1 => 31
  | 2 => 59 + leap
  | 3 => 90 + leap
  | 4 => 120 + leap
  | 5 => 151 + leap
  | 6 => 181 + leap
  | 7 => 212 + leap
  | 8 => 243 + leap
  | 9 => 273 + leap
  | 10 => 304 + leap
  | _ => 334 + leap
  end.

Definition monthOfDay (leap : Z) (d : Z) : Z :=
  if d <? 31 then 0
  else if d <? 59 + leap then 1
  else if d <? 90 + leap then 2
  else if d <? 120 + leap then 3
  else if d <? 151 + leap then 4
  else if d <? 181 + leap then 5
  else if d <? 212 + leap then 6
  else if d <? 243 + leap then 7
  else if d <? 273 + leap then 8
  else if d <? 304 + leap then 9
  else if d <? 334 + leap then 10
  else 11.

Definition MonthFromTime (t : Z) : Z :=
  monthOfDay (InLeapYear t) (DayWithinYear t).

Definition DateFromTime (t : Z) : Z :=
  DayWithinYear t - monthStart (InLeapYear t) (MonthFromTime t) + 1.

(** [((h * msPerHour + m * msPerMinute) + s * msPerSecond) + milli], in
    the arithmetic of Numbers. *)
Definition MakeTime (hour min sec ms : Number) : Number :=
  add (add (add (mul hour (num msPerHour)) (mul min (num msPerMinute)))
           (mul sec (num msPerSecond)))
      ms.

(** The day on which month [mn] (0 = January) of year [ym] begins. *)
Definition firstOfMonth (ym mn : Z) : Z :=
  DayFromYear ym + monthStart (if isLeapYear ym then 1 else 0) mn.

(** [MakeDay]: the month may lie outside 0..11 and carries into the year;
    the date may lie outside the month and carries into the days.  The
    result is [Day(t) + dt - 1] for the first [t] of the month.  (A host
    may answer NaN for a year far outside the range of dates; the day
    computed here is then far outside the range of [TimeClip].) *)
Definition MakeDay (year month date : Number) : Number :=
  match year, month with
  | Whole y, Whole m =>
      match add (Whole y) (num (m / 12)) with
      | Whole ym => sub (add (num (firstOfMonth ym (m mod 12))) date) (num 1)
      | NotFinite => NotFinite
      end
  | _, _ => NotFinite
  end.

Definition MakeDate (day time : Number) : Number :=
  add (mul day (num msPerDay)) time.

(** The time zone of the host: [LocalTZA t true] is the offset of local
    time from UTC, in milliseconds, at the instant [t]; [LocalTZA t false]
    is the offset with which the host reads the wall-clock time [t] (at a
    change of the offset a wall-clock time can occur twice or not at all;
    the host then takes the offset before the change). *)
Definition Zone : Type := Z -> bool -> Z.

Section LocalTime.

Variable LocalTZA : Zone.

Definition LocalTime (t : Z) : Number := add (num t) (num (LocalTZA t true)).

Definition UTC (t : Number) : Number :=
  match t with
  | Whole l => sub (Whole l) (num (LocalTZA l false))
  | NotFinite => NotFinite
  end.

(** Getters on a finite time value. *)
Definition field (fromTime : Z -> Z) (tv : Z) : Number :=
  match LocalTime tv with
  | Whole t => num (fromTime t)
  | NotFinite => NotFinite
  end.

Definition getSeconds : Z -> Number := field SecFromTime.
Definition getMinutes : Z -> Number := field MinFromTime.
Definition getHours : Z -> Number := field HourFromTime.
Definition getDate : Z -> Number := field DateFromTime.
Definition getMonth : Z -> Number := field MonthFromTime.
Definition getFullYear : Z -> Number := field YearFromTime.

(** Setters on a finite time value; the result is clipped. *)
Definition setSeconds (tv : Z) (sec : Number) : TimeValue :=
  match LocalTime tv with
  | Whole t =>
      TimeClip (UTC (MakeDate (num (Day t))
        (MakeTime (num (HourFromTime t)) (num (MinFromTime t)) sec
                  (num (msFromTime t)))))
  | NotFinite => NaN
  end.

Definition setMinutes (tv : Z) (min : Number) : TimeValue :=
  match LocalTime tv with
  | Whole t =>
      TimeClip (UTC (MakeDate (num (Day t))
        (MakeTime (num (HourFromTime t)) min (num (SecFromTime t))
                  (num (msFromTime t)))))
  | NotFinite => NaN
  end.

Definition setHours (tv : Z) (hour : Number) : TimeValue :=
  match LocalTime tv with
  | Whole t =>
      TimeClip (UTC (MakeDate (num (Day t))
        (MakeTime hour (num (MinFromTime t)) (num (SecFromTime t))
                  (num (msFromTime t)))))
  | NotFinite => NaN
  end.

Definition setDate (tv : Z) (dt : Number) : TimeValue :=
  match LocalTime tv with
  | Whole t =>
      TimeClip (UTC (MakeDate
        (MakeDay (num (YearFromTime t)) (num (MonthFromTime t)) dt)
        (num (TimeWithinDay t))))
  | NotFinite => NaN
  end.

Definition setMonth (tv : Z) (m : Number) : TimeValue :=
  match LocalTime tv with
  | Whole t =>
      TimeClip (UTC (MakeDate
        (MakeDay (num (YearFromTime t)) m (num (DateFromTime t)))
        (num (TimeWithinDay t))))
  | NotFinite => NaN
  end.

Definition setFullYear (tv : Z) (y : Number) : TimeValue :=
  match LocalTime tv with
  | Whole t =>
      TimeClip (UTC (MakeDate
        (MakeDay y (num (MonthFromTime t)) (num (DateFromTime t)))
        (num (TimeWithinDay t))))
  | NotFinite => NaN
  end.

End LocalTime.

End JsDate.

(* ================================================================== *)
(** ** dates.ts *)
(* ================================================================== *)

Module Dates.
Import JsString JsNumber JsDate.

(** The seven unit names of the pattern, in the order of its alternation. *)
Definition unitNames : list (list ascii) :=
  map chars ["second"; "minute"; "hour"; "day"; "week"; "month"; "year"]%string.

(** [(a|an|\d+)] in front of [\s+].  White space has to follow, so the
    alternative "a" succeeds only when no "n" comes next, and "an" is tried
    in that case: the longer literal is looked for first. *)
Definition matchAmount (l : list ascii) : option (list ascii * list ascii) :=
  match stripPrefix (chars "an") l with
  | Some r => Some (chars "an", r)
  | None =>
      match stripPrefix (chars "a") l with
      | Some r => Some (chars "a", r)
      | None =>
          match spanDigits l with
          | ([], _) => None
          | (d, r) => Some (d, r)
          end
      end
  end.

(** [\s+] in front of a token that starts with no white space. *)
Definition matchSpaces (l : list ascii) : option (list ascii) :=
  match l with
  | c :: t => if isWhiteSpace c then Some (trimStart t) else None
  | [] => None
  end.

(** [(second|minute|hour|day|week|month|year)] *)
Fixpoint matchUnit (names : list (list ascii)) (l : list ascii)
  : option (list ascii * list ascii) :=
  match names with
  | [] => None
  | u :: names' =>
      match stripPrefix u l with
      | Some r => Some (u, r)
      | None => matchUnit names' l
      end
  end.

(** [s?] in front of [\s+] *)
Definition matchPlural (l : list ascii) : list ascii :=
  match stripPrefix (chars "s") l with
  | Some r => r
  | None => l
  end.

(** [trimmed.match(/^(a|an|\d+)\s+(second|minute|hour|day|week|month|year)s?\s+ago$/)]:
    the two captures [match[1]] and [match[2]], or [None] for no match. *)
Definition matchRelative (l : list ascii) : option (list ascii * list ascii) :=
  match matchAmount l with
  | None => None
  | Some (amountStr, r1) =>
    match matchSpaces r1 with
    | None => None
    | Some r2 =>
      match matchUnit unitNames r2 with
      | None => None
      | Some (unit, r3) =>
        match matchSpaces (matchPlural r3) with
        | None => None
        | Some r4 => if eqb_chars r4 (chars "ago") then Some (amountStr, unit) else None
        end
      end
    end
  end.

Section WithZone.

Variable LocalTZA : Zone.

(** [parseRelativeDate]; [now] is the reading of [new Date()]. *)
Definition parseRelativeDate (now : Z) (relativeDateString : string)
  : option Date :=
  let trimmed := toLowerCase (trim (chars relativeDateString)) in
  match matchRelative trimmed with
  | None => None
  | Some (amountStr, unit) =>
      let amount :=
        if eqb_chars amountStr (chars "a") || eqb_chars amountStr (chars "an")
        then num 1 else num (parseInt10 amountStr) in
      let result := now in
      if eqb_chars unit (chars "second") then
        Some (mkDate (setSeconds LocalTZA result
                        (sub (getSeconds LocalTZA result) amount)))
      else if eqb_chars unit (chars "minute") then
        Some (mkDate (setMinutes LocalTZA result
                        (sub (getMinutes LocalTZA result) amount)))
      else if eqb_chars unit (chars "hour") then
        Some (mkDate (setHours LocalTZA result
                        (sub (getHours LocalTZA result) amount)))
      else if eqb_chars unit (chars "day") then
        Some (mkDate (setDate LocalTZA result
                        (sub (getDate LocalTZA result) amount)))
      else if eqb_chars unit (chars "week") then
        Some (mkDate (setDate LocalTZA result
                        (sub (getDate LocalTZA result) (mul amount (num 7)))))
      else if eqb_chars unit (chars "month") then
        Some (mkDate (setMonth LocalTZA result
                        (sub (getMonth LocalTZA result) amount)))
      else if eqb_chars unit (chars "year") then
        Some (mkDate (setFullYear LocalTZA result
                        (sub (getFullYear LocalTZA result) amount)))
      else None
  end.

End WithZone.

(** [isDateBefore] on the arguments its caller passes: a [Date] or [null].
    The answer is [null] ([None]), [true] or [false]. *)
Definition isDateBefore (newDate lastScrapedDate : option Date) : option bool :=
  match newDate, lastScrapedDate with
  | None, _ | _, None => None
  | Some d1, Some d2 =>
      match getTime d1, getTime d2 with
      | NaN, _ | _, NaN => None
      | Finite t1, Finite t2 => Some (t1 >=? t2)
      end
  end.

End Dates.

(* ================================================================== *)
(** ** Reviews, the result map and the console *)
(* ================================================================== *)

Record ReviewType : Type := mkReview {
  id : string;
  reviewName : string;
  starRating : string;
  responseFromOwner : bool;
  reviewText : string;
  reviewPostedAt : string;
  isHighRating : bool;
  starLabel : string;
  shareUrl : string
}.

(** A thrown value: whether it is an [Error] instance, and its message. *)
Record JsError : Type := mkError {
  instanceofError : bool;
  message : string
}.

(** The lines the modelled functions write with [console.error], and those
    [console.log] lines that announce a decision.  Progress lines (counts,
    dumps of a batch) are left out. *)
Inductive ConsoleLine : Type :=
| LogText (text : string)
| LogStopping (reviewId : string)
| LogFinalReviews (reviews : list ReviewType)
| ErrorText (text : string)
| ErrorWith (text : string) (e : JsError)
| ErrorMessage (text : string) (msg : string).

(** A JavaScript [Map<string, ReviewType>]: keys are unique and keep the
    order of their first insertion. *)
Module JsMap.

Definition t : Type := list (string * ReviewType).

Definition empty : t := [].

Definition has (k : string) (m : t) : bool :=
  existsb (fun e => String.eqb k (fst e)) m.

Fixpoint get (k : string) (m : t) : option ReviewType :=
  match m with
  | [] => None
  | (k', v) :: m' => if String.eqb k k' then Some v else get k m'
  end.

(** [set] overwrites the value of a present key in place and appends an
    absent one. *)
Fixpoint set (k : string) (v : ReviewType) (m : t) : t :=
  match m with
  | [] => [(k, v)]
  | (k', v') :: m' =>
      if String.eqb k k' then (k, v) :: m' else (k', v') :: set k v m'
  end.

Definition keys (m : t) : list string := map fst m.
Definition values (m : t) : list ReviewType := map snd m.
Definition size (m : t) : nat := List.length m.

End JsMap.

(* ================================================================== *)
(** ** The page *)
(* ================================================================== *)

(** One rendered review element, as the extraction inside [page.evaluate]
    sees it: it yields a record, or it is passed over (fewer than two
    buttons, no name, no star label, or an error caught for that element). *)
Definition Element : Type := option ReviewType.

(** What one call of [page.evaluate] in the loop comes to. *)
Inductive EvaluateResult : Type :=
| EvalThrows (e : JsError)
| EvalFalsy
| EvalReturns (allElements : list Element).

Fixpoint extract (newElements : list Element) : list ReviewType :=
  match newElements with
  | [] => []
  | Some r :: t => r :: extract t
  | None :: t => extract t
  end.

(* ================================================================== *)
(** ** ScrapeReviewsUpdate.ts: [ScraperReviews] *)
(* ================================================================== *)

Module Update.
Import Dates.

(** The variables of [ScraperReviews] that the loop updates, and two
    records of its effects: how often [new Date()] was evaluated so far
    ([clockReads], the index of the next clock reading) and what was written
    to the console. *)
Record LoopState : Type := mkState {
  isScrolling : bool;
  scrapedReviews : JsMap.t;
  processedElementsCount : nat;
  noNewElementsCount : nat;
  clockReads : nat;
  console : list ConsoleLine
}.

Definition MAX_NO_NEW_ELEMENTS : nat := 3.

Definition initialState : LoopState :=
  mkState true JsMap.empty 0 0 0 [].

Definition stopScrolling (st : LoopState) : LoopState :=
  mkState false (scrapedReviews st) (processedElementsCount st)
          (noNewElementsCount st) (clockReads st) (console st).

Definition withReviews (m : JsMap.t) (st : LoopState) : LoopState :=
  mkState (isScrolling st) m (processedElementsCount st)
          (noNewElementsCount st) (clockReads st) (console st).

Definition withProcessed (n : nat) (st : LoopState) : LoopState :=
  mkState (isScrolling st) (scrapedReviews st) n
          (noNewElementsCount st) (clockReads st) (console st).

Definition withNoNew (n : nat) (st : LoopState) : LoopState :=
  mkState (isScrolling st) (scrapedReviews st) (processedElementsCount st)
          n (clockReads st) (console st).

Definition tick (n : nat) (st : LoopState) : LoopState :=
  mkState (isScrolling st) (scrapedReviews st) (processedElementsCount st)
          (noNewElementsCount st) (clockReads st + n) (console st).

Definition write (line : ConsoleLine) (st : LoopState) : LoopState :=
  mkState (isScrolling st) (scrapedReviews st) (processedElementsCount st)
          (noNewElementsCount st) (clockReads st) (console st ++ [line]).

(** [if (!scrapedReviews.has(review.id)) scrapedReviews.set(review.id, review)] *)
Definition addIfAbsent (review : ReviewType) (st : LoopState) : LoopState :=
  if JsMap.has (id review) (scrapedReviews st) then st
  else withReviews (JsMap.set (id review) review (scrapedReviews st)) st.

(** The optional parameter [lastScrapedDate?: string]: [None] is
    [undefined].  It is truthy when it is a non-empty string. *)
Definition truthy (lastScrapedDate : option string) : bool :=
  match lastScrapedDate with
  | Some s => negb (String.eqb s "")
  | None => false
  end.

Section Loop.

Variable LocalTZA : JsDate.Zone.

(** [clock k] is what the [k]-th evaluation of [new Date()] reads. *)
Variable clock : nat -> Z.

Variable lastScrapedDate : option string.

(** The comparison made for one record under a cutoff: two calls of
    [parseRelativeDate], each reading the clock, the record's first. *)
Definition isStopedAt (cutoff : string) (review : ReviewType) (st : LoopState)
  : option bool :=
  isDateBefore
    (parseRelativeDate LocalTZA (clock (clockReads st)) (reviewPostedAt review))
    (parseRelativeDate LocalTZA (clock (S (clockReads st))) cutoff).

(** [for (const review of reviews) { ... }] *)
Fixpoint forReviews (reviews : list ReviewType) (st : LoopState) : LoopState :=
  match reviews with
  | [] => st
  | review :: rest =>
      match lastScrapedDate with
      | Some cutoff =>
          if truthy lastScrapedDate then
            match isStopedAt cutoff review st with
            | Some true =>
                if isHighRating review then forReviews rest (tick 2 st)
                else forReviews rest (addIfAbsent review (tick 2 st))
            | _ =>
                forReviews rest
                  (stopScrolling (write (LogStopping (id review)) (tick 2 st)))
            end
          else forReviews rest st
      | None =>
          if isHighRating review then stopScrolling st
          else forReviews rest (addIfAbsent review st)
      end
  end.

(** The stall counter, after the records of an iteration. *)
Definition countNoNew (newElementsProcessed : nat) (st : LoopState) : LoopState :=
  if Nat.eqb newElementsProcessed 0 then
    let st' := withNoNew (S (noNewElementsCount st)) st in
    if Nat.leb MAX_NO_NEW_ELEMENTS (noNewElementsCount st') then
      stopScrolling
        (write (LogText "Stopping: No new elements found for multiple iterations") st')
    else st'
  else withNoNew 0 st.

(** The body of [while (isScrolling)]: the state after it, and whether
    it left the loop by [break]. *)
Definition iteration (r : EvaluateResult) (st : LoopState) : LoopState * bool :=
  match r with
  | EvalThrows e =>
      (stopScrolling (write (ErrorWith "Error in scroll iteration:" e) st), true)
  | EvalFalsy =>
      (write (LogText "No review data returned") st, true)
  | EvalReturns allElements =>
      let newElements := skipn (processedElementsCount st) allElements in
      let reviews := extract newElements in
      let totalElements := List.length allElements in
      let newElementsProcessed := List.length newElements in
      let st1 := withProcessed totalElements st in
      let st2 := forReviews reviews st1 in
      (countNoNew newElementsProcessed st2, false)
  end.

(** [while (isScrolling) { ... }] against the page's answers in the order
    of the calls.  [None]: the answers ran out with the loop still going. *)
Fixpoint whileScrolling (script : list EvaluateResult) (st : LoopState)
  : option LoopState :=
  if isScrolling st then
    match script with
    | [] => None
    | r :: script' =>
        let (st', broke) := iteration r st in
        if broke then Some st' else whileScrolling script' st'
    end
  else Some st.

(** [ScraperReviews(page, lastScrapedDate)]: the returned array and the
    console.  The [filter] before the [return] drops its result, and
    nothing outside the inner [try] can throw. *)
Definition ScraperReviews (script : list EvaluateResult)
  : option (list ReviewType * list ConsoleLine) :=
  match whileScrolling script initialState with
  | None => None
  | Some st =>
      let finalReviews := JsMap.values (scrapedReviews st) in
      Some (finalReviews, console st)
  end.

End Loop.

End Update.

(* ================================================================== *)
(** ** index.ts: the earlier loop [ScrapeReviews] *)
(* ================================================================== *)

Module Legacy.
Import Update.

(** [for (const review of reviews)]: a new record is stored first and
    ends the harvest afterwards when it is a high rating. *)
Fixpoint storeReviews (reviews : list ReviewType) (st : LoopState) : LoopState :=
  match reviews with
  | [] => st
  | review :: rest =>
      if JsMap.has (id review) (scrapedReviews st) then storeReviews rest st
      else
        let st' := withReviews (JsMap.set (id review) review (scrapedReviews st)) st in
        if isHighRating review then stopScrolling st'
        else storeReviews rest st'
  end.

Definition loopBody (r : EvaluateResult) (st : LoopState) : LoopState * bool :=
  match r with
  | EvalThrows e =>
      (stopScrolling (write (ErrorWith "Error in scroll iteration:" e) st), true)
  | EvalFalsy =>
      (write (LogText "No review data returned") st, true)
  | EvalReturns allElements =>
      let newElements := skipn (processedElementsCount st) allElements in
      let reviews := extract newElements in
      let st1 := withProcessed (List.length allElements) st in
      let st2 := storeReviews reviews st1 in
      let stalled :=
        Nat.eqb (List.length newElements) 0
        && Nat.leb MAX_NO_NEW_ELEMENTS (S (noNewElementsCount st2)) in
      let st3 :=
        if Nat.eqb (List.length newElements) 0
        then withNoNew (S (noNewElementsCount st2)) st2
        else withNoNew 0 st2 in
      if stalled then
        (stopScrolling
           (write (LogText "Stopping: No new elements found for multiple iterations") st3),
         true)
      else if Nat.ltb 1000 (JsMap.size (scrapedReviews st3)) then
        (stopScrolling
           (write (LogText "Stopping: Maximum review limit reached") st3), true)
      else (st3, false)
  end.

Fixpoint whileLoop (script : list EvaluateResult) (st : LoopState)
  : option LoopState :=
  if isScrolling st then
    match script with
    | [] => None
    | r :: script' =>
        let (st', broke) := loopBody r st in
        if broke then Some st' else whileLoop script' st'
    end
  else Some st.

Definition ScrapeReviews (script : list EvaluateResult)
  : option (list ReviewType * list ConsoleLine) :=
  match whileLoop script initialState with
  | None => None
  | Some st => Some (JsMap.values (scrapedReviews st), console st)
  end.

End Legacy.

(* ================================================================== *)
(** ** index.ts: the two entry points *)
(* ================================================================== *)

Module Index.

(** What an awaited step comes to. *)
Inductive Completion (A : Type) : Type :=
| Normal (a : A)
| Thrown (e : JsError)
| Pending.
Arguments Normal {A} a.
Arguments Thrown {A} e.
Arguments Pending {A}.

(** A computation writes to the console and completes. *)
Definition M (A : Type) : Type :=
  list ConsoleLine -> list ConsoleLine * Completion A.

Definition ret {A} (a : A) : M A := fun out => (out, Normal a).

Definition bind {A B} (c : M A) (k : A -> M B) : M B :=
  fun out =>
    match c out with
    | (out', Normal a) => k a out'
    | (out', Thrown e) => (out', Thrown e)
    | (out', Pending) => (out', Pending)
    end.

Definition throw {A} (e : JsError) : M A := fun out => (out, Thrown e).

Definition print (line : ConsoleLine) : M unit :=
  fun out => (out ++ [line], Normal tt).

Definition await {A} (c : Completion A) : M A := fun out => (out, c).

(** [try { body } catch (error) { handler }] *)
Definition tryCatch {A} (body : M A) (handler : JsError -> M A) : M A :=
  fun out =>
    match body out with
    | (out', Thrown e) => handler e out'
    | r => r
    end.

Notation "x <- c ;; k" := (bind c (fun x => k))
  (at level 61, c at next level, right associativity).
Notation "c ;;; k" := (bind c (fun _ => k))
  (at level 61, right associativity).

(** A value an entry point resolves to. *)
Inductive JsValue : Type :=
| Undefined
| Boolean (b : bool)
| ReviewArray (reviews : list ReviewType).

Definition ToBoolean (v : JsValue) : bool :=
  match v with
  | Undefined => false
  | Boolean b => b
  | ReviewArray _ => true
  end.

(** [Array.prototype.filter] with a callback that returns any value. *)
Definition arrayFilter (callback : ReviewType -> JsValue) (a : list ReviewType)
  : list ReviewType :=
  filter (fun item => ToBoolean (callback item)) a.

(** [(item) => { item.isHighRating === false; }]: the comparison is an
    expression statement; a block without [return] yields [undefined]. *)
Definition lowRatingCallback (item : ReviewType) : JsValue :=
  let _ := Boolean (negb (isHighRating item)) in Undefined.

(** The browser and the page during one invocation. *)
Record Session : Type := mkSession {
  BrowserInstance : Completion unit;
  goto : string -> Completion unit;
  addLanguageToMapsUrl : string -> string -> Completion string;
  ReviewsTab : Completion unit;
  FilterBy : string -> Completion unit;
  scrollBy : Completion unit;
  waitForSelector : Completion unit;
  reviewPages : list EvaluateResult;
  pageClose : Completion unit;
  browserClose : Completion unit
}.

Section EntryPoints.

Variable LocalTZA : JsDate.Zone.
Variable clock : nat -> Z.
Variable session : Session.

(** [await ScraperReviews(Page, lastScrapedDate)] *)
Definition awaitScraperReviews (lastScrapedDate : option string)
  : M (list ReviewType) :=
  fun out =>
    match Update.ScraperReviews LocalTZA clock lastScrapedDate (reviewPages session) with
    | None => (out, Pending)
    | Some (finalReviews, lines) => (out ++ lines, Normal finalReviews)
    end.

(** [await Page.waitForSelector(...).catch(() => console.error(...))] *)
Definition awaitReviewsLoaded : M unit :=
  tryCatch (await (waitForSelector session))
    (fun _ => print (ErrorText "Reviews not found within the timeout period.")).

Definition scrapeGoogleMapsReviews (url : string) : M JsValue :=
  tryCatch
    (await (BrowserInstance session) ;;;
     await (goto session url) ;;;
     url' <- await (addLanguageToMapsUrl session url "en") ;;
     await (goto session url') ;;;
     await (ReviewsTab session) ;;;
     await (FilterBy session "Lowest rating") ;;;
     await (scrollBy session) ;;;
     awaitReviewsLoaded ;;;
     finalReviews <- awaitScraperReviews None ;;
     print (LogFinalReviews finalReviews) ;;;
     await (pageClose session) ;;;
     await (browserClose session) ;;;
     ret (ReviewArray (arrayFilter lowRatingCallback finalReviews)))
    (fun error =>
       print (ErrorWith "An error occurred while scraping Google Maps reviews:" error) ;;;
       ret Undefined).

Definition scrapeNewGoogleMapsReviews (url date : string) : M JsValue :=
  tryCatch
    ((if String.eqb date "" then
        throw (mkError true "Date parameter is required")
      else ret tt) ;;;
     await (BrowserInstance session) ;;;
     url' <- await (addLanguageToMapsUrl session url "en") ;;
     await (goto session url') ;;;
     await (ReviewsTab session) ;;;
     await (FilterBy session "Newest") ;;;
     await (scrollBy session) ;;;
     awaitReviewsLoaded ;;;
     finalReviews <- awaitScraperReviews (Some date) ;;
     print (LogFinalReviews finalReviews) ;;;
     await (pageClose session) ;;;
     await (browserClose session) ;;;
     ret Undefined)
    (fun error =>
       (if instanceofError error then
          print (ErrorMessage
                   "An error occurred while scraping Google Maps New reviews:"
                   (message error))
        else ret tt) ;;;
       ret Undefined).

End EntryPoints.

End Index.

(* ================================================================== *)
(** ** Notions used to state the properties *)
(* ================================================================== *)

(** The recognised relative-time grammar, and the instant it denotes. *)
Module Grammar.
Import JsString JsDate Dates.

Definition isAmount (a : list ascii) : Prop :=
  a = chars "a" \/ a = chars "an" \/ (a <> [] /\ forallb isDigit a = true).

Definition isSpaces (w : list ascii) : Prop :=
  w <> [] /\ forallb isWhiteSpace w = true.

Definition isPlural (p : list ascii) : Prop := p = [] \/ p = chars "s".

(** [(<integer> | "a" | "an") <unit> ["s"] "ago"], the tokens separated
    by white space. *)
Definition Recognized (l amount unit : list ascii) : Prop :=
  exists w1 p w2,
    l = amount ++ w1 ++ unit ++ p ++ w2 ++ chars "ago"
    /\ isAmount amount /\ isSpaces w1 /\ In unit unitNames
    /\ isPlural p /\ isSpaces w2.

(** "a" and "an" denote 1. *)
Definition magnitude (amount : list ascii) : Z :=
  if eqb_chars amount (chars "a") || eqb_chars amount (chars "an")
  then 1 else parseInt10 amount.

(** The input as the pattern sees it. *)
Definition normalized (s : string) : list ascii :=
  toLowerCase (trim (chars s)).

(** The Gregorian calendar, on its own terms.  Months are numbered
    through the years: month [12 * y + m] is month [m] (0 = January) of
    year [y]. *)
Definition leapYear (y : Z) : bool :=
  (y mod 4 =? 0) && (negb (y mod 100 =? 0) || (y mod 400 =? 0)).

Definition daysInMonth (k : Z) : Z :=
  let m := k mod 12 in
  if m =? 1 then (if leapYear (k / 12) then 29 else 28)
  else if (m =? 3) || (m =? 5) || (m =? 8) || (m =? 10) then 30
  else 31.

(** The number of days of the [n] months before month [k]. *)
Fixpoint monthsBack (k : Z) (n : nat) : Z :=
  match n with
  | O => 0
  | S n' => daysInMonth (k - 1) + monthsBack (k - 1) n'
  end.

Definition january1970 : Z := 12 * 1970.

(** The day on which month [k] begins, counted from 1 January 1970. *)
Definition firstDay (k : Z) : Z :=
  if january1970 <=? k then monthsBack k (Z.to_nat (k - january1970))
  else - monthsBack january1970 (Z.to_nat (january1970 - k)).

(** Day [d] falls in month [k]. *)
Definition inMonth (k d : Z) : Prop := firstDay k <= d < firstDay (k + 1).

(** What the clocks of the host show at the instant [now]. *)
Definition wallClock (LocalTZA : Zone) (now : Z) : Z := now + LocalTZA now true.

(** The instant at which the host takes its clocks to show [wall]. *)
Definition instantOf (LocalTZA : Zone) (wall : Z) : Z :=
  wall - LocalTZA wall false.

(** The wall-clock reading [n] units before the reading [wall] of a day in
    month [k].  Seconds to weeks are fixed durations (a week is 7 days);
    [n] months are the [n] calendar months before month [k], whatever
    their lengths, and a year is 12 of them. *)
Definition wallClockBefore (k wall n : Z) (unit : list ascii) : Z :=
  if eqb_chars unit (chars "second") then wall - n * msPerSecond
  else if eqb_chars unit (chars "minute") then wall - n * msPerMinute
  else if eqb_chars unit (chars "hour") then wall - n * msPerHour
  else if eqb_chars unit (chars "day") then wall - n * msPerDay
  else if eqb_chars unit (chars "week") then wall - n * 7 * msPerDay
  else if eqb_chars unit (chars "month") then
    wall - monthsBack k (Z.to_nat n) * msPerDay
  else wall - monthsBack k (Z.to_nat (12 * n)) * msPerDay.

(** [now] minus [n] units, taken on the clocks of the host; [k] is the
    month in which [now] falls there. *)
Definition shifted (LocalTZA : Zone) (now k n : Z) (unit : list ascii) : Z :=
  instantOf LocalTZA (wallClockBefore k (wallClock LocalTZA now) n unit).

(** The [Date] for an instant: invalid outside the range of time values. *)
Definition dateAt (t : Z) : Date :=
  mkDate (if Z.abs t <=? maxTime then Finite t else NaN).

(** The wall-clock reading [d] ms before that of [now] is read with the
    offset in force at [now]: the offset does not change in between. *)
Definition sameOffset (LocalTZA : Zone) (now d : Z) : Prop :=
  LocalTZA (wallClock LocalTZA now - d) false = LocalTZA now true.

(** Offsets from UTC stay below a day. *)
Definition boundedZone (LocalTZA : Zone) : Prop :=
  forall t isUTC, Z.abs (LocalTZA t isUTC) <= msPerDay.

(** The offset from UTC never changes. *)
Definition constantZone (LocalTZA : Zone) (offset : Z) : Prop :=
  forall t isUTC, LocalTZA t isUTC = offset.

(** The last millisecond of the year 9999. *)
Definition horizon : Z := 253402300799999.

End Grammar.

(** How a computed Number stands to the whole number it is meant to be. *)
Module Rounding.
Import JsNumber.

(** Below this every whole number is a double. *)
Definition wholeLimit : Z := 2 ^ 53.

(** At least [b] in magnitude, or not finite. *)
Definition Far (b : Z) (x : Number) : Prop :=
  match x with
  | NotFinite => True
  | Whole m => b <= Z.abs m
  end.

(** [x] is [v]; or both are at least [b] in magnitude, for a [b] up to
    2^53. *)
Definition Approx (b : Z) (x : Number) (v : Z) : Prop :=
  b <= wholeLimit /\ (x = Whole v \/ (Far b x /\ b <= Z.abs v)).

End Rounding.

(** Runs of the loop of [ScraperReviews]. *)
Module Runs.
Import Update.

(** The first record of each identity, in the order of the list. *)
Fixpoint uniqueFrom (seen : list string) (l : list ReviewType) : list ReviewType :=
  match l with
  | [] => []
  | r :: t =>
      if existsb (String.eqb (id r)) seen then uniqueFrom seen t
      else r :: uniqueFrom (id r :: seen) t
  end.

Definition uniqueById (l : list ReviewType) : list ReviewType := uniqueFrom [] l.

Definition lowRated (l : list ReviewType) : Prop :=
  Forall (fun r => isHighRating r = false) l.

(** Every key is the identity of the record stored under it, and no key
    occurs twice. *)
Definition WellKeyed (m : JsMap.t) : Prop :=
  NoDup (JsMap.keys m) /\ Forall (fun e => fst e = id (snd e)) m.

(** [st'] stores everything [st] stores, unchanged and at the same place,
    and is well keyed if [st] is. *)
Definition Extends (st st' : LoopState) : Prop :=
  (exists added, scrapedReviews st' = scrapedReviews st ++ added)
  /\ (WellKeyed (scrapedReviews st) -> WellKeyed (scrapedReviews st')).

(** In a run without cutoff: the records [seen] so far were all low
    ratings, and the map holds the first record of each identity. *)
Definition Collected (seen : list ReviewType) (st : LoopState) : Prop :=
  JsMap.values (scrapedReviews st) = uniqueById seen
  /\ (forall k, JsMap.has k (scrapedReviews st)
                = existsb (String.eqb k) (map id seen))
  /\ lowRated seen.

(** The records the page hands over during the iterations of [script], in
    order, when [processed] elements were inspected before. *)
Fixpoint extractedBy (script : list EvaluateResult) (processed : nat)
  : list ReviewType :=
  match script with
  | EvalReturns allElements :: script' =>
      extract (skipn processed allElements)
      ++ extractedBy script' (List.length allElements)
  | _ => []
  end.

Section Iterations.

Variable LocalTZA : JsDate.Zone.
Variable clock : nat -> Z.
Variable lastScrapedDate : option string.

(** The state after the loop has gone through every iteration of
    [script], none of them left by [break]; [None] if the loop does not
    get that far. *)
Fixpoint afterIterations (script : list EvaluateResult) (st : LoopState)
  : option LoopState :=
  match script with
  | [] => Some st
  | r :: script' =>
      if isScrolling st then
        let (st', broke) := iteration LocalTZA clock lastScrapedDate r st in
        if broke then None else afterIterations script' st'
      else None
  end.

End Iterations.

End Runs.

(** Sample data for concrete runs. *)
Module Samples.

Definition review (ident posted : string) (high : bool) : ReviewType :=
  mkReview ident "Ana" (if high then "5" else "1") false "Some text" posted high
           (if high then "5 stars" else "1 star") "".

(** A clock that advances by one millisecond at each reading, from
    2025-06-20T12:00:00Z. *)
Definition clock (k : nat) : Z := 1750420800000 + Z.of_nat k.

(** A host on UTC. *)
Definition utc : JsDate.Zone := fun _ _ => 0.

(** A host on North American Eastern Time during 2025: five hours behind
    UTC, four from 9 March 07:00 UTC to 2 November 06:00 UTC.  Wall-clock
    times from 02:00 to 03:00 on 9 March do not occur and are read with
    the offset before the change; those from 01:00 to 02:00 on 2 November
    occur twice and are read as the first occurrence. *)
Definition easternTime (t : Z) (isUTC : bool) : Z :=
  let est := -5 * 3600000 in
  let edt := -4 * 3600000 in
  let spring := 1741503600000 in
  let autumn := 1762063200000 in
  if isUTC then
    if t <? spring then est else if t <? autumn then edt else est
  else
    if t <? spring + edt then est else if t <? autumn + edt then edt else est.

Definition failure : JsError := mkError true "Scroll container not found".

(** [count] rendered elements with distinct identities "r0", "r1", ...,
    all low ratings posted a day ago. *)
Definition ident (i : nat) : string :=
  String "r" (NilEmpty.string_of_uint (Nat.to_uint i)).

(** A session in which every step succeeds, over the given pages. *)
Definition session (pages : list EvaluateResult) : Index.Session :=
  Index.mkSession (Index.Normal tt) (fun _ => Index.Normal tt)
    (fun url language => Index.Normal (url ++ "?hl=" ++ language)%string)
    (Index.Normal tt) (fun _ => Index.Normal tt) (Index.Normal tt)
    (Index.Normal tt) pages (Index.Normal tt) (Index.Normal tt).

Definition lowElements (count : nat) : list Element :=
  map (fun i => Some (review (ident i) "1 day ago" false)) (seq 0 count).

End Samples.

(* ================================================================== *)
(** ** The extraction inside [page.evaluate] *)
(* ================================================================== *)

(** The string methods the extraction uses, on code units below 256. *)
Module JsText.
Import JsString.

Fixpoint startsWith {A : Type} (eqb : A -> A -> bool) (lit l : list A) : bool :=
  match lit, l with
  | [], _ => true
  | x :: lit', y :: l' => eqb x y && startsWith eqb lit' l'
  | _ :: _, [] => false
  end.

(** [lit] occurs somewhere in [l]. *)
Fixpoint includesAt {A : Type} (eqb : A -> A -> bool) (lit l : list A) : bool :=
  startsWith eqb lit l
  || match l with
     | [] => false
     | _ :: t => includesAt eqb lit t
     end.

(** [s.includes(lit)] *)
Definition includes (s lit : string) : bool :=
  includesAt Ascii.eqb (chars lit) (chars s).

(** What comes before the first [sep]. *)
Fixpoint firstSegment (sep : ascii) (l : list ascii) : list ascii :=
  match l with
  | [] => []
  | c :: t => if Ascii.eqb c sep then [] else c :: firstSegment sep t
  end.

(** [s.split(sep)[0]] for a separator of one code unit. *)
Definition splitFirst (sep : ascii) (s : string) : string :=
  string_of_list_ascii (firstSegment sep (chars s)).

(** [s.substring(0, n)] *)
Definition substring0 (n : nat) (s : string) : string :=
  string_of_list_ascii (firstn n (chars s)).

(** [String.prototype.toUpperCase] on one code unit, as the code units of
    the result: a-z and the Latin-1 small letters 0xE0-0xFE except the
    division sign 0xF7 move down by 32; the micro sign becomes U+039C, the
    sharp s becomes "SS" and y with diaeresis becomes U+0178. *)
Definition upperUnits (c : ascii) : list N :=
  let n := code c in
  (if (97 <=? n) && (n <=? 122)
      || (224 <=? n) && (n <=? 254) && negb (n =? 247)
   then [n - 32]
   else if n =? 181 then [924]
   else if n =? 223 then [83; 83]
   else if n =? 255 then [376]
   else [n])%N.

Definition toUpperCase (l : list ascii) : list N := flat_map upperUnits l.

(** [text.trim().toUpperCase().includes("AGO")] *)
Definition mentionsAgo (text : string) : bool :=
  includesAt N.eqb [65; 71; 79]%N (toUpperCase (trim (chars text))).

(** [label.trim().includes("star")] *)
Definition mentionsStar (label : string) : bool :=
  includesAt Ascii.eqb (chars "star") (trim (chars label)).

End JsText.

(** The body of [for (const ele of newElements)] in [page.evaluate], the
    same in [ScraperReviews] and in [ScrapeReviews]: what it reads from one
    rendered review and the record it pushes.  The clicks and delays change
    the document between the queries; each field below is the answer of a
    query at the moment the code makes it. *)
Module Extraction.
Import JsString JsText.

(** A [span] of the element: its [aria-label] attribute and its text. *)
Record Span : Type := mkSpan {
  ariaLabel : option string;
  spanText : string
}.

Record ReviewElement : Type := mkElement {
  (** [innerText] of each of [ele.querySelectorAll("button")], at the two
      queries before any click *)
  buttons : list string;
  (** the same query when the share button [[2]] is clicked *)
  buttonsAtShare : list string;
  (** whether [document.querySelector('div[aria-checked="false"]')] finds
      an element *)
  shareOption : bool;
  (** [value] of [document.querySelector("input[type]")], if there is one *)
  shareInput : option string;
  (** whether [document.querySelector("button")] finds an element *)
  documentButton : bool;
  (** [innerText] of [ele.querySelector("div.MyEned")], if there is one *)
  reviewTextElement : option string;
  (** [ele.querySelectorAll("span")] *)
  spans : list Span;
  (** [innerText] of each of [ele.querySelectorAll("div")] *)
  divs : list string
}.

Definition newline : ascii := ascii_of_nat 10.
Definition space : ascii := ascii_of_nat 32.

(** The [aria-label]s of the spans whose label mentions "star". *)
Fixpoint starLabels (l : list Span) : list string :=
  match l with
  | [] => []
  | s :: t =>
      match ariaLabel s with
      | Some label =>
          if mentionsStar label then label :: starLabels t else starLabels t
      | None => starLabels t
      end
  end.

(** The spans whose text mentions "ago" in any case. *)
Definition dateElement (l : list Span) : list Span :=
  filter (fun s => mentionsAgo (spanText s)) l.

(** [reviewTextElement?.innerText || "No review text found"] *)
Definition reviewTextOf (e : ReviewElement) : string :=
  match reviewTextElement e with
  | Some text => if String.eqb text "" then "No review text found" else text
  | None => "No review text found"
  end.

(** One round of the loop body: the record pushed, or [None] when the
    element is passed over, by a [continue] or by an error that the [catch]
    swallows (indexing a missing button, a missing share dialog). *)
Definition extractReview (e : ReviewElement) : option ReviewType :=
  match buttons e with
  | _ :: second :: _ =>
      let reviewName := splitFirst newline second in
      if String.eqb reviewName "" then None
      else
        match nth_error (buttonsAtShare e) 2 with
        | None => None
        | Some _ =>
            if negb (shareOption e) then None
            else
              match shareInput e with
              | None => None
              | Some shareUrl =>
                  if negb (documentButton e) then None
                  else
                    let reviewText := reviewTextOf e in
                    match starLabels (spans e) with
                    | [] => None
                    | starLabel :: _ =>
                        let starRating := splitFirst space starLabel in
                        let isHighRating :=
                          includes starLabel "4" || includes starLabel "5" in
                        let reviewId :=
                          (reviewName ++ "_" ++ substring0 50 reviewText)%string in
                        let responseFromOwner :=
                          existsb (fun text => includes text "Response from the owner")
                                  (divs e) in
                        let reviewPostedAt :=
                          match dateElement (spans e) with
                          | s :: _ => spanText s
                          | [] => "Unknown date"%string
                          end in
                        Some (mkReview reviewId reviewName starRating
                                responseFromOwner reviewText reviewPostedAt
                                isHighRating starLabel shareUrl)
                    end
              end
        end
  | _ => None
  end.

(** What [page.evaluate] returns for the rendered elements [allElements]. *)
Definition evaluate (allElements : list ReviewElement) : EvaluateResult :=
  EvalReturns (map extractReview allElements).

End Extraction.

(** Sample rendered reviews. *)
Module SampleElements.
Import Extraction.

(** A review by [author] with the text [text], a one-star label and the
    posted-time [posted], if any. *)
Definition rendered (author : string) (text : option string)
  (posted : option string) : ReviewElement :=
  mkElement
    ["Photo of the author"%string;
     (author ++ String newline "Local Guide")%string;
     "Share"%string; "More"%string]
    ["Photo of the author"%string;
     (author ++ String newline "Local Guide")%string;
     "Share"%string]
    true (Some "https://maps.app.goo.gl/x"%string) true text
    (mkSpan (Some "1 star"%string) ""
     :: match posted with
        | Some when => [mkSpan None when]
        | None => []
        end)
    [].

Definition longText : string :=
  "The room was small and the staff was not helpful at all, we left early.".

Definition sameOpening : string :=
  "The room was small and the staff was not helpful at all, but ok.".

End SampleElements.

(** Further notions used to state properties of the loops. *)
Module Pages.
Import Update.

(** Each page of [pages] extends the one before it, starting from [page]:
    the rendered list only grows at its end. *)
Fixpoint Grows (page : list Element) (pages : list (list Element)) : Prop :=
  match pages with
  | [] => True
  | next :: pages' => (exists more, next = page ++ more) /\ Grows next pages'
  end.

(** The entry under which a record is stored. *)
Definition keyed (r : ReviewType) : string * ReviewType := (id r, r).

(** The records of all the pages of a script. *)
Fixpoint recordsOf (script : list EvaluateResult) : list ReviewType :=
  match script with
  | [] => []
  | EvalReturns allElements :: script' => extract allElements ++ recordsOf script'
  | _ :: script' => recordsOf script'
  end.

(** [st'] holds what [st] holds, followed by low ratings among [from], each
    under its own identity. *)
Definition StoresFrom (from : list ReviewType) (st st' : LoopState) : Prop :=
  exists added,
    scrapedReviews st' = scrapedReviews st ++ map keyed added
    /\ Forall (fun r => In r from /\ isHighRating r = false) added.

(** What can clear [isScrolling] during a batch: a high rating without a
    cutoff; with a cutoff, a record whose comparison is not [true]. *)
Definition stoppingRecord (LocalTZA : JsDate.Zone) (clock : nat -> Z)
  (lastScrapedDate : option string) (batch : list ReviewType) : Prop :=
  match lastScrapedDate with
  | None => exists r, In r batch /\ isHighRating r = true
  | Some cutoff =>
      cutoff <> ""%string
      /\ exists r k,
          In r batch
          /\ Dates.isDateBefore
               (Dates.parseRelativeDate LocalTZA (clock k) (reviewPostedAt r))
               (Dates.parseRelativeDate LocalTZA (clock (S k)) cutoff)
             <> Some true
  end.

(** The largest number of elements that a call of the script reports. *)
Fixpoint largestPage (script : list EvaluateResult) : nat :=
  match script with
  | [] => 0
  | EvalReturns allElements :: script' =>
      Nat.max (List.length allElements) (largestPage script')
  | _ :: script' => largestPage script'
  end.

(** In the earlier loop: while it runs the map is well keyed and holds low
    ratings only; at any time all entries but the last are low ratings. *)
Definition Kept (st : LoopState) : Prop :=
  Runs.WellKeyed (scrapedReviews st)
  /\ (isScrolling st = true ->
      Runs.lowRated (JsMap.values (scrapedReviews st)))
  /\ Runs.lowRated (removelast (JsMap.values (scrapedReviews st))).

(** The time value of a valid date. *)
Definition timeOf (d : option JsDate.Date) : option Z :=
  match d with
  | Some (JsDate.mkDate (JsDate.Finite t)) => Some t
  | _ => None
  end.

(** No line of [lines] reports an error. *)
Definition noErrorLine (lines : list ConsoleLine) : Prop :=
  forall text e, ~ In (ErrorWith text e) lines.

(** The line that the size check of the earlier loop writes. *)
Definition capLine : ConsoleLine :=
  LogText "Stopping: Maximum review limit reached".

(** No line of [lines] announces a decision of the loop. *)
Definition noDecision (lines : list ConsoleLine) : Prop :=
  forall line,
    In line lines ->
    match line with
    | LogText _ | LogStopping _ => False
    | _ => True
    end.

(** The duration of the fixed-length units, in milliseconds. *)
Definition unitMs (unit : list ascii) : option Z :=
  if JsString.eqb_chars unit (JsString.chars "second") then Some JsDate.msPerSecond
  else if JsString.eqb_chars unit (JsString.chars "minute") then Some JsDate.msPerMinute
  else if JsString.eqb_chars unit (JsString.chars "hour") then Some JsDate.msPerHour
  else if JsString.eqb_chars unit (JsString.chars "day") then Some JsDate.msPerDay
  else if JsString.eqb_chars unit (JsString.chars "week") then Some (7 * JsDate.msPerDay)
  else None.

End Pages.

(* ================================================================== *)
(** ** The result map *)
(* ================================================================== *)

Module MapFacts.
Import Update Runs.

Lemma has_In k m : JsMap.has k m = true <-> In k (JsMap.keys m).
Proof.
  unfold JsMap.has, JsMap.keys. rewrite existsb_exists, in_map_iff. split.
  - intros [e [He Hk]]. apply String.eqb_eq in Hk. exists e. auto.
  - intros [e [Hk He]]. exists e. split; [assumption|].
    apply String.eqb_eq. auto.
Qed.

Lemma has_app k m1 m2 :
  JsMap.has k (m1 ++ m2) = JsMap.has k m1 || JsMap.has k m2.
Proof. unfold JsMap.has. apply existsb_app. Qed.

Lemma set_absent k v m :
  JsMap.has k m = false -> JsMap.set k v m = m ++ [(k, v)].
Proof.
  induction m as [|[k' v'] m IH]; simpl; intros H; [reflexivity|].
  apply orb_false_iff in H. destruct H as [H1 H2].
  rewrite H1, IH by assumption. reflexivity.
Qed.

Lemma WellKeyed_empty : WellKeyed JsMap.empty.
Proof. split; constructor. Qed.

Lemma WellKeyed_add review m :
  WellKeyed m -> JsMap.has (id review) m = false ->
  WellKeyed (m ++ [(id review, review)]).
Proof.
  intros [Hnd Hk] Hnew. split.
  - unfold JsMap.keys in *. rewrite map_app. simpl.
    apply NoDup_app; [assumption | repeat constructor; simpl; tauto |].
    intros x Hx [Hx'|[]]. subst x.
    apply has_In in Hx. congruence.
  - apply Forall_app. split; [assumption|]. repeat constructor.
Qed.

Lemma values_ids m :
  WellKeyed m -> map id (JsMap.values m) = JsMap.keys m.
Proof.
  intros [_ Hk]. unfold JsMap.values, JsMap.keys. rewrite map_map.
  apply map_ext_in. intros e He.
  rewrite Forall_forall in Hk. symmetry. auto.
Qed.

(** [addIfAbsent] never touches what is stored: it appends or does nothing. *)
Lemma addIfAbsent_reviews review st :
  scrapedReviews (addIfAbsent review st) =
  if JsMap.has (id review) (scrapedReviews st) then scrapedReviews st
  else scrapedReviews st ++ [(id review, review)].
Proof.
  unfold addIfAbsent.
  destruct (JsMap.has (id review) (scrapedReviews st)) eqn:H; [reflexivity|].
  simpl. apply set_absent. assumption.
Qed.

Lemma addIfAbsent_flag review st :
  isScrolling (addIfAbsent review st) = isScrolling st.
Proof.
  unfold addIfAbsent.
  destruct (JsMap.has (id review) (scrapedReviews st)); reflexivity.
Qed.

Lemma addIfAbsent_fields review st :
  isScrolling (addIfAbsent review st) = isScrolling st
  /\ processedElementsCount (addIfAbsent review st) = processedElementsCount st
  /\ noNewElementsCount (addIfAbsent review st) = noNewElementsCount st
  /\ console (addIfAbsent review st) = console st.
Proof.
  unfold addIfAbsent.
  destruct (JsMap.has (id review) (scrapedReviews st)); auto.
Qed.

Lemma addIfAbsent_extends review st :
  exists added,
    scrapedReviews (addIfAbsent review st) = scrapedReviews st ++ added.
Proof.
  rewrite addIfAbsent_reviews.
  destruct (JsMap.has (id review) (scrapedReviews st)).
  - exists []. now rewrite app_nil_r.
  - eexists. reflexivity.
Qed.

Lemma addIfAbsent_WellKeyed review st :
  WellKeyed (scrapedReviews st) ->
  WellKeyed (scrapedReviews (addIfAbsent review st)).
Proof.
  intros H. rewrite addIfAbsent_reviews.
  destruct (JsMap.has (id review) (scrapedReviews st)) eqn:E; [assumption|].
  apply WellKeyed_add; assumption.
Qed.

End MapFacts.

(* ================================================================== *)
(** ** The loop of [ScraperReviews] *)
(* ================================================================== *)

Module LoopFacts.
Import Update Runs MapFacts.

Lemma Extends_refl st : Extends st st.
Proof. split; [exists []; now rewrite app_nil_r | auto]. Qed.

Lemma Extends_trans a b c : Extends a b -> Extends b c -> Extends a c.
Proof.
  intros [[x Hx] Hab] [[y Hy] Hbc]. split; [|auto].
  exists (x ++ y). rewrite Hy, Hx. now rewrite app_assoc.
Qed.

Lemma Extends_same st st' :
  scrapedReviews st' = scrapedReviews st -> Extends st st'.
Proof.
  intros H. split; [exists []; now rewrite app_nil_r | now rewrite H].
Qed.

Lemma Extends_addIfAbsent review st : Extends st (addIfAbsent review st).
Proof.
  split; [apply addIfAbsent_extends | apply addIfAbsent_WellKeyed].
Qed.

Create HintDb harvest.
#[local] Hint Resolve Extends_refl Extends_same Extends_addIfAbsent : harvest.

Section Loop.

Variable LocalTZA : JsDate.Zone.
Variable clock : nat -> Z.
Variable lastScrapedDate : option string.

Let forReviews := forReviews LocalTZA clock lastScrapedDate.
Let iteration := iteration LocalTZA clock lastScrapedDate.
Let whileScrolling := whileScrolling LocalTZA clock lastScrapedDate.
Let afterIterations := afterIterations LocalTZA clock lastScrapedDate.

Lemma forReviews_Extends reviews : forall st, Extends st (forReviews reviews st).
Proof.
  induction reviews as [|review rest IH]; intros st; simpl.
  - apply Extends_refl.
  - unfold forReviews in *. simpl.
    destruct lastScrapedDate as [cutoff|].
    + destruct (truthy (Some cutoff)); [|apply IH].
      destruct (isStopedAt LocalTZA clock cutoff review st) as [[|]|].
      * destruct (isHighRating review).
        -- eapply Extends_trans; [|apply IH]. auto with harvest.
        -- eapply Extends_trans; [|apply IH].
           eapply Extends_trans; [|apply Extends_addIfAbsent].
           auto with harvest.
      * eapply Extends_trans; [|apply IH]. auto with harvest.
      * eapply Extends_trans; [|apply IH]. auto with harvest.
    + destruct (isHighRating review).
      * auto with harvest.
      * eapply Extends_trans; [|apply IH]. auto with harvest.
Qed.

Lemma countNoNew_reviews n st :
  scrapedReviews (countNoNew n st) = scrapedReviews st.
Proof.
  unfold countNoNew. destruct (Nat.eqb n 0); [|reflexivity].
  destruct (Nat.leb _ _); reflexivity.
Qed.

Lemma iteration_Extends r st : Extends st (fst (iteration r st)).
Proof.
  unfold iteration, Update.iteration.
  destruct r as [e| |allElements]; simpl; auto with harvest.
  eapply Extends_trans; [|apply Extends_same, countNoNew_reviews].
  eapply Extends_trans; [|apply forReviews_Extends].
  auto with harvest.
Qed.

Lemma whileScrolling_Extends script :
  forall st st', whileScrolling script st = Some st' -> Extends st st'.
Proof.
  unfold whileScrolling.
  induction script as [|r script IH]; intros st st'; simpl.
  - destruct (isScrolling st); [discriminate|].
    intros H; injection H as <-. apply Extends_refl.
  - destruct (isScrolling st).
    + pose proof (iteration_Extends r st) as Hit.
      unfold iteration in Hit.
      destruct (Update.iteration LocalTZA clock lastScrapedDate r st)
        as [st1 broke]. simpl in Hit.
      destruct broke.
      * intros H; injection H as <-. assumption.
      * intros H. eapply Extends_trans; [exact Hit|]. apply IH, H.
    + intros H; injection H as <-. apply Extends_refl.
Qed.

Lemma afterIterations_Extends script :
  forall st st', afterIterations script st = Some st' -> Extends st st'.
Proof.
  unfold afterIterations.
  induction script as [|r script IH]; intros st st'; simpl.
  - intros H; injection H as <-. apply Extends_refl.
  - destruct (isScrolling st); [|discriminate].
    pose proof (iteration_Extends r st) as Hit.
    unfold iteration in Hit.
    destruct (Update.iteration LocalTZA clock lastScrapedDate r st)
      as [st1 broke]. simpl in Hit.
    destruct broke; [discriminate|].
    intros H. eapply Extends_trans; [exact Hit|]. apply IH, H.
Qed.

(** Once the loop got through [pre], the rest of the run starts from the
    state reached. *)
Lemma whileScrolling_app pre rest :
  forall st st',
    afterIterations pre st = Some st' ->
    whileScrolling (pre ++ rest) st = whileScrolling rest st'.
Proof.
  unfold afterIterations, whileScrolling.
  induction pre as [|r pre IH]; intros st st'; simpl.
  - intros H; injection H as <-. reflexivity.
  - destruct (isScrolling st); [|discriminate].
    destruct (Update.iteration LocalTZA clock lastScrapedDate r st)
      as [st1 broke].
    destruct broke; [discriminate|]. apply IH.
Qed.

End Loop.

End LoopFacts.

(* ================================================================== *)
(** ** Runs without cutoff *)
(* ================================================================== *)

Module Saturation.
Import Update Runs MapFacts LoopFacts.

Lemma uniqueFrom_ext l : forall s1 s2,
  (forall k, existsb (String.eqb k) s1 = existsb (String.eqb k) s2) ->
  uniqueFrom s1 l = uniqueFrom s2 l.
Proof.
  induction l as [|r t IH]; intros s1 s2 H; simpl; [reflexivity|].
  rewrite (H (id r)). destruct (existsb (String.eqb (id r)) s2).
  - apply IH, H.
  - f_equal. apply IH. intros k. simpl. now rewrite H.
Qed.

Lemma uniqueFrom_app l1 : forall seen l2,
  uniqueFrom seen (l1 ++ l2) =
  uniqueFrom seen l1 ++ uniqueFrom (map id l1 ++ seen) l2.
Proof.
  induction l1 as [|r t IH]; intros seen l2; simpl; [reflexivity|].
  destruct (existsb (String.eqb (id r)) seen) eqn:E.
  - rewrite IH. f_equal. apply uniqueFrom_ext. intros k. simpl.
    rewrite !existsb_app.
    destruct (String.eqb k (id r)) eqn:Ek; [|reflexivity].
    apply String.eqb_eq in Ek. subst k. rewrite E.
    now rewrite orb_true_r.
  - rewrite IH. simpl. do 2 f_equal. apply uniqueFrom_ext. intros k. simpl.
    rewrite !existsb_app. simpl.
    destruct (String.eqb k (id r)); simpl;
      [now rewrite orb_true_r | reflexivity].
Qed.

(** [uniqueById] keeps one record of every identity, and only those. *)
Lemma uniqueFrom_In l : forall seen k,
  In k (map id (uniqueFrom seen l)) <->
  In k (map id l) /\ existsb (String.eqb k) seen = false.
Proof.
  induction l as [|r t IH]; intros seen k; simpl; [tauto|].
  destruct (existsb (String.eqb (id r)) seen) eqn:E.
  - rewrite IH. split; [tauto|]. intros [[H|H] Hs]; [|tauto].
    subst k. congruence.
  - simpl. rewrite IH. simpl.
    destruct (String.eqb k (id r)) eqn:Ek.
    + apply String.eqb_eq in Ek. subst k. simpl. intuition congruence.
    + simpl. apply String.eqb_neq in Ek. intuition congruence.
Qed.

Lemma uniqueFrom_NoDup l : forall seen, NoDup (map id (uniqueFrom seen l)).
Proof.
  induction l as [|r t IH]; intros seen; simpl; [constructor|].
  destruct (existsb (String.eqb (id r)) seen); [apply IH|].
  simpl. constructor; [|apply IH].
  rewrite uniqueFrom_In. simpl. rewrite String.eqb_refl. simpl.
  intros [_ H]. discriminate.
Qed.

Section NoCutoff.

Variable LocalTZA : JsDate.Zone.
Variable clock : nat -> Z.

Let forReviews := forReviews LocalTZA clock None.
Let afterIterations := afterIterations LocalTZA clock None.

(** A batch of low ratings: each new identity is appended. *)
Lemma forReviews_low batch : forall st seen,
  lowRated batch ->
  (forall k, JsMap.has k (scrapedReviews st) = existsb (String.eqb k) seen) ->
  let st' := forReviews batch st in
  JsMap.values (scrapedReviews st')
    = JsMap.values (scrapedReviews st) ++ uniqueFrom seen batch
  /\ (forall k, JsMap.has k (scrapedReviews st')
                = existsb (String.eqb k) (map id batch ++ seen))
  /\ isScrolling st' = isScrolling st
  /\ processedElementsCount st' = processedElementsCount st
  /\ noNewElementsCount st' = noNewElementsCount st
  /\ console st' = console st.
Proof.
  unfold forReviews. cbv zeta.
  induction batch as [|r t IH]; intros st seen Hlow Hseen; simpl.
  - rewrite app_nil_r. auto 6.
  - inversion Hlow as [|? ? Hr Ht]; subst. rewrite Hr.
    rewrite <- (Hseen (id r)).
    destruct (JsMap.has (id r) (scrapedReviews st)) eqn:E.
    + assert (Hst : addIfAbsent r st = st)
        by (unfold addIfAbsent; now rewrite E).
      rewrite Hst.
      destruct (IH st seen Ht Hseen) as (Hv & Hk & Hrest).
      split; [exact Hv|]. split; [|exact Hrest].
      intros k. rewrite Hk. rewrite !existsb_app.
      destruct (String.eqb k (id r)) eqn:Ek; [|reflexivity].
      apply String.eqb_eq in Ek. subst k.
      rewrite <- Hseen, E. now rewrite orb_true_r.
    + pose proof (addIfAbsent_reviews r st) as Hadd. rewrite E in Hadd.
      destruct (IH (addIfAbsent r st) (id r :: seen) Ht)
        as (Hv & Hk & Hf & Hp & Hn & Hc).
      { intros k. rewrite Hadd, has_app. simpl. rewrite Hseen.
        rewrite orb_false_r. apply orb_comm. }
      destruct (addIfAbsent_fields r st) as (Hf' & Hp' & Hn' & Hc').
      rewrite Hv, Hf, Hp, Hn, Hc, Hadd, Hf', Hp', Hn', Hc'.
      repeat split; try reflexivity.
      * unfold JsMap.values. rewrite map_app. simpl.
        now rewrite <- app_assoc.
      * intros k. rewrite Hk. rewrite !existsb_app. simpl.
        destruct (String.eqb k (id r)); simpl;
          [now rewrite orb_true_r | reflexivity].
Qed.

(** The first high rating of a batch ends the batch there. *)
Lemma forReviews_trigger before trigger after : forall st,
  lowRated before -> isHighRating trigger = true ->
  forReviews (before ++ trigger :: after) st
  = stopScrolling (forReviews before st).
Proof.
  unfold forReviews.
  induction before as [|r t IH]; intros st Hlow Hhigh; simpl.
  - now rewrite Hhigh.
  - inversion Hlow as [|? ? Hr Ht]; subst. rewrite Hr. now apply IH.
Qed.

(** A batch that leaves the loop running held no high rating. *)
Lemma forReviews_running batch : forall st,
  isScrolling (forReviews batch st) = true -> lowRated batch.
Proof.
  unfold forReviews.
  induction batch as [|r t IH]; intros st H; simpl in *; [constructor|].
  destruct (isHighRating r) eqn:E; [discriminate|].
  constructor; [assumption|]. eapply IH, H.
Qed.

Lemma countNoNew_running n st :
  isScrolling (countNoNew n st) = true -> isScrolling st = true.
Proof.
  unfold countNoNew. destruct (Nat.eqb n 0); [|auto].
  destruct (Nat.leb _ _); [discriminate|auto].
Qed.

Lemma countNoNew_processed n st :
  processedElementsCount (countNoNew n st) = processedElementsCount st.
Proof.
  unfold countNoNew. destruct (Nat.eqb n 0); [|reflexivity].
  destruct (Nat.leb _ _); reflexivity.
Qed.

Lemma afterIterations_running script : forall st st',
  afterIterations script st = Some st' ->
  isScrolling st' = true -> isScrolling st = true.
Proof.
  unfold afterIterations.
  destruct script as [|r script]; intros st st'; simpl.
  - intros H; injection H as <-. auto.
  - destruct (isScrolling st); [auto|discriminate].
Qed.

Lemma Collected_step seen st batch :
  Collected seen st -> lowRated batch ->
  forall st', scrapedReviews st' = scrapedReviews (forReviews batch st) ->
  Collected (seen ++ batch) st'.
Proof.
  intros (Hv & Hk & Hl) Hlow st' Hst'.
  destruct (forReviews_low batch st (map id seen) Hlow Hk)
    as (Hv' & Hk' & _).
  unfold Collected. rewrite Hst'. split; [|split].
  - rewrite Hv', Hv. unfold uniqueById. rewrite uniqueFrom_app.
    now rewrite app_nil_r.
  - intros k. rewrite Hk'. rewrite map_app, !existsb_app. apply orb_comm.
  - apply Forall_app. split; assumption.
Qed.

(** While the loop keeps running, everything extracted was a low rating
    and the map is the deduplicated extraction. *)
Lemma afterIterations_Collected script : forall seen st st',
  Collected seen st ->
  afterIterations script st = Some st' ->
  isScrolling st' = true ->
  Collected (seen ++ extractedBy script (processedElementsCount st)) st'.
Proof.
  unfold afterIterations.
  induction script as [|r script IH]; intros seen st st' Hc; simpl.
  - intros H _; injection H as <-. now rewrite app_nil_r.
  - destruct (isScrolling st); [|discriminate].
    destruct r as [e| |allElements]; simpl; try discriminate.
    intros Hrun Hlive.
    set (batch := extract (skipn (processedElementsCount st) allElements)) in *.
    set (st1 := withProcessed (List.length allElements) st) in *.
    set (st2 := Update.forReviews LocalTZA clock None batch st1) in *.
    set (st3 := countNoNew _ st2) in *.
    assert (Hlive3 : isScrolling st3 = true)
      by (eapply afterIterations_running; eassumption).
    assert (Hlow : lowRated batch).
    { apply (forReviews_running batch st1).
      apply countNoNew_running in Hlive3. exact Hlive3. }
    assert (Hc3 : Collected (seen ++ batch) st3).
    { apply (Collected_step seen st1 batch); [exact Hc | exact Hlow |].
      apply countNoNew_reviews. }
    specialize (IH _ _ _ Hc3 Hrun Hlive).
    rewrite <- app_assoc in IH.
    replace (processedElementsCount st3) with (List.length allElements) in IH.
    + exact IH.
    + unfold st3, st2. rewrite countNoNew_processed.
      destruct Hc as (_ & Hk & _).
      destruct (forReviews_low batch st1 (map id seen) Hlow Hk)
        as (_ & _ & _ & Hp & _).
      symmetry. exact Hp.
Qed.

End NoCutoff.

End Saturation.

(* ================================================================== *)
(** ** Properties of the harvest loop *)
(* ================================================================== *)

Module HarvestProperties.
Import Update Runs MapFacts LoopFacts Saturation.

Lemma get_app_l k v m added :
  JsMap.get k m = Some v -> JsMap.get k (m ++ added) = Some v.
Proof.
  induction m as [|[k' v'] m IH]; simpl; [discriminate|].
  destruct (String.eqb k k'); auto.
Qed.

(** C6.  In both modes, whatever the page answers: the returned sequence
    never holds two records of equal identity, no state the loop passes
    through holds a key twice, and an entry once stored is never
    overwritten: a run only appends to the map, and observing a stored
    identity again changes nothing. *)
Theorem dedup_invariant
  (LocalTZA : JsDate.Zone) (clock : nat -> Z) (lastScrapedDate : option string) :
  (forall script finalReviews lines,
      ScraperReviews LocalTZA clock lastScrapedDate script
        = Some (finalReviews, lines) ->
      NoDup (map id finalReviews))
  /\ (forall pre st,
      afterIterations LocalTZA clock lastScrapedDate pre initialState = Some st ->
      NoDup (JsMap.keys (scrapedReviews st)))
  /\ (forall script st st' k v,
      whileScrolling LocalTZA clock lastScrapedDate script st = Some st' ->
      JsMap.get k (scrapedReviews st) = Some v ->
      JsMap.get k (scrapedReviews st') = Some v)
  /\ (forall review st,
      JsMap.has (id review) (scrapedReviews st) = true ->
      addIfAbsent review st = st).
Proof.
  split; [|split; [|split]].
  - intros script finalReviews lines H. unfold ScraperReviews in H.
    destruct (whileScrolling _ _ _ script initialState) as [st|] eqn:E;
      [|discriminate].
    injection H as <- _.
    apply whileScrolling_Extends in E. destruct E as [_ Hwk].
    specialize (Hwk WellKeyed_empty).
    rewrite values_ids by assumption. apply Hwk.
  - intros pre st H.
    apply afterIterations_Extends in H. destruct H as [_ Hwk].
    apply (Hwk WellKeyed_empty).
  - intros script st st' k v H Hget.
    apply whileScrolling_Extends in H. destruct H as [[added Hadd] _].
    rewrite Hadd. now apply get_app_l.
  - intros review st H. unfold addIfAbsent. now rewrite H.
Qed.

Lemma dedup_invariant_witness :
  NoDup (map id [Samples.review "a" "1 day ago" false;
                 Samples.review "b" "1 day ago" false]).
Proof.
  apply (proj1 (dedup_invariant Samples.utc Samples.clock (Some "2 days ago"%string))
           [EvalReturns [Some (Samples.review "a" "1 day ago" false);
                         Some (Samples.review "b" "1 day ago" false);
                         Some (Samples.review "a" "1 day ago" false);
                         Some (Samples.review "c" "3 days ago" false)]]
           _ [LogStopping "c"]).
  vm_compute. reflexivity.
Defined.

(** C8.  When [page.evaluate] throws in an iteration, the loop ends there:
    the function returns exactly the values stored by the iterations before
    it, and reports the error on the console. *)
Theorem partial_results_on_failure
  (LocalTZA : JsDate.Zone) (clock : nat -> Z) (lastScrapedDate : option string)
  (pre rest : list EvaluateResult) (e : JsError) (st : LoopState) :
  afterIterations LocalTZA clock lastScrapedDate pre initialState = Some st ->
  isScrolling st = true ->
  ScraperReviews LocalTZA clock lastScrapedDate (pre ++ EvalThrows e :: rest)
  = Some (JsMap.values (scrapedReviews st),
          console st ++ [ErrorWith "Error in scroll iteration:" e]).
Proof.
  intros Hpre Hlive. unfold ScraperReviews.
  rewrite (whileScrolling_app _ _ _ _ _ _ _ Hpre).
  simpl. rewrite Hlive. reflexivity.
Qed.

Lemma partial_results_on_failure_witness :
  ScraperReviews Samples.utc Samples.clock None
    ([EvalReturns [Some (Samples.review "a" "1 day ago" false)];
      EvalReturns [Some (Samples.review "a" "1 day ago" false);
                   Some (Samples.review "b" "2 days ago" false)]]
     ++ EvalThrows Samples.failure :: [EvalReturns []])
  = Some ([Samples.review "a" "1 day ago" false;
           Samples.review "b" "2 days ago" false],
          [ErrorWith "Error in scroll iteration:" Samples.failure]).
Proof.
  apply (partial_results_on_failure Samples.utc Samples.clock None
           [EvalReturns [Some (Samples.review "a" "1 day ago" false)];
            EvalReturns [Some (Samples.review "a" "1 day ago" false);
                         Some (Samples.review "b" "2 days ago" false)]]
           [EvalReturns []] Samples.failure
           (mkState true
              [("a"%string, Samples.review "a" "1 day ago" false);
               ("b"%string, Samples.review "b" "2 days ago" false)]
              2 0 0 [])).
  - vm_compute. reflexivity.
  - reflexivity.
Defined.

(** C4.  Without a cutoff, when the loop is still running after the
    iterations [pre] and the next batch holds a high rating [trigger] after
    the low ratings [before]: every record extracted earlier was a low
    rating, so [trigger] is the first high rating overall; the batch is
    left at [trigger]; the loop ends with [isScrolling = false]; and the
    result is exactly the first record of each identity among the records
    extracted before [trigger], which itself is not stored. *)
Theorem saturation_stops_at_first_high_rating
  (LocalTZA : JsDate.Zone) (clock : nat -> Z)
  (pre rest : list EvaluateResult) (allElements : list Element)
  (st : LoopState) (before after : list ReviewType) (trigger : ReviewType) :
  afterIterations LocalTZA clock None pre initialState = Some st ->
  isScrolling st = true ->
  extract (skipn (processedElementsCount st) allElements)
    = before ++ trigger :: after ->
  lowRated before ->
  isHighRating trigger = true ->
  let earlier := extractedBy pre 0 ++ before in
  lowRated earlier
  /\ (forall st0,
        forReviews LocalTZA clock None (before ++ trigger :: after) st0
        = stopScrolling (forReviews LocalTZA clock None before st0))
  /\ exists final,
      whileScrolling LocalTZA clock None
        (pre ++ EvalReturns allElements :: rest) initialState = Some final
      /\ isScrolling final = false
      /\ JsMap.values (scrapedReviews final) = uniqueById earlier
      /\ ScraperReviews LocalTZA clock None
           (pre ++ EvalReturns allElements :: rest)
         = Some (uniqueById earlier, console final).
Proof.
  intros Hpre Hlive Hbatch Hlow Hhigh earlier.
  assert (Hinit : Collected [] initialState).
  { split; [reflexivity|]. split; [reflexivity|constructor]. }
  pose proof (afterIterations_Collected LocalTZA clock pre [] initialState st
                Hinit Hpre Hlive) as Hc.
  simpl in Hc.
  set (st1 := withProcessed (List.length allElements) st).
  set (st2 := forReviews LocalTZA clock None before st1).
  set (n := List.length (skipn (processedElementsCount st) allElements)).
  set (final := countNoNew n (stopScrolling st2)).
  assert (Hn : Nat.eqb n 0 = false).
  { unfold n.
    destruct (skipn (processedElementsCount st) allElements) as [|x xs];
      [|reflexivity].
    destruct before; discriminate Hbatch. }
  assert (Hfinal : final = withNoNew 0 (stopScrolling st2)).
  { unfold final, countNoNew. now rewrite Hn. }
  assert (Hc2 : Collected (extractedBy pre 0 ++ before) final).
  { apply (Collected_step LocalTZA clock _ st1 before Hc Hlow).
    rewrite Hfinal. reflexivity. }
  split; [apply Hc2|].
  split; [intros st0; now apply forReviews_trigger|].
  assert (Hrun : whileScrolling LocalTZA clock None
                   (pre ++ EvalReturns allElements :: rest) initialState
                 = Some final).
  { rewrite (whileScrolling_app _ _ _ _ _ _ _ Hpre).
    simpl. rewrite Hlive. rewrite Hbatch.
    rewrite (forReviews_trigger LocalTZA clock before trigger after _ Hlow Hhigh).
    fold st1 st2 n final.
    destruct rest; rewrite Hfinal; reflexivity. }
  exists final. split; [exact Hrun|].
  split; [rewrite Hfinal; reflexivity|].
  split; [apply Hc2|].
  unfold ScraperReviews. rewrite Hrun.
  destruct Hc2 as [Hv _]. now rewrite Hv.
Qed.

Lemma saturation_stops_at_first_high_rating_witness :
  exists final,
    whileScrolling Samples.utc Samples.clock None
      ([EvalReturns [Some (Samples.review "a" "a day ago" false);
                     Some (Samples.review "b" "a day ago" false)]]
       ++ EvalReturns [Some (Samples.review "a" "a day ago" false);
                       Some (Samples.review "b" "a day ago" false);
                       Some (Samples.review "a" "a day ago" false);
                       Some (Samples.review "c" "a day ago" false);
                       Some (Samples.review "d" "a day ago" true);
                       Some (Samples.review "e" "a day ago" false)]
          :: []) initialState = Some final
    /\ isScrolling final = false
    /\ JsMap.values (scrapedReviews final)
       = uniqueById
           (extractedBy
              [EvalReturns [Some (Samples.review "a" "a day ago" false);
                            Some (Samples.review "b" "a day ago" false)]] 0
            ++ [Samples.review "a" "a day ago" false;
                Samples.review "c" "a day ago" false])
    /\ ScraperReviews Samples.utc Samples.clock None
         ([EvalReturns [Some (Samples.review "a" "a day ago" false);
                        Some (Samples.review "b" "a day ago" false)]]
          ++ EvalReturns [Some (Samples.review "a" "a day ago" false);
                          Some (Samples.review "b" "a day ago" false);
                          Some (Samples.review "a" "a day ago" false);
                          Some (Samples.review "c" "a day ago" false);
                          Some (Samples.review "d" "a day ago" true);
                          Some (Samples.review "e" "a day ago" false)]
             :: [])
       = Some (uniqueById
                 (extractedBy
                    [EvalReturns [Some (Samples.review "a" "a day ago" false);
                                  Some (Samples.review "b" "a day ago" false)]] 0
                  ++ [Samples.review "a" "a day ago" false;
                      Samples.review "c" "a day ago" false]),
               console final).
Proof.
  refine (proj2 (proj2 (saturation_stops_at_first_high_rating
    Samples.utc Samples.clock
    [EvalReturns [Some (Samples.review "a" "a day ago" false);
                  Some (Samples.review "b" "a day ago" false)]]
    []
    [Some (Samples.review "a" "a day ago" false);
     Some (Samples.review "b" "a day ago" false);
     Some (Samples.review "a" "a day ago" false);
     Some (Samples.review "c" "a day ago" false);
     Some (Samples.review "d" "a day ago" true);
     Some (Samples.review "e" "a day ago" false)]
    (mkState true
       [("a"%string, Samples.review "a" "a day ago" false);
        ("b"%string, Samples.review "b" "a day ago" false)] 2 0 0 [])
    [Samples.review "a" "a day ago" false;
     Samples.review "c" "a day ago" false]
    [Samples.review "e" "a day ago" false]
    (Samples.review "d" "a day ago" true)
    _ _ _ _ _))).
  - vm_compute. reflexivity.
  - reflexivity.
  - reflexivity.
  - repeat constructor.
  - reflexivity.
Defined.

(** The earlier loop of index.ts differs: it stores the high rating that
    ends the harvest. *)
Example legacy_stores_the_trigger :
  Legacy.ScrapeReviews
    [EvalReturns [Some (Samples.review "a" "a day ago" false);
                  Some (Samples.review "d" "a day ago" true);
                  Some (Samples.review "e" "a day ago" false)]]
  = Some ([Samples.review "a" "a day ago" false;
           Samples.review "d" "a day ago" true], []).
Proof. reflexivity. Qed.

End HarvestProperties.

(* ================================================================== *)
(** ** Runs with a cutoff, and the size of the result *)
(* ================================================================== *)

Module CutoffProperties.
Import Update Runs MapFacts LoopFacts.

(** No branch of the batch loop sets [isScrolling] back to [true]. *)
Lemma forReviews_stays_stopped LocalTZA clock lastScrapedDate batch :
  forall st,
    isScrolling st = false ->
    isScrolling (forReviews LocalTZA clock lastScrapedDate batch st) = false.
Proof.
  induction batch as [|r t IH]; intros st H; simpl; [assumption|].
  destruct lastScrapedDate as [cutoff|].
  - destruct (truthy (Some cutoff)); [|now apply IH].
    destruct (isStopedAt LocalTZA clock cutoff r st) as [[|]|];
      try (apply IH; reflexivity).
    destruct (isHighRating r); apply IH; [assumption|].
    now rewrite addIfAbsent_flag.
  - destruct (isHighRating r); [reflexivity|].
    apply IH. now rewrite addIfAbsent_flag.
Qed.

(** C2.  What the code does with a comparison that yields [null]: it takes
    the [else] branch of [isStopedAt === true], the branch of a record
    older than the cutoff, and the batch ends with [isScrolling = false]. *)
Theorem null_comparison_stops_harvest
  (LocalTZA : JsDate.Zone) (clock : nat -> Z) (cutoff : string)
  (review : ReviewType) (later : list ReviewType) (st : LoopState) :
  truthy (Some cutoff) = true ->
  isStopedAt LocalTZA clock cutoff review st = None ->
  isScrolling (forReviews LocalTZA clock (Some cutoff) (review :: later) st)
  = false.
Proof.
  intros Ht Hnull. cbn [forReviews]. rewrite Ht, Hnull.
  apply forReviews_stays_stopped. reflexivity.
Qed.

Lemma null_comparison_stops_harvest_witness :
  isScrolling
    (forReviews Samples.utc Samples.clock (Some "2 days ago"%string)
       (Samples.review "a" "Unknown date" false
        :: [Samples.review "b" "1 day ago" false]) initialState)
  = false.
Proof.
  apply (null_comparison_stops_harvest Samples.utc Samples.clock "2 days ago"
           (Samples.review "a" "Unknown date" false)
           [Samples.review "b" "1 day ago" false] initialState).
  - reflexivity.
  - vm_compute. reflexivity.
Defined.

(** The whole run on that input: the record without a date ends the
    harvest after one iteration. *)
Example unknown_date_ends_the_harvest :
  ScraperReviews Samples.utc Samples.clock (Some "2 days ago"%string)
    [EvalReturns [Some (Samples.review "a" "Unknown date" false);
                  Some (Samples.review "b" "1 day ago" false)];
     EvalReturns [Some (Samples.review "a" "Unknown date" false);
                  Some (Samples.review "b" "1 day ago" false);
                  Some (Samples.review "c" "1 day ago" false)]]
  = Some ([Samples.review "b" "1 day ago" false], [LogStopping "a"]).
Proof. vm_compute. reflexivity. Qed.

(** C5.  What the code does after a record older than the cutoff: the flag
    is cleared but the batch goes on, and a later record of the batch that
    is within the cutoff is stored. *)
Theorem record_accepted_after_cutoff_stop :
  let old := Samples.review "old" "3 days ago" false in
  let recent := Samples.review "recent" "1 day ago" false in
  isStopedAt Samples.utc Samples.clock "2 days ago" old initialState = Some false
  /\ isScrolling
       (forReviews Samples.utc Samples.clock (Some "2 days ago"%string) [old] initialState)
     = false
  /\ ScraperReviews Samples.utc Samples.clock (Some "2 days ago"%string)
       [EvalReturns [Some old; Some recent]]
     = Some ([recent], [LogStopping "old"]).
Proof. vm_compute. repeat split. Qed.

(** On the stream of the specification's example the result is the first
    two records, deduplicated. *)
Example cutoff_example_stream :
  ScraperReviews Samples.utc Samples.clock (Some "2 days ago"%string)
    [EvalReturns [Some (Samples.review "a" "1 day ago" false);
                  Some (Samples.review "a" "1 day ago" false);
                  Some (Samples.review "b" "3 days ago" false);
                  Some (Samples.review "c" "5 days ago" false)]]
  = Some ([Samples.review "a" "1 day ago" false],
          [LogStopping "b"; LogStopping "c"])
  /\ ScraperReviews Samples.utc Samples.clock (Some "2 days ago"%string)
    [EvalReturns [Some (Samples.review "a" "1 day ago" false);
                  Some (Samples.review "a2" "1 day ago" false);
                  Some (Samples.review "b" "3 days ago" false);
                  Some (Samples.review "c" "5 days ago" false)]]
  = Some ([Samples.review "a" "1 day ago" false;
           Samples.review "a2" "1 day ago" false],
          [LogStopping "b"; LogStopping "c"]).
Proof. vm_compute. split; reflexivity. Qed.

(** The earlier loop of index.ts ends an iteration that leaves more than
    1000 entries with [isScrolling = false]. *)
Lemma legacy_cap allElements st st' broke :
  Legacy.loopBody (EvalReturns allElements) st = (st', broke) ->
  (1000 < JsMap.size (scrapedReviews st'))%nat ->
  isScrolling st' = false /\ broke = true.
Proof.
  unfold Legacy.loopBody.
  set (st2 := Legacy.storeReviews _ _).
  set (st3 := if Nat.eqb _ 0 then _ else _).
  destruct (_ && _).
  - intros H _. injection H as <- <-. auto.
  - destruct (Nat.ltb 1000 (JsMap.size (scrapedReviews st3))) eqn:E.
    + intros H _. injection H as <- <-. auto.
    + intros H Hsize. injection H as <- <-.
      apply Nat.ltb_ge in E. lia.
Qed.

(** C3.  [ScraperReviews] has no limit on the size of the map.  After an
    iteration that stored 1001 distinct records the loop is still running,
    with or without a cutoff, and the next iteration stores a 1002nd; the
    earlier loop stops at 1001 on the same page. *)
Theorem no_size_limit_in_ScraperReviews :
  let page1 := Samples.lowElements 1001 in
  let page2 := page1 ++ [Some (Samples.review "next" "1 day ago" false)] in
  let sizeAndFlag st :=
    (JsMap.size (scrapedReviews st), isScrolling st) in
  option_map sizeAndFlag
    (afterIterations Samples.utc Samples.clock None [EvalReturns page1] initialState)
    = Some (1001%nat, true)
  /\ option_map sizeAndFlag
    (afterIterations Samples.utc Samples.clock None
       [EvalReturns page1; EvalReturns page2] initialState)
    = Some (1002%nat, true)
  /\ option_map sizeAndFlag
    (afterIterations Samples.utc Samples.clock (Some "2 days ago"%string)
       [EvalReturns page1; EvalReturns page2] initialState)
    = Some (1002%nat, true)
  /\ option_map sizeAndFlag
       (Legacy.whileLoop [EvalReturns page1; EvalReturns page2] initialState)
    = Some (1001%nat, false).
Proof. vm_compute. repeat split. Qed.

End CutoffProperties.

(* ================================================================== *)
(** ** Properties of the entry points *)
(* ================================================================== *)

Module EntryProperties.
Import Update Index.

(** The callback is falsy on every item, so the filter keeps nothing. *)
Lemma arrayFilter_lowRatingCallback reviews :
  arrayFilter lowRatingCallback reviews = [].
Proof.
  unfold arrayFilter. induction reviews as [|r t IH]; simpl; auto.
Qed.

(** Case analysis on the outcome of the next step that is consulted. *)
Ltac step_cases :=
  repeat match goal with
    | |- context [match ?x with _ => _ end] =>
        lazymatch x with
        | context [match _ with _ => _ end] => fail
        | _ => destruct x; cbv beta iota zeta
        end
    end.

(** C1.  When no step of the invocation throws and the harvest returns,
    whatever it returns, [scrapeGoogleMapsReviews] logs the harvested
    reviews and resolves to the empty array; and in no case does it resolve
    to an array that holds a review. *)
Theorem scrapeGoogleMapsReviews_resolves_to_empty_array
  (LocalTZA : JsDate.Zone) (clock : nat -> Z) (session : Session) (url : string)
  (out : list ConsoleLine) :
  (forall url' harvested lines,
      BrowserInstance session = Normal tt ->
      goto session url = Normal tt ->
      addLanguageToMapsUrl session url "en" = Normal url' ->
      goto session url' = Normal tt ->
      ReviewsTab session = Normal tt ->
      FilterBy session "Lowest rating" = Normal tt ->
      scrollBy session = Normal tt ->
      waitForSelector session <> Pending ->
      ScraperReviews LocalTZA clock None (reviewPages session)
        = Some (harvested, lines) ->
      pageClose session = Normal tt ->
      browserClose session = Normal tt ->
      exists before,
        scrapeGoogleMapsReviews LocalTZA clock session url out
        = (before ++ lines ++ [LogFinalReviews harvested],
           Normal (ReviewArray [])))
  /\ (forall v,
      snd (scrapeGoogleMapsReviews LocalTZA clock session url out) = Normal v ->
      v = Undefined \/ v = ReviewArray []).
Proof.
  split.
  - intros url' harvested lines H1 H2 H3 H4 H5 H6 H7 H8 H9 H10 H11.
    unfold scrapeGoogleMapsReviews, awaitReviewsLoaded, awaitScraperReviews,
      tryCatch, bind, await, print, ret.
    rewrite H1, H2, H3, H4, H5, H6, H7, H9, H10, H11.
    cbv beta iota zeta. rewrite arrayFilter_lowRatingCallback.
    destruct (waitForSelector session) as [[]|e|]; [| |congruence];
      cbv beta iota zeta; rewrite <- app_assoc; eexists; reflexivity.
  - intros v.
    unfold scrapeGoogleMapsReviews, awaitReviewsLoaded, awaitScraperReviews,
      tryCatch, bind, await, print, ret.
    rewrite ?arrayFilter_lowRatingCallback.
    step_cases; cbn [snd]; intros H; try discriminate H;
      injection H as <-; rewrite ?arrayFilter_lowRatingCallback; auto.
Qed.

Lemma scrapeGoogleMapsReviews_resolves_to_empty_array_witness :
  exists before,
    scrapeGoogleMapsReviews Samples.utc Samples.clock
      (Samples.session
         [EvalReturns [Some (Samples.review "a" "a day ago" false);
                       Some (Samples.review "b" "a day ago" false);
                       Some (Samples.review "c" "a day ago" true)]])
      "https://maps.google.com/place" []
    = (before ++ [] ++ [LogFinalReviews [Samples.review "a" "a day ago" false;
                                         Samples.review "b" "a day ago" false]],
       Normal (ReviewArray [])).
Proof.
  apply (proj1 (scrapeGoogleMapsReviews_resolves_to_empty_array
                  Samples.utc Samples.clock _ "https://maps.google.com/place" [])
           "https://maps.google.com/place?hl=en"%string);
    first [reflexivity | discriminate].
Defined.

(** C10.  [scrapeNewGoogleMapsReviews] never resolves to anything but
    [undefined]: whenever the call settles, its value is [undefined]; and
    when every step succeeds the harvested reviews go to the console and
    are not returned. *)
Theorem scrapeNewGoogleMapsReviews_resolves_to_undefined
  (LocalTZA : JsDate.Zone) (clock : nat -> Z) (session : Session) (url date : string)
  (out : list ConsoleLine) :
  (snd (scrapeNewGoogleMapsReviews LocalTZA clock session url date out)
     = Normal Undefined
   \/ snd (scrapeNewGoogleMapsReviews LocalTZA clock session url date out)
     = Pending)
  /\ (forall url' harvested lines,
      date <> ""%string ->
      BrowserInstance session = Normal tt ->
      addLanguageToMapsUrl session url "en" = Normal url' ->
      goto session url' = Normal tt ->
      ReviewsTab session = Normal tt ->
      FilterBy session "Newest" = Normal tt ->
      scrollBy session = Normal tt ->
      waitForSelector session <> Pending ->
      ScraperReviews LocalTZA clock (Some date) (reviewPages session)
        = Some (harvested, lines) ->
      pageClose session = Normal tt ->
      browserClose session = Normal tt ->
      exists before,
        scrapeNewGoogleMapsReviews LocalTZA clock session url date out
        = (before ++ lines ++ [LogFinalReviews harvested], Normal Undefined)).
Proof.
  split.
  - unfold scrapeNewGoogleMapsReviews, awaitReviewsLoaded, awaitScraperReviews,
      tryCatch, bind, await, print, ret, throw.
    step_cases; cbn [snd]; auto.
  - intros url' harvested lines H0 H1 H3 H4 H5 H6 H7 H8 H9 H10 H11.
    apply String.eqb_neq in H0.
    unfold scrapeNewGoogleMapsReviews, awaitReviewsLoaded, awaitScraperReviews,
      tryCatch, bind, await, print, ret, throw.
    rewrite H0, H1, H3, H4, H5, H6, H7, H9, H10, H11.
    cbv beta iota zeta.
    destruct (waitForSelector session) as [[]|e|]; [| |congruence];
      cbv beta iota zeta; rewrite <- app_assoc; eexists; reflexivity.
Qed.

Lemma scrapeNewGoogleMapsReviews_resolves_to_undefined_witness :
  exists before,
    scrapeNewGoogleMapsReviews Samples.utc Samples.clock
      (Samples.session
         [EvalReturns [Some (Samples.review "a" "1 day ago" false);
                       Some (Samples.review "b" "3 days ago" false)]])
      "https://maps.google.com/place" "2 days ago" []
    = (before ++ [LogStopping "b"]
          ++ [LogFinalReviews [Samples.review "a" "1 day ago" false]],
       Normal Undefined).
Proof.
  apply (proj2 (scrapeNewGoogleMapsReviews_resolves_to_undefined
                  Samples.utc Samples.clock _ "https://maps.google.com/place"
                  "2 days ago" [])
           "https://maps.google.com/place?hl=en"%string);
    first [reflexivity | discriminate].
Defined.








End EntryProperties.

(* ================================================================== *)
(** ** Rounding *)
(* ================================================================== *)

Module NumberFacts.
Import JsNumber Rounding.

Lemma num_exact z : Z.abs z < 9007199254740992 -> num z = Whole z.
Proof.
  intros H. unfold num. cbv zeta.
  change (2 ^ 53) with 9007199254740992.
  apply Z.ltb_lt in H. now rewrite H.
Qed.

(** Rounding does not take a number of 2^53 or more below 2^53. *)
Lemma num_far z : 9007199254740992 <= Z.abs z -> Far wholeLimit (num z).
Proof.
  intros H. unfold num. cbv zeta.
  change (2 ^ 53) with 9007199254740992.
  destruct (Z.abs z <? 9007199254740992) eqn:E; [apply Z.ltb_lt in E; lia|].
  clear E.
  assert (Hz : Z.abs (Z.sgn z) = 1) by (destruct z; simpl in *; lia).
  set (a := Z.abs z) in *.
  assert (Ha : 0 < a) by lia.
  assert (Hlog : 53 <= Z.log2 a).
  { change 53 with (Z.log2 (2 ^ 53)). apply Z.log2_le_mono.
    change (2 ^ 53) with 9007199254740992. lia. }
  destruct (Z.log2_spec a Ha) as [Hlo _].
  set (e := Z.log2 a - 52) in *.
  assert (He : 0 < 2 ^ e) by (apply Z.pow_pos_nonneg; lia).
  assert (Hsplit : 2 ^ Z.log2 a = 2 ^ 52 * 2 ^ e).
  { rewrite <- Z.pow_add_r by lia. f_equal. lia. }
  assert (Hbig : 9007199254740992 <= 2 ^ Z.log2 a).
  { change 9007199254740992 with (2 ^ 53). apply Z.pow_le_mono_r; lia. }
  assert (Hq : 2 ^ 52 <= a / 2 ^ e).
  { apply Z.div_le_lower_bound; [exact He|]. lia. }
  set (q := a / 2 ^ e) in *.
  set (q' := if 2 * (a mod 2 ^ e) <? 2 ^ e then q
             else if 2 ^ e <? 2 * (a mod 2 ^ e) then q + 1
             else if Z.even q then q else q + 1).
  assert (Hq' : q <= q').
  { unfold q'. destruct (_ <? _); [lia|]. destruct (_ <? _); [lia|].
    destruct (Z.even q); lia. }
  assert (Hm : 9007199254740992 <= q' * 2 ^ e).
  { assert (2 ^ 52 * 2 ^ e <= q' * 2 ^ e)
      by (apply Z.mul_le_mono_nonneg_r; lia).
    lia. }
  destruct (maxValue <? q' * 2 ^ e); [exact I|].
  unfold Far, wholeLimit. change (2 ^ 53) with 9007199254740992.
  rewrite Z.abs_mul, Hz. lia.
Qed.

Lemma limit_value : wholeLimit = 9007199254740992.
Proof. reflexivity. Qed.

Lemma Far_weaken b b' x : b' <= b -> Far b x -> Far b' x.
Proof. destruct x; simpl; [auto|lia]. Qed.

(** A number of magnitude [b] or more, [b] at most 2^53, stays so. *)
Lemma far_num b z : b <= wholeLimit -> b <= Z.abs z -> Far b (num z).
Proof.
  rewrite limit_value. intros Hb Hz.
  destruct (Z_lt_le_dec (Z.abs z) 9007199254740992) as [Hs|Hl].
  - rewrite (num_exact _ Hs). exact Hz.
  - apply (Far_weaken wholeLimit); [rewrite limit_value; lia|].
    now apply num_far.
Qed.

Lemma approx_num v : Approx wholeLimit (num v) v.
Proof.
  split; [lia|].
  destruct (Z_lt_le_dec (Z.abs v) 9007199254740992) as [Hs|Hl].
  - left. now apply num_exact.
  - right. split; [now apply num_far | rewrite limit_value; exact Hl].
Qed.

Lemma approx_whole v : Approx wholeLimit (Whole v) v.
Proof. split; [lia|]. now left. Qed.

Lemma Approx_adjust b b' x v v' :
  Approx b x v -> b' <= b -> v = v' -> Approx b' x v'.
Proof.
  intros [Hb [->|[HF Hv]]] Hle <-; (split; [lia|]).
  - now left.
  - right. split; [now apply (Far_weaken b) | lia].
Qed.

(** One operand is approximate, the other a whole number. *)
Lemma approx_binary (f : Z -> Z) (op : Number -> Number) b c x v :
  (forall m, op (Whole m) = num (f m)) ->
  op NotFinite = NotFinite ->
  (forall m, Z.abs m - c <= Z.abs (f m)) ->
  0 <= c ->
  Approx b x v -> Approx (b - c) (op x) (f v).
Proof.
  intros Hop Hnot Hf Hc [Hb [->|[HF Hv]]]; (split; [lia|]).
  - rewrite Hop.
    destruct (approx_num (f v)) as [_ [H|[H1 H2]]]; [now left|right].
    split; [apply (Far_weaken wholeLimit); [lia | exact H1]|]. lia.
  - right. split.
    + destruct x as [|m]; [now rewrite Hnot|].
      rewrite Hop. apply far_num; [lia|].
      simpl in HF. specialize (Hf m). lia.
    + specialize (Hf v). lia.
Qed.

Lemma approx_add b x v w :
  Approx b x v -> Approx (b - Z.abs w) (add x (Whole w)) (v + w).
Proof.
  apply (approx_binary (fun m => m + w) (fun x => add x (Whole w)));
    [reflexivity | reflexivity | intros m; lia | lia].
Qed.

Lemma approx_add_l b x v w :
  Approx b x v -> Approx (b - Z.abs w) (add (Whole w) x) (w + v).
Proof.
  apply (approx_binary (fun m => w + m) (fun x => add (Whole w) x));
    [reflexivity | reflexivity | intros m; lia | lia].
Qed.

Lemma approx_sub b x v w :
  Approx b x v -> Approx (b - Z.abs w) (sub x (Whole w)) (v - w).
Proof.
  apply (approx_binary (fun m => m - w) (fun x => sub x (Whole w)));
    [reflexivity | reflexivity | intros m; lia | lia].
Qed.

Lemma approx_sub_l b x v w :
  Approx b x v -> Approx (b - Z.abs w) (sub (Whole w) x) (w - v).
Proof.
  apply (approx_binary (fun m => w - m) (fun x => sub (Whole w) x));
    [reflexivity | reflexivity | intros m; lia | lia].
Qed.

Lemma approx_mul b x v k :
  0 < k -> Approx b x v -> Approx b (mul x (Whole k)) (v * k).
Proof.
  intros Hk H.
  apply (Approx_adjust (b - 0) _ _ (v * k) (v * k)); [|lia|reflexivity].
  apply (approx_binary (fun m => m * k) (fun x => mul x (Whole k)));
    [reflexivity | reflexivity | | lia | exact H].
  intros m. rewrite Z.abs_mul. nia.
Qed.

Lemma add_whole a b : add (Whole a) (Whole b) = num (a + b).
Proof. reflexivity. Qed.

Lemma sub_whole a b : sub (Whole a) (Whole b) = num (a - b).
Proof. reflexivity. Qed.

Lemma mul_whole a b : mul (Whole a) (Whole b) = num (a * b).
Proof. reflexivity. Qed.

End NumberFacts.

(* ================================================================== *)
(** ** Calendar arithmetic *)
(* ================================================================== *)

Module DateFacts.
Import JsString JsNumber JsDate Dates Grammar Rounding NumberFacts.

Ltac unfold_time :=
  unfold Day, TimeWithinDay, HourFromTime, MinFromTime,
    SecFromTime, msFromTime, msPerDay, msPerHour, msPerMinute, msPerSecond in *.

(** [YearFromDay] is the year in which day [d] falls. *)
Lemma YearFromDay_spec d :
  DayFromYear (YearFromDay d) <= d < DayFromYear (YearFromDay d + 1).
Proof.
  unfold YearFromDay.
  destruct (DayFromYear (1970 + d * 400 / 146097) >? d) eqn:E1.
  - unfold DayFromYear in *. apply Z.gtb_lt in E1.
    Z.div_mod_to_equations; lia.
  - rewrite Z.gtb_ltb in E1. apply Z.ltb_ge in E1.
    destruct (DayFromYear (1970 + d * 400 / 146097 + 1) <=? d) eqn:E2.
    + unfold DayFromYear in *. apply Z.leb_le in E2.
      Z.div_mod_to_equations; lia.
    + unfold DayFromYear in *. apply Z.leb_gt in E2.
      Z.div_mod_to_equations; lia.
Qed.

(** The two ways of writing the leap-year rule agree. *)
Lemma leap_agree y : isLeapYear y = leapYear y.
Proof.
  unfold isLeapYear, leapYear.
  destruct (Z.eqb_spec (y mod 4) 0), (Z.eqb_spec (y mod 100) 0),
    (Z.eqb_spec (y mod 400) 0); try reflexivity; exfalso;
    Z.div_mod_to_equations; lia.
Qed.

Lemma leapYear_cases y :
  (leapYear y = true /\ DayFromYear (y + 1) = DayFromYear y + 366)
  \/ (leapYear y = false /\ DayFromYear (y + 1) = DayFromYear y + 365).
Proof.
  unfold leapYear, DayFromYear.
  destruct (Z.eqb_spec (y mod 4) 0), (Z.eqb_spec (y mod 100) 0),
    (Z.eqb_spec (y mod 400) 0); cbn [andb orb negb];
    first [ left; split; [reflexivity|]; Z.div_mod_to_equations; lia
          | right; split; [reflexivity|]; Z.div_mod_to_equations; lia
          | exfalso; Z.div_mod_to_equations; lia ].
Qed.

(** A time is its day plus its hour, minute, second and millisecond. *)
Lemma time_decomposition t :
  Day t * msPerDay
  + (HourFromTime t * msPerHour + MinFromTime t * msPerMinute
     + SecFromTime t * msPerSecond + msFromTime t) = t.
Proof. unfold_time. Z.div_mod_to_equations; lia. Qed.

Lemma time_fields t :
  0 <= HourFromTime t < 24 /\ 0 <= MinFromTime t < 60
  /\ 0 <= SecFromTime t < 60 /\ 0 <= msFromTime t < 1000
  /\ 0 <= TimeWithinDay t < msPerDay
  /\ Day t * msPerDay + TimeWithinDay t = t.
Proof. unfold_time. Z.div_mod_to_equations; lia. Qed.

Lemma monthOfDay_bounds leap d : 0 <= monthOfDay leap d < 12.
Proof.
  unfold monthOfDay.
  repeat match goal with
         | |- context [if ?b then _ else _] => destruct b
         end; lia.
Qed.

Lemma MonthFromTime_bounds t : 0 <= MonthFromTime t < 12.
Proof. apply monthOfDay_bounds. Qed.

(** The calendar fields of a time make up its day. *)
Lemma day_decomposition t :
  firstOfMonth (YearFromTime t) (MonthFromTime t) + DateFromTime t - 1 = Day t.
Proof.
  unfold firstOfMonth, DateFromTime. fold (InLeapYear t).
  unfold DayWithinYear. lia.
Qed.

(** The month number of month [m] of year [y]. *)
Lemma month_number y m :
  0 <= m < 12 -> (12 * y + m) / 12 = y /\ (12 * y + m) mod 12 = m.
Proof. intros H. Z.div_mod_to_equations; lia. Qed.

(** The length of a month, as the tables of the date functions have it. *)
Lemma firstOfMonth_step k :
  firstOfMonth ((k + 1) / 12) ((k + 1) mod 12)
  = firstOfMonth (k / 12) (k mod 12) + daysInMonth k.
Proof.
  unfold firstOfMonth, daysInMonth. rewrite !leap_agree.
  assert (Hc : (0 <= k mod 12 < 11 /\ (k + 1) / 12 = k / 12
                /\ (k + 1) mod 12 = k mod 12 + 1)
               \/ (k mod 12 = 11 /\ (k + 1) / 12 = k / 12 + 1
                   /\ (k + 1) mod 12 = 0))
    by (Z.div_mod_to_equations; lia).
  destruct Hc as [(Hr & -> & ->) | (Hr & -> & ->)].
  - assert (H : k mod 12 = 0 \/ k mod 12 = 1 \/ k mod 12 = 2 \/ k mod 12 = 3
                \/ k mod 12 = 4 \/ k mod 12 = 5 \/ k mod 12 = 6
                \/ k mod 12 = 7 \/ k mod 12 = 8 \/ k mod 12 = 9
                \/ k mod 12 = 10) by lia.
    destruct H as [->|[->|[->|[->|[->|[->|[->|[->|[->|[->| ->]]]]]]]]]];
      simpl; destruct (leapYear (k / 12)); lia.
  - rewrite Hr. simpl.
    destruct (leapYear_cases (k / 12)) as [[-> ->]|[-> ->]];
      destruct (leapYear (k / 12 + 1)); lia.
Qed.

Lemma daysInMonth_bounds k : 28 <= daysInMonth k <= 31.
Proof.
  unfold daysInMonth. cbv zeta.
  repeat match goal with
         | |- context [if ?b then _ else _] => destruct b
         end; lia.
Qed.

Lemma monthsBack_bounds n : forall k,
  28 * Z.of_nat n <= monthsBack k n <= 31 * Z.of_nat n.
Proof.
  induction n as [|n IH]; intros k; [simpl; lia|].
  cbn [monthsBack]. specialize (IH (k - 1)).
  pose proof (daysInMonth_bounds (k - 1)). lia.
Qed.

(** Going back [n] months from month [k]. *)
Lemma firstOfMonth_back n : forall k,
  firstOfMonth ((k - Z.of_nat n) / 12) ((k - Z.of_nat n) mod 12)
  = firstOfMonth (k / 12) (k mod 12) - monthsBack k n.
Proof.
  induction n as [|n IH]; intros k.
  - simpl. rewrite Z.sub_0_r. lia.
  - cbn [monthsBack]. rewrite Nat2Z.inj_succ.
    replace (k - Z.succ (Z.of_nat n)) with (k - 1 - Z.of_nat n) by lia.
    rewrite IH. pose proof (firstOfMonth_step (k - 1)) as H.
    replace (k - 1 + 1) with k in H by lia. lia.
Qed.

(** The count of days from 1970 is the day of the date functions. *)
Lemma firstDay_firstOfMonth k :
  firstDay k = firstOfMonth (k / 12) (k mod 12).
Proof.
  unfold firstDay.
  destruct (Z.leb_spec january1970 k) as [H|H].
  - pose proof (firstOfMonth_back (Z.to_nat (k - january1970)) k) as E.
    rewrite Z2Nat.id in E by lia.
    replace (k - (k - january1970)) with january1970 in E by lia.
    change (firstOfMonth (january1970 / 12) (january1970 mod 12)) with 0 in E.
    lia.
  - pose proof (firstOfMonth_back (Z.to_nat (january1970 - k)) january1970) as E.
    rewrite Z2Nat.id in E by lia.
    replace (january1970 - (january1970 - k)) with k in E by lia.
    change (firstOfMonth (january1970 / 12) (january1970 mod 12)) with 0 in E.
    lia.
Qed.

Lemma firstDay_step k : firstDay (k + 1) = firstDay k + daysInMonth k.
Proof. rewrite !firstDay_firstOfMonth. apply firstOfMonth_step. Qed.

(** A function on the integers that never decreases in one step is
    monotone. *)
Lemma monotone_by_steps (f : Z -> Z) :
  (forall x, f x <= f (x + 1)) -> forall a b, a <= b -> f a <= f b.
Proof.
  intros Hstep a b Hab.
  replace b with (a + Z.of_nat (Z.to_nat (b - a))) by lia.
  induction (Z.to_nat (b - a)) as [|k IH].
  - simpl. rewrite Z.add_0_r. lia.
  - rewrite Nat2Z.inj_succ.
    replace (a + Z.succ (Z.of_nat k)) with (a + Z.of_nat k + 1) by lia.
    specialize (Hstep (a + Z.of_nat k)). lia.
Qed.

Lemma firstDay_monotone a b : a <= b -> firstDay a <= firstDay b.
Proof.
  apply monotone_by_steps. intros x. rewrite firstDay_step.
  pose proof (daysInMonth_bounds x). lia.
Qed.

(** A day falls in one month only. *)
Lemma inMonth_unique k k' d : inMonth k d -> inMonth k' d -> k = k'.
Proof.
  unfold inMonth. intros [H1 H2] [H3 H4].
  destruct (Z_lt_le_dec k k') as [Hlt|Hge].
  - pose proof (firstDay_monotone (k + 1) k'). lia.
  - destruct (Z_lt_le_dec k' k) as [Hlt|Hle]; [|lia].
    pose proof (firstDay_monotone (k' + 1) k). lia.
Qed.

(** The date of the month lies in the month. *)
Lemma DateFromTime_bounds t :
  1 <= DateFromTime t <= daysInMonth (12 * YearFromTime t + MonthFromTime t).
Proof.
  destruct (month_number (YearFromTime t) (MonthFromTime t)
              (MonthFromTime_bounds t)) as [Hq Hr].
  unfold daysInMonth. cbv zeta. rewrite Hq, Hr.
  unfold DateFromTime, MonthFromTime, DayWithinYear, InLeapYear, YearFromTime.
  pose proof (YearFromDay_spec (Day t)) as Hy.
  set (y := YearFromDay (Day t)) in *.
  rewrite leap_agree.
  destruct (leapYear_cases y) as [[-> Hn]|[-> Hn]]; rewrite Hn in Hy;
    remember (Day t - DayFromYear y) as d eqn:Ed;
    unfold monthOfDay;
    repeat match goal with
      | |- context [if ?a <? ?b then _ else _] =>
          destruct (Z.ltb_spec a b)
      end; simpl; lia.
Qed.

Lemma inMonth_fields t :
  inMonth (12 * YearFromTime t + MonthFromTime t) (Day t).
Proof.
  unfold inMonth. rewrite firstDay_step, firstDay_firstOfMonth.
  destruct (month_number (YearFromTime t) (MonthFromTime t)
              (MonthFromTime_bounds t)) as [-> ->].
  pose proof (day_decomposition t). pose proof (DateFromTime_bounds t). lia.
Qed.

(** Years within the horizon. *)
Lemma YearFromTime_bounds t :
  Z.abs t <= horizon + msPerDay -> -7000 <= YearFromTime t <= 10000.
Proof.
  intros H. unfold YearFromTime.
  pose proof (YearFromDay_spec (Day t)) as Hy.
  assert (Hd : -2932898 <= Day t <= 2932898)
    by (unfold horizon in H; unfold_time; Z.div_mod_to_equations; lia).
  remember (YearFromDay (Day t)) as y eqn:Ey. clear Ey H.
  remember (Day t) as d eqn:Ed. clear Ed.
  unfold DayFromYear in Hy. Z.div_mod_to_equations; lia.
Qed.

(** A year far from ours begins on a day beyond 2^53. *)
Lemma firstOfMonth_far ym mn :
  100000000000000 <= Z.abs ym -> 0 <= mn < 12 ->
  9007199254740992 + 100 <= Z.abs (firstOfMonth ym mn).
Proof.
  intros Hy Hm. unfold firstOfMonth, DayFromYear.
  assert (0 <= monthStart (if isLeapYear ym then 1 else 0) mn <= 335).
  { unfold monthStart. destruct (isLeapYear ym);
      repeat match goal with
        | |- context [match ?x with _ => _ end] => destruct x
        end; lia. }
  Z.div_mod_to_equations; lia.
Qed.

Section Shifts.

Variable LocalTZA : Zone.
Variable now : Z.
Hypothesis Hnow : Z.abs now <= horizon.
Hypothesis Hzone : boundedZone LocalTZA.

Let wall : Z := wallClock LocalTZA now.

Lemma wall_bound : Z.abs wall <= horizon + msPerDay.
Proof.
  unfold wall, wallClock. pose proof (Hzone now true). lia.
Qed.

Lemma LocalTime_exact : LocalTime LocalTZA now = Whole wall.
Proof.
  unfold LocalTime. pose proof (Hzone now true) as Hz.
  unfold horizon, msPerDay in *.
  rewrite !num_exact by lia. rewrite add_whole, num_exact; [reflexivity|].
  lia.
Qed.

Lemma field_exact (fromTime : Z -> Z) :
  Z.abs (fromTime wall) < 9007199254740992 ->
  field LocalTZA fromTime now = Whole (fromTime wall).
Proof.
  intros H. unfold field. rewrite LocalTime_exact. now apply num_exact.
Qed.

(** Back to UTC and into the range of time values. *)
Lemma approx_TimeClip_UTC b x v :
  Approx b x v -> maxTime + msPerDay < b ->
  TimeClip (UTC LocalTZA x) = getTime (dateAt (instantOf LocalTZA v)).
Proof.
  intros [Hb Hx] Hlarge. unfold dateAt, instantOf. cbn [getTime].
  rewrite limit_value in Hb.
  assert (Hclip : forall m,
             TimeClip (Whole m)
             = if Z.abs m <=? maxTime then Finite m else NaN).
  { intros m. cbn [TimeClip].
    destruct (Z.gtb_spec (Z.abs m) maxTime), (Z.leb_spec (Z.abs m) maxTime);
      try reflexivity; lia. }
  assert (Hfar : forall y, Far (b - msPerDay) y -> TimeClip y = NaN).
  { intros [|m] Hy; [reflexivity|]. rewrite Hclip. simpl in Hy.
    destruct (Z.leb_spec (Z.abs m) maxTime); [lia|reflexivity]. }
  assert (Hutc : forall m,
             UTC LocalTZA (Whole m) = num (m - LocalTZA m false)).
  { intros m. cbn [UTC]. pose proof (Hzone m false) as Hz.
    unfold msPerDay in Hz.
    rewrite (num_exact (LocalTZA m false)) by lia. apply sub_whole. }
  pose proof (Hzone v false) as Hz.
  destruct Hx as [->|[HF Hv]].
  - rewrite Hutc.
    destruct (approx_num (v - LocalTZA v false)) as [_ [->|[H1 H2]]];
      [apply Hclip|].
    rewrite limit_value in H2. rewrite Hfar.
    + destruct (Z.leb_spec (Z.abs (v - LocalTZA v false)) maxTime);
        [unfold maxTime in *; lia | reflexivity].
    + apply (Far_weaken wholeLimit); [|exact H1].
      rewrite limit_value. unfold msPerDay, maxTime in *. lia.
  - assert (Hout : (Z.abs (v - LocalTZA v false) <=? maxTime) = false)
      by (apply Z.leb_gt; unfold msPerDay, maxTime in *; lia).
    rewrite Hout. apply Hfar.
    destruct x as [|m]; [exact I|].
    rewrite Hutc. simpl in HF. pose proof (Hzone m false) as Hzm.
    apply far_num; [rewrite limit_value|]; unfold msPerDay in *; lia.
Qed.

(** The time of day is set, the day kept. *)
Lemma MakeDate_Day b x v :
  Approx b x v ->
  Approx (b - Z.abs (Day wall * msPerDay))
    (MakeDate (Whole (Day wall)) x) (Day wall * msPerDay + v).
Proof.
  intros H. unfold MakeDate.
  pose proof wall_bound as Hw. pose proof (time_fields wall) as Hf.
  unfold horizon, msPerDay in *.
  change (num 86400000) with (Whole 86400000).
  rewrite mul_whole, num_exact by lia.
  now apply approx_add_l.
Qed.

(** The day is set, the time of day kept. *)
Lemma MakeDate_TimeWithinDay b x v :
  Approx b x v ->
  Approx (b - msPerDay)
    (MakeDate x (num (TimeWithinDay wall))) (v * msPerDay + TimeWithinDay wall).
Proof.
  intros H. unfold MakeDate.
  pose proof (time_fields wall) as Hf. unfold msPerDay in *.
  rewrite (num_exact (TimeWithinDay wall)) by lia.
  change (num 86400000) with (Whole 86400000).
  eapply Approx_adjust;
    [apply approx_add, approx_mul; [reflexivity | exact H] | lia | reflexivity].
Qed.

(** The room left below 2^53 by a clock within the horizon. *)
Let room : Z := wholeLimit - (horizon + 3 * msPerDay).

Lemma room_enough : maxTime + msPerDay < room.
Proof. reflexivity. Qed.

Ltac time_facts :=
  pose proof (time_fields wall) as (Hh & Hm & Hs & Hms & Htwd & Hday);
  pose proof (time_decomposition wall) as Hdec;
  pose proof wall_bound as Hw;
  unfold horizon, msPerDay, msPerHour, msPerMinute, msPerSecond in *.

Lemma setSeconds_shift A :
  setSeconds LocalTZA now (sub (getSeconds LocalTZA now) (num A))
  = getTime (dateAt (instantOf LocalTZA (wall - A * msPerSecond))).
Proof.
  unfold setSeconds, getSeconds, MakeTime.
  rewrite LocalTime_exact, field_exact
    by (pose proof (time_fields wall); lia).
  apply (approx_TimeClip_UTC room); [|exact room_enough].
  time_facts.
  rewrite (num_exact (Day wall)),
    (num_exact (HourFromTime wall)), (num_exact (MinFromTime wall)),
    (num_exact (msFromTime wall)) by lia.
  change (num 3600000) with (Whole 3600000).
  change (num 60000) with (Whole 60000).
  change (num 1000) with (Whole 1000).
  rewrite !mul_whole.
  rewrite (num_exact (HourFromTime wall * 3600000)),
    (num_exact (MinFromTime wall * 60000)) by lia.
  rewrite add_whole, num_exact by lia.
  eapply Approx_adjust;
    [ apply MakeDate_Day, approx_add, approx_add_l, approx_mul, approx_sub_l,
        approx_num; reflexivity
    | unfold room, horizon, msPerDay; rewrite limit_value; lia
    | unfold msPerDay; lia ].
Qed.

Lemma setMinutes_shift A :
  setMinutes LocalTZA now (sub (getMinutes LocalTZA now) (num A))
  = getTime (dateAt (instantOf LocalTZA (wall - A * msPerMinute))).
Proof.
  unfold setMinutes, getMinutes, MakeTime.
  rewrite LocalTime_exact, field_exact
    by (pose proof (time_fields wall); lia).
  apply (approx_TimeClip_UTC room); [|exact room_enough].
  time_facts.
  rewrite (num_exact (Day wall)),
    (num_exact (HourFromTime wall)), (num_exact (SecFromTime wall)),
    (num_exact (msFromTime wall)) by lia.
  change (num 3600000) with (Whole 3600000).
  change (num 60000) with (Whole 60000).
  change (num 1000) with (Whole 1000).
  rewrite !mul_whole.
  rewrite (num_exact (HourFromTime wall * 3600000)),
    (num_exact (SecFromTime wall * 1000)) by lia.
  eapply Approx_adjust;
    [ apply MakeDate_Day, approx_add, approx_add, approx_add_l, approx_mul,
        approx_sub_l, approx_num; reflexivity
    | unfold room, horizon, msPerDay; rewrite limit_value; lia
    | unfold msPerDay; lia ].
Qed.

Lemma setHours_shift A :
  setHours LocalTZA now (sub (getHours LocalTZA now) (num A))
  = getTime (dateAt (instantOf LocalTZA (wall - A * msPerHour))).
Proof.
  unfold setHours, getHours, MakeTime.
  rewrite LocalTime_exact, field_exact
    by (pose proof (time_fields wall); lia).
  apply (approx_TimeClip_UTC room); [|exact room_enough].
  time_facts.
  rewrite (num_exact (Day wall)),
    (num_exact (MinFromTime wall)), (num_exact (SecFromTime wall)),
    (num_exact (msFromTime wall)) by lia.
  change (num 3600000) with (Whole 3600000).
  change (num 60000) with (Whole 60000).
  change (num 1000) with (Whole 1000).
  rewrite !mul_whole.
  rewrite (num_exact (MinFromTime wall * 60000)),
    (num_exact (SecFromTime wall * 1000)) by lia.
  eapply Approx_adjust;
    [ apply MakeDate_Day, approx_add, approx_add, approx_add, approx_mul,
        approx_sub_l, approx_num; reflexivity
    | unfold room, horizon, msPerDay; rewrite limit_value; lia
    | unfold msPerDay; lia ].
Qed.

(** The calendar fields of the wall clock, and their sizes. *)
Lemma date_fields :
  -7000 <= YearFromTime wall <= 10000
  /\ 0 <= MonthFromTime wall < 12
  /\ 1 <= DateFromTime wall <= 31
  /\ firstOfMonth (YearFromTime wall) (MonthFromTime wall)
     + DateFromTime wall - 1 = Day wall
  /\ -2932898 <= Day wall <= 2932898.
Proof.
  pose proof wall_bound as Hw.
  split; [now apply YearFromTime_bounds|].
  split; [apply MonthFromTime_bounds|].
  pose proof (DateFromTime_bounds wall) as Hd.
  pose proof (daysInMonth_bounds
                (12 * YearFromTime wall + MonthFromTime wall)).
  split; [lia|]. split; [apply day_decomposition|].
  unfold horizon in Hw. unfold_time. Z.div_mod_to_equations; lia.
Qed.

(** [MakeDay] in the month of the wall clock. *)
Lemma MakeDay_this_month x :
  MakeDay (num (YearFromTime wall)) (num (MonthFromTime wall)) x
  = sub (add (Whole (firstOfMonth (YearFromTime wall) (MonthFromTime wall))) x)
        (Whole 1).
Proof.
  destruct date_fields as (Hy & Hm & Hd & Hday & Hrange).
  rewrite (num_exact (YearFromTime wall)), (num_exact (MonthFromTime wall))
    by lia.
  unfold MakeDay.
  rewrite (Z.div_small (MonthFromTime wall) 12),
    (Z.mod_small (MonthFromTime wall) 12) by lia.
  change (num 0) with (Whole 0). change (num 1) with (Whole 1).
  rewrite add_whole, Z.add_0_r, num_exact by lia.
  rewrite num_exact by lia. reflexivity.
Qed.

(** From a day to the instant of the wall clock's time on that day. *)
Lemma time_of_day_kept b x v :
  Approx b x v -> maxTime + 2 * msPerDay < b ->
  TimeClip (UTC LocalTZA (MakeDate x (num (TimeWithinDay wall))))
  = getTime (dateAt (instantOf LocalTZA (v * msPerDay + TimeWithinDay wall))).
Proof.
  intros H Hb. apply (approx_TimeClip_UTC (b - msPerDay)); [|lia].
  now apply MakeDate_TimeWithinDay.
Qed.

Lemma setDate_shift A :
  setDate LocalTZA now (sub (getDate LocalTZA now) (num A))
  = getTime (dateAt (instantOf LocalTZA (wall - A * msPerDay))).
Proof.
  destruct date_fields as (Hy & Hm & Hd & Hday & Hrange).
  pose proof (time_fields wall) as (_ & _ & _ & _ & Htwd & Hsplit).
  unfold setDate, getDate.
  rewrite LocalTime_exact, field_exact, MakeDay_this_month by lia.
  replace (wall - A * msPerDay)
    with ((firstOfMonth (YearFromTime wall) (MonthFromTime wall)
           + (DateFromTime wall - A) - 1) * msPerDay + TimeWithinDay wall)
    by lia.
  eapply time_of_day_kept;
    [ apply approx_sub, approx_add_l, approx_sub_l, approx_num
    | rewrite limit_value; unfold maxTime, msPerDay; lia ].
Qed.

Lemma setDate_shift_weeks A :
  setDate LocalTZA now (sub (getDate LocalTZA now) (mul (num A) (num 7)))
  = getTime (dateAt (instantOf LocalTZA (wall - A * 7 * msPerDay))).
Proof.
  destruct date_fields as (Hy & Hm & Hd & Hday & Hrange).
  pose proof (time_fields wall) as (_ & _ & _ & _ & Htwd & Hsplit).
  unfold setDate, getDate.
  rewrite LocalTime_exact, field_exact, MakeDay_this_month by lia.
  change (num 7) with (Whole 7).
  replace (wall - A * 7 * msPerDay)
    with ((firstOfMonth (YearFromTime wall) (MonthFromTime wall)
           + (DateFromTime wall - A * 7) - 1) * msPerDay + TimeWithinDay wall)
    by lia.
  eapply time_of_day_kept;
    [ apply approx_sub, approx_add_l, approx_sub_l, approx_mul, approx_num;
      reflexivity
    | rewrite limit_value; unfold maxTime, msPerDay; lia ].
Qed.

(** A date far outside the range is invalid. *)
Lemma dateAt_far v :
  maxTime + msPerDay < Z.abs v ->
  getTime (dateAt (instantOf LocalTZA v)) = NaN.
Proof.
  intros H. unfold dateAt, instantOf. cbn [getTime].
  pose proof (Hzone v false).
  destruct (Z.leb_spec (Z.abs (v - LocalTZA v false)) maxTime); [lia|].
  reflexivity.
Qed.

(** [MakeDay] in a year far from ours gives no valid date. *)
Lemma far_year (ym : Number) mn d :
  Far 100000000000000 ym -> 0 <= mn < 12 -> Z.abs d <= 31 ->
  TimeClip (UTC LocalTZA (MakeDate
    match ym with
    | Whole y => sub (add (num (firstOfMonth y mn)) (Whole d)) (num 1)
    | NotFinite => NotFinite
    end (num (TimeWithinDay wall)))) = NaN.
Proof.
  intros Hfar Hmn Hd. destruct ym as [|y]; [reflexivity|]. simpl in Hfar.
  pose proof (firstOfMonth_far y mn Hfar Hmn) as Hfirst.
  pose proof (time_fields wall) as (_ & _ & _ & _ & Htwd & _).
  change (num 1) with (Whole 1).
  erewrite time_of_day_kept;
    [ apply dateAt_far
    | apply approx_sub, approx_add, approx_num
    | rewrite limit_value; unfold maxTime, msPerDay; lia ].
  unfold maxTime, msPerDay in *. lia.
Qed.

(** The month of the wall clock, by number. *)
Lemma month_of_wall k :
  inMonth k (Day wall) -> k = 12 * YearFromTime wall + MonthFromTime wall.
Proof. intros H. apply (inMonth_unique _ _ _ H), inMonth_fields. Qed.

Lemma setMonth_shift A k :
  0 <= A -> inMonth k (Day wall) ->
  setMonth LocalTZA now (sub (getMonth LocalTZA now) (num A))
  = getTime (dateAt (instantOf LocalTZA
               (wall - monthsBack k (Z.to_nat A) * msPerDay))).
Proof.
  intros HA Hk. apply month_of_wall in Hk.
  destruct date_fields as (Hy & Hm & Hd & Hday & Hrange).
  pose proof (time_fields wall) as (_ & _ & _ & _ & Htwd & Hsplit).
  pose proof wall_bound as Hw.
  unfold setMonth, getMonth.
  rewrite LocalTime_exact, field_exact by lia.
  rewrite (num_exact (YearFromTime wall)), (num_exact (DateFromTime wall))
    by lia.
  destruct (Z_lt_le_dec A 4503599627370496) as [Hsmall|Hlarge].
  - rewrite (num_exact A), sub_whole, num_exact by lia.
    unfold MakeDay.
    rewrite num_exact by (Z.div_mod_to_equations; lia).
    rewrite add_whole, num_exact by (Z.div_mod_to_equations; lia).
    change (num 1) with (Whole 1).
    pose proof (firstOfMonth_back (Z.to_nat A) k) as Hback.
    rewrite Z2Nat.id in Hback by lia.
    replace ((k - A) / 12)
      with (YearFromTime wall + (MonthFromTime wall - A) / 12) in Hback
      by (subst k; Z.div_mod_to_equations; lia).
    replace ((k - A) mod 12) with ((MonthFromTime wall - A) mod 12) in Hback
      by (subst k; Z.div_mod_to_equations; lia).
    destruct (month_number (YearFromTime wall) (MonthFromTime wall) Hm)
      as [Hq Hr].
    rewrite Hk, Hq, Hr in Hback. rewrite <- Hk in Hback.
    replace (wall - monthsBack k (Z.to_nat A) * msPerDay)
      with ((firstOfMonth (YearFromTime wall + (MonthFromTime wall - A) / 12)
               ((MonthFromTime wall - A) mod 12)
             + DateFromTime wall - 1) * msPerDay + TimeWithinDay wall)
      by lia.
    eapply time_of_day_kept;
      [ apply approx_sub, approx_add, approx_num
      | rewrite limit_value; unfold maxTime, msPerDay; lia ].
  - rewrite dateAt_far.
    + assert (Hm' : Far 4503599627370000
                      (sub (Whole (MonthFromTime wall)) (num A))).
      { destruct (approx_sub_l _ _ _ (MonthFromTime wall) (approx_num A))
          as [_ [->|[H _]]]; [simpl; lia|].
        eapply Far_weaken; [|exact H]. rewrite limit_value. lia. }
      destruct (sub (Whole (MonthFromTime wall)) (num A)) as [|mz];
        [reflexivity|].
      simpl in Hm'. unfold MakeDay. apply far_year; [|apply Z.mod_pos_bound|];
        [|lia|lia].
      destruct (approx_add_l _ _ _ (YearFromTime wall) (approx_num (mz / 12)))
        as [_ [->|[H _]]];
        [simpl; Z.div_mod_to_equations; lia|].
      eapply Far_weaken; [|exact H]. rewrite limit_value. lia.
    + pose proof (monthsBack_bounds (Z.to_nat A) k) as Hb.
      rewrite Z2Nat.id in Hb by lia.
      unfold maxTime, msPerDay, horizon in *. lia.
Qed.

Lemma setFullYear_shift A k :
  0 <= A -> inMonth k (Day wall) ->
  setFullYear LocalTZA now (sub (getFullYear LocalTZA now) (num A))
  = getTime (dateAt (instantOf LocalTZA
               (wall - monthsBack k (Z.to_nat (12 * A)) * msPerDay))).
Proof.
  intros HA Hk. apply month_of_wall in Hk.
  destruct date_fields as (Hy & Hm & Hd & Hday & Hrange).
  pose proof (time_fields wall) as (_ & _ & _ & _ & Htwd & Hsplit).
  pose proof wall_bound as Hw.
  unfold setFullYear, getFullYear.
  rewrite LocalTime_exact, field_exact by lia.
  rewrite (num_exact (MonthFromTime wall)), (num_exact (DateFromTime wall))
    by lia.
  destruct (Z_lt_le_dec A 4503599627370496) as [Hsmall|Hlarge].
  - rewrite (num_exact A), sub_whole, num_exact by lia.
    unfold MakeDay.
    rewrite (Z.div_small (MonthFromTime wall) 12),
      (Z.mod_small (MonthFromTime wall) 12) by lia.
    change (num 0) with (Whole 0). change (num 1) with (Whole 1).
    rewrite add_whole, Z.add_0_r, num_exact by lia.
    pose proof (firstOfMonth_back (Z.to_nat (12 * A)) k) as Hback.
    rewrite Z2Nat.id in Hback by lia.
    replace ((k - 12 * A) / 12) with (YearFromTime wall - A) in Hback
      by (subst k; Z.div_mod_to_equations; lia).
    replace ((k - 12 * A) mod 12) with (MonthFromTime wall) in Hback
      by (subst k; Z.div_mod_to_equations; lia).
    destruct (month_number (YearFromTime wall) (MonthFromTime wall) Hm)
      as [Hq Hr].
    rewrite Hk, Hq, Hr in Hback. rewrite <- Hk in Hback.
    replace (wall - monthsBack k (Z.to_nat (12 * A)) * msPerDay)
      with ((firstOfMonth (YearFromTime wall - A) (MonthFromTime wall)
             + DateFromTime wall - 1) * msPerDay + TimeWithinDay wall)
      by lia.
    eapply time_of_day_kept;
      [ apply approx_sub, approx_add, approx_num
      | rewrite limit_value; unfold maxTime, msPerDay; lia ].
  - rewrite dateAt_far.
    + assert (Hy' : Far 4503599627000000
                      (sub (Whole (YearFromTime wall)) (num A))).
      { destruct (approx_sub_l _ _ _ (YearFromTime wall) (approx_num A))
          as [_ [->|[H _]]]; [simpl; lia|].
        eapply Far_weaken; [|exact H]. rewrite limit_value. lia. }
      destruct (sub (Whole (YearFromTime wall)) (num A)) as [|yz];
        [reflexivity|].
      simpl in Hy'. unfold MakeDay. apply far_year; [|apply Z.mod_pos_bound|];
        [|lia|lia].
      rewrite (Z.div_small (MonthFromTime wall) 12) by lia.
      change (num 0) with (Whole 0). rewrite add_whole, Z.add_0_r.
      apply far_num; [rewrite limit_value|]; lia.
    + pose proof (monthsBack_bounds (Z.to_nat (12 * A)) k) as Hb.
      rewrite Z2Nat.id in Hb by lia.
      unfold maxTime, msPerDay, horizon in *. lia.
Qed.

End Shifts.

End DateFacts.

(* ================================================================== *)
(** ** The pattern of [parseRelativeDate] and the grammar *)
(* ================================================================== *)

Module GrammarFacts.
Import JsString JsDate Dates Grammar.

Lemma eqb_chars_eq a : forall b, eqb_chars a b = true <-> a = b.
Proof.
  induction a as [|x a IH]; intros [|y b]; simpl; split; intros H;
    try reflexivity; try discriminate.
  - apply andb_true_iff in H. destruct H as [H1 H2].
    apply Ascii.eqb_eq in H1. apply IH in H2. now subst.
  - injection H as -> ->. rewrite Ascii.eqb_refl. simpl. now apply IH.
Qed.

Lemma stripPrefix_Some lit : forall l r,
  stripPrefix lit l = Some r <-> l = lit ++ r.
Proof.
  induction lit as [|x lit IH]; intros l r; simpl.
  - split; [intros H; now injection H | intros ->; reflexivity].
  - destruct l as [|y l]; [split; discriminate|].
    destruct (Ascii.eqb x y) eqn:E.
    + apply Ascii.eqb_eq in E. subst y. rewrite IH.
      split; [intros ->; reflexivity | intros H; now injection H].
    + apply Ascii.eqb_neq in E. split; [discriminate|].
      intros H. injection H as H _. congruence.
Qed.

Lemma stripPrefix_app lit r : stripPrefix lit (lit ++ r) = Some r.
Proof. now apply stripPrefix_Some. Qed.

(** White space is no digit and none of the letters of the pattern. *)
Lemma space_not_digit c : isWhiteSpace c = true -> isDigit c = false.
Proof.
  destruct c as [[] [] [] [] [] [] [] []]; vm_compute;
    intros H; try reflexivity; discriminate H.
Qed.

Lemma space_not_letter c x :
  isWhiteSpace c = true -> isWhiteSpace x = false -> Ascii.eqb x c = false.
Proof.
  intros Hc Hx. apply Ascii.eqb_neq. intros ->. congruence.
Qed.

Lemma digit_not_a c : isDigit c = true -> Ascii.eqb "a" c = false.
Proof.
  destruct c as [[] [] [] [] [] [] [] []]; vm_compute;
    intros H; try reflexivity; discriminate H.
Qed.

Lemma spanDigits_sound l : forall d r,
  spanDigits l = (d, r) -> l = d ++ r /\ forallb isDigit d = true.
Proof.
  induction l as [|c t IH]; intros d r; simpl.
  - intros H. injection H as <- <-. auto.
  - destruct (isDigit c) eqn:E.
    + destruct (spanDigits t) as [d' r'].
      intros H. injection H as <- <-.
      destruct (IH d' r' eq_refl) as [-> Hd]. simpl. rewrite E. auto.
    + intros H. injection H as <- <-. auto.
Qed.

Lemma spanDigits_complete d : forall c r,
  forallb isDigit d = true -> isDigit c = false ->
  spanDigits (d ++ c :: r) = (d, c :: r).
Proof.
  induction d as [|x d IH]; intros c r Hd Hc; simpl.
  - now rewrite Hc.
  - simpl in Hd. apply andb_true_iff in Hd. destruct Hd as [Hx Hd].
    rewrite Hx, IH by assumption. reflexivity.
Qed.

Lemma trimStart_split l :
  exists w, l = w ++ trimStart l /\ forallb isWhiteSpace w = true.
Proof.
  induction l as [|c t [w [Hw Hs]]]; simpl.
  - exists []. auto.
  - destruct (isWhiteSpace c) eqn:E.
    + exists (c :: w). simpl. rewrite E. split; [now f_equal | assumption].
    + exists []. auto.
Qed.

Lemma trimStart_spaces w : forall c r,
  forallb isWhiteSpace w = true -> isWhiteSpace c = false ->
  trimStart (w ++ c :: r) = c :: r.
Proof.
  induction w as [|x w IH]; intros c r Hw Hc; simpl.
  - now rewrite Hc.
  - simpl in Hw. apply andb_true_iff in Hw. destruct Hw as [Hx Hw].
    rewrite Hx. now apply IH.
Qed.

(** *** Trimming and lower-casing *)

Lemma trimStart_head l c t :
  trimStart l = c :: t -> isWhiteSpace c = false.
Proof.
  induction l as [|x l IH]; simpl; [discriminate|].
  destruct (isWhiteSpace x) eqn:E; [exact IH|].
  intros H. injection H as <- _. exact E.
Qed.

Lemma forallb_rev (f : ascii -> bool) w :
  forallb f w = true -> forallb f (rev w) = true.
Proof.
  rewrite !forallb_forall. intros H x Hx. apply H. now apply in_rev.
Qed.

(** [trim] removes white space at both ends, and nothing else. *)
Lemma trim_split l :
  exists w1 w2,
    l = w1 ++ trim l ++ w2
    /\ forallb isWhiteSpace w1 = true /\ forallb isWhiteSpace w2 = true.
Proof.
  destruct (trimStart_split l) as [w1 [H1 Hw1]].
  destruct (trimStart_split (rev (trimStart l))) as [w2 [H2 Hw2]].
  exists w1, (rev w2). split; [|split; [assumption | now apply forallb_rev]].
  unfold trim, trimEnd. rewrite <- rev_app_distr, <- H2, rev_involutive.
  exact H1.
Qed.

Lemma trim_first l c t : trim l = c :: t -> isWhiteSpace c = false.
Proof.
  intros H. destruct (trimStart_split (rev (trimStart l))) as [w2 [H2 _]].
  apply (f_equal (@rev ascii)) in H2.
  rewrite rev_involutive, rev_app_distr in H2.
  fold (trimEnd (trimStart l)) in H2. fold (trim l) in H2.
  rewrite H in H2. simpl in H2. now apply trimStart_head in H2.
Qed.

Lemma trim_last l c t : trim l = t ++ [c] -> isWhiteSpace c = false.
Proof.
  unfold trim, trimEnd. intros H.
  apply (f_equal (@rev ascii)) in H.
  rewrite rev_involutive, rev_app_distr in H. simpl in H.
  now apply trimStart_head in H.
Qed.

(** [toLowerCase] is idempotent and leaves white space and digits alone. *)
Lemma lowerChar_facts c :
  lowerChar (lowerChar c) = lowerChar c
  /\ isWhiteSpace (lowerChar c) = isWhiteSpace c
  /\ isDigit (lowerChar c) = isDigit c.
Proof.
  destruct c as [[] [] [] [] [] [] [] []]; vm_compute; auto.
Qed.

Example toLowerCase_letters :
  toLowerCase (chars "A Week AGO, 2 DAYS") = chars "a week ago, 2 days".
Proof. reflexivity. Qed.

(** *** From a match to the grammar *)

Lemma matchAmount_sound l a r :
  matchAmount l = Some (a, r) -> l = a ++ r /\ isAmount a.
Proof.
  unfold matchAmount, isAmount.
  destruct (stripPrefix (chars "an") l) as [r1|] eqn:E1.
  - intros H. injection H as <- <-. apply stripPrefix_Some in E1. auto.
  - destruct (stripPrefix (chars "a") l) as [r2|] eqn:E2.
    + intros H. injection H as <- <-. apply stripPrefix_Some in E2. auto.
    + destruct (spanDigits l) as [d r3] eqn:E3.
      destruct d as [|x d]; [discriminate|].
      intros H. injection H as <- <-.
      apply spanDigits_sound in E3. destruct E3 as [-> Hd].
      split; [reflexivity|]. right. right. split; [discriminate|assumption].
Qed.

Lemma matchSpaces_sound l r :
  matchSpaces l = Some r -> exists w, l = w ++ r /\ isSpaces w.
Proof.
  unfold matchSpaces, isSpaces. destruct l as [|c t]; [discriminate|].
  destruct (isWhiteSpace c) eqn:E; [|discriminate].
  intros H. injection H as <-.
  destruct (trimStart_split t) as [w [Hw Hs]].
  exists (c :: w). simpl. rewrite E, Hs.
  split; [now f_equal|]. split; [discriminate|reflexivity].
Qed.

Lemma matchUnit_sound names : forall l u r,
  matchUnit names l = Some (u, r) -> In u names /\ l = u ++ r.
Proof.
  induction names as [|n names IH]; intros l u r; simpl; [discriminate|].
  destruct (stripPrefix n l) as [r'|] eqn:E.
  - intros H. injection H as <- <-. apply stripPrefix_Some in E. auto.
  - intros H. apply IH in H. tauto.
Qed.

Lemma matchPlural_sound l :
  exists p, l = p ++ matchPlural l /\ isPlural p.
Proof.
  unfold matchPlural, isPlural.
  destruct (stripPrefix (chars "s") l) as [r|] eqn:E.
  - apply stripPrefix_Some in E. exists (chars "s"). auto.
  - exists []. auto.
Qed.

Lemma matchRelative_sound l a u :
  matchRelative l = Some (a, u) -> Recognized l a u.
Proof.
  unfold matchRelative.
  destruct (matchAmount l) as [[a' r1]|] eqn:E1; [|discriminate].
  destruct (matchSpaces r1) as [r2|] eqn:E2; [|discriminate].
  destruct (matchUnit unitNames r2) as [[u' r3]|] eqn:E3; [|discriminate].
  destruct (matchSpaces (matchPlural r3)) as [r4|] eqn:E4; [|discriminate].
  destruct (eqb_chars r4 (chars "ago")) eqn:E5; [|discriminate].
  intros H. injection H as <- <-.
  apply matchAmount_sound in E1. destruct E1 as [-> Ha].
  apply matchSpaces_sound in E2. destruct E2 as [w1 [-> Hw1]].
  apply matchUnit_sound in E3. destruct E3 as [Hu ->].
  destruct (matchPlural_sound r3) as [p [Hp Hpl]].
  apply matchSpaces_sound in E4. destruct E4 as [w2 [Hr4 Hw2]].
  apply eqb_chars_eq in E5. subst r4.
  exists w1, p, w2. rewrite Hp, Hr4. auto 7.
Qed.

(** *** From the grammar to a match *)

Lemma spaces_head w :
  isSpaces w -> exists c t, w = c :: t /\ isWhiteSpace c = true
                            /\ forallb isWhiteSpace t = true.
Proof.
  intros [Hne Hw]. destruct w as [|c t]; [congruence|].
  simpl in Hw. apply andb_true_iff in Hw. exists c, t. tauto.
Qed.

Lemma matchAmount_complete a c r :
  isAmount a -> isWhiteSpace c = true ->
  matchAmount (a ++ c :: r) = Some (a, c :: r).
Proof.
  intros Ha Hc. unfold matchAmount.
  destruct Ha as [-> | [-> | [Hne Hd]]].
  - unfold chars. cbn [list_ascii_of_string app stripPrefix].
    rewrite Ascii.eqb_refl, (space_not_letter c "n" Hc eq_refl).
    reflexivity.
  - reflexivity.
  - destruct a as [|x a]; [congruence|].
    simpl in Hd. apply andb_true_iff in Hd. destruct Hd as [Hx Hd].
    unfold chars. cbn [list_ascii_of_string app stripPrefix].
    rewrite (digit_not_a x Hx).
    change (x :: a ++ c :: r) with ((x :: a) ++ c :: r).
    rewrite (spanDigits_complete (x :: a) c r).
    + reflexivity.
    + simpl. now rewrite Hx.
    + now apply space_not_digit.
Qed.

Lemma matchSpaces_complete w x r :
  isSpaces w -> isWhiteSpace x = false ->
  matchSpaces (w ++ x :: r) = Some (x :: r).
Proof.
  intros Hw Hx. destruct (spaces_head w Hw) as [c [t [-> [Hc Ht]]]].
  simpl. rewrite Hc. now rewrite trimStart_spaces.
Qed.

(** Every unit name starts with a letter and is found by [matchUnit]. *)
Lemma unit_complete u r :
  In u unitNames ->
  matchUnit unitNames (u ++ r) = Some (u, r)
  /\ exists x t, u = x :: t /\ isWhiteSpace x = false.
Proof.
  intros H. simpl in H.
  repeat (destruct H as [<- | H];
          [split; [reflexivity | eexists; eexists; split; reflexivity]|]).
  contradiction.
Qed.

Lemma matchPlural_complete p c r :
  isPlural p -> isWhiteSpace c = true ->
  matchPlural (p ++ c :: r) = c :: r.
Proof.
  intros [-> | ->] Hc; unfold matchPlural, chars;
    cbn [list_ascii_of_string app stripPrefix].
  - now rewrite (space_not_letter c "s" Hc eq_refl).
  - now rewrite Ascii.eqb_refl.
Qed.

Lemma matchRelative_complete l a u :
  Recognized l a u -> matchRelative l = Some (a, u).
Proof.
  intros (w1 & p & w2 & -> & Ha & Hw1 & Hu & Hp & Hw2).
  destruct (unit_complete u (p ++ w2 ++ chars "ago") Hu)
    as [Hmu (x & t & Hx & Hxs)].
  destruct (spaces_head w1 Hw1) as [c1 [t1 [E1 [Hc1 _]]]].
  destruct (spaces_head w2 Hw2) as [c2 [t2 [E2 [Hc2 _]]]].
  assert (H1 : matchAmount (a ++ w1 ++ u ++ p ++ w2 ++ chars "ago")
               = Some (a, w1 ++ u ++ p ++ w2 ++ chars "ago")).
  { rewrite E1.
    exact (matchAmount_complete a c1 (t1 ++ u ++ p ++ w2 ++ chars "ago") Ha Hc1). }
  assert (H2 : matchSpaces (w1 ++ u ++ p ++ w2 ++ chars "ago")
               = Some (u ++ p ++ w2 ++ chars "ago")).
  { rewrite Hx.
    exact (matchSpaces_complete w1 x (t ++ p ++ w2 ++ chars "ago") Hw1 Hxs). }
  assert (H3 : matchPlural (p ++ w2 ++ chars "ago") = w2 ++ chars "ago").
  { rewrite E2.
    exact (matchPlural_complete p c2 (t2 ++ chars "ago") Hp Hc2). }
  assert (H4 : matchSpaces (w2 ++ chars "ago") = Some (chars "ago")).
  { exact (matchSpaces_complete w2 "a" (chars "go") Hw2 eq_refl). }
  unfold matchRelative. rewrite H1, H2, Hmu, H3, H4. reflexivity.
Qed.

(** The pattern accepts exactly the grammar, and the captures are the
    amount and the unit. *)
Lemma matchRelative_iff l a u :
  matchRelative l = Some (a, u) <-> Recognized l a u.
Proof.
  split; [apply matchRelative_sound | apply matchRelative_complete].
Qed.

End GrammarFacts.

(* ================================================================== *)
(** ** Properties of [parseRelativeDate] *)
(* ================================================================== *)

Module ParseProperties.
Import JsString JsNumber JsDate Dates Grammar DateFacts GrammarFacts Pages.

Ltac decide_units :=
  repeat match goal with
    | |- context [eqb_chars ?a ?b] =>
        let v := eval vm_compute in (eqb_chars a b) in
        change (eqb_chars a b) with v
    end; cbv iota.

Lemma parseInt10_nonneg l : forall acc,
  0 <= acc -> forallb isDigit l = true ->
  0 <= fold_left (fun a c => 10 * a + digitValue c) l acc.
Proof.
  induction l as [|c l IH]; intros acc Hacc Hd; cbn [fold_left];
    [exact Hacc|].
  cbn [forallb] in Hd. apply andb_true_iff in Hd. destruct Hd as [Hc Hd].
  apply IH; [|exact Hd].
  unfold isDigit in Hc. apply andb_true_iff in Hc. destruct Hc as [Hc _].
  apply N.leb_le in Hc. unfold digitValue. lia.
Qed.

Lemma magnitude_nonneg a : isAmount a -> 0 <= magnitude a.
Proof.
  intros [-> | [-> | [_ Hd]]]; [vm_compute; discriminate ..|].
  unfold magnitude.
  destruct (eqb_chars a (chars "a") || eqb_chars a (chars "an")); [lia|].
  apply parseInt10_nonneg; [lia | exact Hd].
Qed.

Lemma Recognized_parts l a u :
  Recognized l a u -> isAmount a /\ In u unitNames.
Proof. intros (w1 & p & w2 & _ & Ha & _ & Hu & _). auto. Qed.

(** The amount of the code is the Number for the magnitude. *)
Lemma amount_magnitude a :
  (if eqb_chars a (chars "a") || eqb_chars a (chars "an")
   then num 1 else num (parseInt10 a))
  = num (magnitude a).
Proof. unfold magnitude. destruct (_ || _); reflexivity. Qed.

Lemma utc_bounded : boundedZone Samples.utc.
Proof. intros t isUTC. vm_compute. discriminate. Qed.

Lemma easternTime_bounded : boundedZone Samples.easternTime.
Proof.
  intros t isUTC. unfold Samples.easternTime. cbv zeta.
  destruct isUTC; repeat destruct (_ <? _); vm_compute; discriminate.
Qed.

Lemma constant_bounded LocalTZA offset :
  constantZone LocalTZA offset -> Z.abs offset <= msPerDay ->
  boundedZone LocalTZA.
Proof. intros Hc Ho t isUTC. now rewrite Hc. Qed.

(** On recognized input the result is the date of the shifted instant. *)
Lemma parseRelativeDate_recognized LocalTZA now s a u k :
  Z.abs now <= horizon -> boundedZone LocalTZA ->
  Recognized (normalized s) a u ->
  inMonth k (wallClock LocalTZA now / msPerDay) ->
  parseRelativeDate LocalTZA now s
  = Some (dateAt (shifted LocalTZA now k (magnitude a) u)).
Proof.
  intros Hnow Hzone H Hk. unfold parseRelativeDate. fold (normalized s).
  rewrite (matchRelative_complete _ _ _ H). cbv zeta.
  rewrite amount_magnitude.
  destruct (Recognized_parts _ _ _ H) as [Ha Hu].
  apply magnitude_nonneg in Ha.
  unfold shifted, wallClockBefore. simpl in Hu.
  destruct Hu as [<-|[<-|[<-|[<-|[<-|[<-|[<-|[]]]]]]]]; decide_units.
  - now rewrite setSeconds_shift.
  - now rewrite setMinutes_shift.
  - now rewrite setHours_shift.
  - now rewrite setDate_shift.
  - now rewrite setDate_shift_weeks.
  - now rewrite (setMonth_shift _ _ Hnow Hzone _ k).
  - now rewrite (setFullYear_shift _ _ Hnow Hzone _ k).
Qed.

Lemma parseRelativeDate_null LocalTZA now s :
  parseRelativeDate LocalTZA now s = None
  <-> forall a u, ~ Recognized (normalized s) a u.
Proof.
  split.
  - intros Hnull a u H. revert Hnull.
    unfold parseRelativeDate. fold (normalized s).
    rewrite (matchRelative_complete _ _ _ H). cbv zeta.
    destruct (Recognized_parts _ _ _ H) as [_ Hu]. simpl in Hu.
    destruct Hu as [<-|[<-|[<-|[<-|[<-|[<-|[<-|[]]]]]]]]; decide_units;
      discriminate.
  - intros Hno. unfold parseRelativeDate. fold (normalized s).
    destruct (matchRelative (normalized s)) as [[a u]|] eqn:E; [|reflexivity].
    apply matchRelative_sound in E. destruct (Hno a u E).
Qed.

(** With the offset unchanged, wall-clock subtraction of a fixed duration
    is subtraction from [now]. *)
Lemma shifted_fixed LocalTZA now k n u ms :
  unitMs u = Some ms -> sameOffset LocalTZA now (n * ms) ->
  shifted LocalTZA now k n u = now - n * ms.
Proof.
  unfold unitMs, shifted, wallClockBefore, sameOffset, instantOf.
  destruct (eqb_chars u (chars "second"));
    [intros H; injection H as <-; intros ->; unfold wallClock; lia|].
  destruct (eqb_chars u (chars "minute"));
    [intros H; injection H as <-; intros ->; unfold wallClock; lia|].
  destruct (eqb_chars u (chars "hour"));
    [intros H; injection H as <-; intros ->; unfold wallClock; lia|].
  destruct (eqb_chars u (chars "day"));
    [intros H; injection H as <-; intros ->; unfold wallClock; lia|].
  destruct (eqb_chars u (chars "week")); [|discriminate].
  intros H; injection H as <-. intros Hs.
  replace (wallClock LocalTZA now - n * 7 * msPerDay)
    with (wallClock LocalTZA now - n * 604800000) by (unfold msPerDay; lia).
  rewrite Hs. unfold wallClock, msPerDay. lia.
Qed.

Lemma dateAt_in_range t : Z.abs t <= maxTime -> dateAt t = mkDate (Finite t).
Proof.
  intros H. unfold dateAt. apply Z.leb_le in H. now rewrite H.
Qed.

Lemma dateAt_out_of_range t : maxTime < Z.abs t -> dateAt t = mkDate NaN.
Proof.
  intros H. unfold dateAt. apply Z.leb_gt in H. now rewrite H.
Qed.

(** C7, as the code has it.  The input is trimmed and lower-cased; it is
    accepted exactly when it then follows the grammar, and every other
    input gives [null].  On a host whose clock is within the year 9999 and
    whose offsets from UTC stay below a day, the amount is subtracted on
    the wall clock of the host: seconds to weeks as fixed durations (a
    week is 7 days), [n] months as the [n] calendar months before the
    current one, whatever their lengths, and a year as 12 of them; the
    result is the instant at which the host takes its clocks to show that
    reading, as a [Date], or an invalid [Date] when that instant is more
    than 8.64e15 ms from the epoch.  For seconds to weeks this is [now]
    minus the duration whenever the host reads the wall-clock time with
    the offset in force at [now]; so the table of examples holds when no
    change of the offset lies in between. *)
Theorem parseRelativeDate_spec (LocalTZA : Zone) (now : Z) (s : string) :
  Z.abs now <= horizon ->
  boundedZone LocalTZA ->
  (forall a u,
      Recognized (normalized s) a u ->
      exists k,
        inMonth k (wallClock LocalTZA now / msPerDay)
        /\ parseRelativeDate LocalTZA now s
           = Some (dateAt (shifted LocalTZA now k (magnitude a) u))
        /\ (Z.abs (shifted LocalTZA now k (magnitude a) u) <= maxTime ->
            parseRelativeDate LocalTZA now s
            = Some (mkDate (Finite (shifted LocalTZA now k (magnitude a) u))))
        /\ (maxTime < Z.abs (shifted LocalTZA now k (magnitude a) u) ->
            parseRelativeDate LocalTZA now s = Some (mkDate NaN))
        /\ (forall ms,
              unitMs u = Some ms ->
              sameOffset LocalTZA now (magnitude a * ms) ->
              shifted LocalTZA now k (magnitude a) u
              = now - magnitude a * ms))
  /\ (parseRelativeDate LocalTZA now s = None
      <-> forall a u, ~ Recognized (normalized s) a u)
  /\ (sameOffset LocalTZA now (7 * msPerDay) ->
      parseRelativeDate LocalTZA now "a week ago"
      = Some (mkDate (Finite (now - 7 * msPerDay))))
  /\ (sameOffset LocalTZA now (2 * msPerDay) ->
      parseRelativeDate LocalTZA now "2 days ago"
      = Some (mkDate (Finite (now - 2 * msPerDay))))
  /\ (sameOffset LocalTZA now msPerHour ->
      parseRelativeDate LocalTZA now "an hour ago"
      = Some (mkDate (Finite (now - msPerHour))))
  /\ (sameOffset LocalTZA now (5 * msPerMinute) ->
      parseRelativeDate LocalTZA now "5 minutes ago"
      = Some (mkDate (Finite (now - 5 * msPerMinute))))
  /\ parseRelativeDate LocalTZA now "gibberish" = None
  /\ parseRelativeDate LocalTZA now "" = None.
Proof.
  intros Hnow Hzone.
  pose proof (inMonth_fields (wallClock LocalTZA now)) as Hk.
  set (k := 12 * YearFromTime (wallClock LocalTZA now)
            + MonthFromTime (wallClock LocalTZA now)) in Hk.
  assert (Hex : forall text a u n ms,
             matchRelative (normalized text) = Some (a, u) ->
             unitMs u = Some ms ->
             magnitude a * ms = n ->
             0 <= n <= 7 * msPerDay ->
             sameOffset LocalTZA now n ->
             parseRelativeDate LocalTZA now text
             = Some (mkDate (Finite (now - n)))).
  { intros text a u n ms Hm Hms Hn Hr Hs. apply matchRelative_sound in Hm.
    rewrite (parseRelativeDate_recognized _ _ _ _ _ k Hnow Hzone Hm Hk).
    rewrite (shifted_fixed _ _ _ _ _ ms Hms) by (now rewrite Hn).
    rewrite Hn, dateAt_in_range; [reflexivity|].
    unfold maxTime, msPerDay, horizon in *. lia. }
  split; [|split; [apply parseRelativeDate_null|]].
  - intros a u H. exists k. split; [exact Hk|].
    rewrite (parseRelativeDate_recognized _ _ _ _ _ k Hnow Hzone H Hk).
    split; [reflexivity|]. split; [|split].
    + intros Hr. now rewrite dateAt_in_range.
    + intros Hr. now rewrite dateAt_out_of_range.
    + intros ms Hms Hs. now apply shifted_fixed.
  - repeat split.
    + apply (Hex _ (chars "a") (chars "week") _ (7 * msPerDay));
        [reflexivity | reflexivity | reflexivity | unfold msPerDay; lia].
    + apply (Hex _ (chars "2") (chars "day") _ msPerDay);
        [reflexivity | reflexivity | reflexivity | unfold msPerDay; lia].
    + apply (Hex _ (chars "an") (chars "hour") _ msPerHour);
        [reflexivity | reflexivity | reflexivity
        | unfold msPerDay, msPerHour; lia].
    + apply (Hex _ (chars "5") (chars "minute") _ msPerMinute);
        [reflexivity | reflexivity | reflexivity
        | unfold msPerDay, msPerMinute; lia].
Qed.

Lemma parseRelativeDate_spec_witness :
  (exists k,
      inMonth k (wallClock Samples.easternTime 1750420800000 / msPerDay)
      /\ parseRelativeDate Samples.easternTime 1750420800000 "  3 Months AGO "
         = Some (dateAt (shifted Samples.easternTime 1750420800000 k
                           (magnitude (chars "3")) (chars "month"))))
  /\ parseRelativeDate Samples.easternTime 1750420800000 "an hour ago"
     = Some (mkDate (Finite (1750420800000 - msPerHour))).
Proof.
  assert (Hnow : Z.abs 1750420800000 <= horizon) by (vm_compute; discriminate).
  split.
  - destruct (proj1 (parseRelativeDate_spec Samples.easternTime 1750420800000
                       "  3 Months AGO " Hnow easternTime_bounded)
                (chars "3") (chars "month")) as (k & Hk & Hdate & _).
    + apply matchRelative_sound. reflexivity.
    + exists k. split; [exact Hk | exact Hdate].
  - apply (proj2 (proj2 (parseRelativeDate_spec Samples.easternTime
                           1750420800000 "" Hnow easternTime_bounded))).
    reflexivity.
Defined.

(** C7 as stated fails.  "300000 years ago" follows the grammar, and the
    result is an invalid [Date], not an instant.  And the subtraction is
    made on the wall clock: on a host on Eastern Time, "an hour ago" at
    01:30 EST on 2 November 2025 is two hours before [now] (01:30 minus an
    hour is 00:30, a time at which daylight saving was in force), and "20
    minutes ago" at 03:10 EDT on 9 March 2025 is 40 minutes after [now]
    (02:50 does not occur that day and is read as a standard time). *)
Lemma parseRelativeDate_not_now_minus_amount :
  Recognized (normalized "300000 years ago") (chars "300000") (chars "year")
  /\ parseRelativeDate Samples.utc 1750420800000 "300000 years ago"
     = Some (mkDate NaN)
  /\ parseRelativeDate Samples.easternTime 1762065000000 "an hour ago"
     = Some (mkDate (Finite (1762065000000 - 2 * msPerHour)))
  /\ parseRelativeDate Samples.easternTime 1741504200000 "20 minutes ago"
     = Some (mkDate (Finite (1741504200000 + 40 * msPerMinute))).
Proof.
  split; [apply matchRelative_sound; reflexivity|].
  vm_compute. repeat split.
Qed.

(** Past the horizon the arithmetic of doubles shows: with a clock in the
    year 274000 the seconds to subtract exceed 2^53 ms on the way, and the
    result is a millisecond off. *)
Lemma rounding_past_the_horizon :
  parseRelativeDate Samples.utc 8600000000000001 "17000000000000 seconds ago"
  = Some (mkDate (Finite (-8400000000000000)))
  /\ 8600000000000001 - 17000000000000 * msPerSecond = -8399999999999999.
Proof. vm_compute. split; reflexivity. Qed.

End ParseProperties.

(* ================================================================== *)
(** ** What a run of [ScraperReviews] stores *)
(* ================================================================== *)

Module StoreFacts.
Import Update Runs Pages MapFacts LoopFacts.

Lemma StoresFrom_refl from st st' :
  scrapedReviews st' = scrapedReviews st -> StoresFrom from st st'.
Proof.
  intros H. exists []. simpl. rewrite app_nil_r. split; [assumption|constructor].
Qed.

Lemma StoresFrom_trans f1 f2 a b c :
  StoresFrom f1 a b -> StoresFrom f2 b c -> StoresFrom (f1 ++ f2) a c.
Proof.
  intros [x [Hx Fx]] [y [Hy Fy]]. exists (x ++ y). split.
  - rewrite Hy, Hx, map_app. now rewrite app_assoc.
  - apply Forall_app. split.
    + eapply Forall_impl; [|exact Fx]. simpl. intros r [Hin Hlow].
      split; [apply in_or_app; now left | assumption].
    + eapply Forall_impl; [|exact Fy]. simpl. intros r [Hin Hlow].
      split; [apply in_or_app; now right | assumption].
Qed.

Lemma StoresFrom_incl f1 f2 a b :
  incl f1 f2 -> StoresFrom f1 a b -> StoresFrom f2 a b.
Proof.
  intros Hi [x [Hx Fx]]. exists x. split; [assumption|].
  eapply Forall_impl; [|exact Fx]. simpl. intros r [Hin Hlow]. auto.
Qed.

Lemma StoresFrom_addIfAbsent r st :
  isHighRating r = false -> StoresFrom [r] st (addIfAbsent r st).
Proof.
  intros Hlow. rewrite <- (app_nil_r [r]).
  unfold StoresFrom. rewrite addIfAbsent_reviews.
  destruct (JsMap.has (id r) (scrapedReviews st)).
  - exists []. simpl. rewrite app_nil_r. split; [reflexivity|constructor].
  - exists [r]. split; [reflexivity|]. repeat constructor; simpl; auto.
Qed.

Section Loop.

Variable LocalTZA : JsDate.Zone.
Variable clock : nat -> Z.
Variable lastScrapedDate : option string.

Lemma forReviews_StoresFrom batch : forall st,
  StoresFrom batch st (forReviews LocalTZA clock lastScrapedDate batch st).
Proof.
  induction batch as [|r rest IH]; intros st.
  - now apply StoresFrom_refl.
  - change (r :: rest) with ([r] ++ rest) at 1.
    cbn [forReviews].
    destruct lastScrapedDate as [cutoff|].
    + destruct (truthy (Some cutoff)).
      * destruct (isStopedAt LocalTZA clock cutoff r st) as [[|]|].
        -- destruct (isHighRating r) eqn:E.
           ++ eapply StoresFrom_trans; [|apply IH]. now apply StoresFrom_refl.
           ++ eapply StoresFrom_trans; [|apply IH].
              apply (StoresFrom_addIfAbsent r (tick 2 st) E).
        -- eapply StoresFrom_trans; [|apply IH]. now apply StoresFrom_refl.
        -- eapply StoresFrom_trans; [|apply IH]. now apply StoresFrom_refl.
      * eapply StoresFrom_trans; [|apply IH]. now apply StoresFrom_refl.
    + destruct (isHighRating r) eqn:E.
      * now apply StoresFrom_refl.
      * eapply StoresFrom_trans; [|apply IH].
        apply (StoresFrom_addIfAbsent r st E).
Qed.

Lemma extract_app a b : extract (a ++ b) = extract a ++ extract b.
Proof.
  induction a as [|[r|] a IH]; simpl; [reflexivity| |assumption].
  now rewrite IH.
Qed.

Lemma extract_In r l : In r (extract l) <-> In (Some r) l.
Proof.
  induction l as [|[x|] l IH]; simpl; [tauto| |].
  - rewrite IH. split; intros [H|H]; auto; left; congruence.
  - rewrite IH. split; [auto|]. intros [H|H]; [discriminate|assumption].
Qed.

Lemma extract_skipn_incl n l : incl (extract (skipn n l)) (extract l).
Proof.
  intros r H. rewrite <- (firstn_skipn n l), extract_app.
  apply in_or_app. now right.
Qed.

Lemma iteration_StoresFrom r st :
  StoresFrom (recordsOf [r]) st
    (fst (iteration LocalTZA clock lastScrapedDate r st)).
Proof.
  destruct r as [e| |allElements]; simpl.
  - now apply StoresFrom_refl.
  - now apply StoresFrom_refl.
  - rewrite app_nil_r.
    eapply StoresFrom_incl; [apply (extract_skipn_incl (processedElementsCount st))|].
    destruct (forReviews_StoresFrom
                (extract (skipn (processedElementsCount st) allElements))
                (withProcessed (List.length allElements) st)) as [added [Ha Fa]].
    exists added. rewrite countNoNew_reviews, Ha. auto.
Qed.

Lemma recordsOf_cons r script :
  recordsOf (r :: script) = recordsOf [r] ++ recordsOf script.
Proof.
  destruct r; simpl; try reflexivity. now rewrite app_nil_r.
Qed.

Lemma whileScrolling_StoresFrom script : forall st st',
  whileScrolling LocalTZA clock lastScrapedDate script st = Some st' ->
  StoresFrom (recordsOf script) st st'.
Proof.
  induction script as [|r script IH]; intros st st'; cbn [whileScrolling].
  - destruct (isScrolling st); [discriminate|].
    intros H; injection H as <-. now apply StoresFrom_refl.
  - destruct (isScrolling st);
      [|intros H; injection H as <-; now apply StoresFrom_refl].
    pose proof (iteration_StoresFrom r st) as Hit.
    destruct (iteration LocalTZA clock lastScrapedDate r st) as [st1 broke].
    cbn [fst] in Hit. rewrite recordsOf_cons.
    destruct broke.
    + intros H; injection H as <-.
      eapply StoresFrom_incl; [|exact Hit]. apply incl_appl, incl_refl.
    + intros H. eapply StoresFrom_trans; [exact Hit | apply IH, H].
Qed.

End Loop.

Lemma recordsOf_In r script :
  In r (recordsOf script) ->
  exists allElements, In (EvalReturns allElements) script /\ In (Some r) allElements.
Proof.
  induction script as [|x script IH]; simpl; [tauto|].
  destruct x as [e| |allElements].
  - intros H. destruct (IH H) as [a [Ha Hr]]. exists a. auto.
  - intros H. destruct (IH H) as [a [Ha Hr]]. exists a. auto.
  - intros H. apply in_app_or in H. destruct H as [H|H].
    + exists allElements. split; [now left | now apply extract_In].
    + destruct (IH H) as [a [Ha Hr]]. exists a. auto.
Qed.

Lemma values_keyed l : JsMap.values (map keyed l) = l.
Proof.
  unfold JsMap.values. rewrite map_map. simpl. apply map_id.
Qed.

(** What [ScraperReviews] returns, in terms of the script. *)
Lemma ScraperReviews_stored LocalTZA clock lastScrapedDate script result lines :
  ScraperReviews LocalTZA clock lastScrapedDate script = Some (result, lines) ->
  Forall (fun r => In r (recordsOf script) /\ isHighRating r = false) result.
Proof.
  unfold ScraperReviews.
  destruct (whileScrolling _ _ _ script initialState) as [st|] eqn:E;
    [|discriminate].
  intros H. injection H as <- _.
  apply whileScrolling_StoresFrom in E. destruct E as [added [Ha Fa]].
  simpl in Ha. rewrite Ha, values_keyed. exact Fa.
Qed.

End StoreFacts.

(* ================================================================== *)
(** ** Further properties of [ScraperReviews] *)
(* ================================================================== *)

Module LoopCoverage.
Import Update Runs Pages MapFacts LoopFacts Saturation StoreFacts.

(** X1.  Whatever the mode and the page, [ScraperReviews] returns no high
    rating: the filter [isHighRating === false] that the function computes
    and drops before its [return] would keep every returned record. *)
Theorem results_hold_no_high_rating
  (LocalTZA : JsDate.Zone) (clock : nat -> Z) (lastScrapedDate : option string)
  (script : list EvaluateResult) (result : list ReviewType)
  (lines : list ConsoleLine) :
  ScraperReviews LocalTZA clock lastScrapedDate script = Some (result, lines) ->
  Forall (fun r => isHighRating r = false) result
  /\ filter (fun item => negb (isHighRating item)) result = result.
Proof.
  intros H. apply ScraperReviews_stored in H.
  assert (Hlow : Forall (fun r => isHighRating r = false) result).
  { eapply Forall_impl; [|exact H]. simpl. tauto. }
  split; [exact Hlow|].
  clear H. induction Hlow as [|r t Hr _ IH]; simpl; [reflexivity|].
  now rewrite Hr, IH.
Qed.

Lemma results_hold_no_high_rating_witness :
  Forall (fun r => isHighRating r = false)
    [Samples.review "a" "1 day ago" false]
  /\ filter (fun item => negb (isHighRating item))
       [Samples.review "a" "1 day ago" false]
     = [Samples.review "a" "1 day ago" false].
Proof.
  apply (results_hold_no_high_rating Samples.utc Samples.clock (Some "2 days ago"%string)
           [EvalReturns [Some (Samples.review "h" "1 day ago" true);
                         Some (Samples.review "a" "1 day ago" false);
                         Some (Samples.review "b" "3 days ago" false)]]
           _ [LogStopping "b"]).
  vm_compute. reflexivity.
Defined.

(** X2.  Every record that [ScraperReviews] returns was handed over by the
    page in one of the [page.evaluate] calls of the run. *)
Theorem results_come_from_the_page
  (LocalTZA : JsDate.Zone) (clock : nat -> Z) (lastScrapedDate : option string)
  (script : list EvaluateResult) (result : list ReviewType)
  (lines : list ConsoleLine) (r : ReviewType) :
  ScraperReviews LocalTZA clock lastScrapedDate script = Some (result, lines) ->
  In r result ->
  exists allElements,
    In (EvalReturns allElements) script /\ In (Some r) allElements.
Proof.
  intros H Hr. apply ScraperReviews_stored in H.
  rewrite Forall_forall in H. destruct (H r Hr) as [Hin _].
  now apply recordsOf_In.
Qed.

Lemma results_come_from_the_page_witness :
  exists allElements,
    In (EvalReturns allElements)
       [EvalReturns [Some (Samples.review "a" "1 day ago" false)];
        EvalThrows Samples.failure]
    /\ In (Some (Samples.review "a" "1 day ago" false)) allElements.
Proof.
  apply (results_come_from_the_page Samples.utc Samples.clock None
           [EvalReturns [Some (Samples.review "a" "1 day ago" false)];
            EvalThrows Samples.failure]
           [Samples.review "a" "1 day ago" false]
           [ErrorWith "Error in scroll iteration:" Samples.failure]).
  - reflexivity.
  - left. reflexivity.
Defined.

Section AnyMode.

Variable LocalTZA : JsDate.Zone.
Variable clock : nat -> Z.
Variable lastScrapedDate : option string.

(** An iteration that finds no new element only counts. *)
Lemma empty_iteration allElements st :
  (List.length allElements <= processedElementsCount st)%nat ->
  iteration LocalTZA clock lastScrapedDate (EvalReturns allElements) st
  = (countNoNew 0 (withProcessed (List.length allElements) st), false).
Proof.
  intros H. unfold iteration. rewrite (skipn_all2 allElements H). reflexivity.
Qed.

Lemma empty_step allElements script st :
  isScrolling st = true ->
  (List.length allElements <= processedElementsCount st)%nat ->
  whileScrolling LocalTZA clock lastScrapedDate (EvalReturns allElements :: script) st
  = whileScrolling LocalTZA clock lastScrapedDate script
      (countNoNew 0 (withProcessed (List.length allElements) st)).
Proof.
  intros Hlive H. cbn [whileScrolling].
  now rewrite Hlive, (empty_iteration _ _ H).
Qed.

Lemma whileScrolling_stopped script st :
  isScrolling st = false ->
  whileScrolling LocalTZA clock lastScrapedDate script st = Some st.
Proof. intros H. destruct script; cbn [whileScrolling]; now rewrite H. Qed.

End AnyMode.

Lemma countNoNew_stops st :
  (2 <= noNewElementsCount st)%nat ->
  countNoNew 0 st
  = stopScrolling
      (write (LogText "Stopping: No new elements found for multiple iterations")
             (withNoNew (S (noNewElementsCount st)) st)).
Proof.
  intros H. unfold countNoNew. cbn [Nat.eqb noNewElementsCount withNoNew].
  destruct (Nat.leb MAX_NO_NEW_ELEMENTS (S (noNewElementsCount st))) eqn:E;
    [reflexivity|].
  apply Nat.leb_gt in E. unfold MAX_NO_NEW_ELEMENTS in E. lia.
Qed.

Lemma countNoNew_counts st :
  (noNewElementsCount st < 2)%nat ->
  countNoNew 0 st = withNoNew (S (noNewElementsCount st)) st.
Proof.
  intros H. unfold countNoNew. cbn [Nat.eqb noNewElementsCount withNoNew].
  destruct (Nat.leb MAX_NO_NEW_ELEMENTS (S (noNewElementsCount st))) eqn:E;
    [|reflexivity].
  apply Nat.leb_le in E. unfold MAX_NO_NEW_ELEMENTS in E. lia.
Qed.

(** X3.  Three iterations in a row without a new element end the loop, in
    either mode: the function returns what was stored before them and
    writes the line that announces the stop.  (Fewer are enough when
    iterations without new elements came right before.) *)
Theorem stall_ends_the_harvest
  (LocalTZA : JsDate.Zone) (clock : nat -> Z) (lastScrapedDate : option string)
  (pre rest : list EvaluateResult) (st : LoopState)
  (page1 page2 page3 : list Element) :
  afterIterations LocalTZA clock lastScrapedDate pre initialState = Some st ->
  isScrolling st = true ->
  (List.length page1 <= processedElementsCount st)%nat ->
  (List.length page2 <= List.length page1)%nat ->
  (List.length page3 <= List.length page2)%nat ->
  ScraperReviews LocalTZA clock lastScrapedDate
    (pre ++ EvalReturns page1 :: EvalReturns page2 :: EvalReturns page3 :: rest)
  = Some (JsMap.values (scrapedReviews st),
          console st
          ++ [LogText "Stopping: No new elements found for multiple iterations"]).
Proof.
  intros Hpre Hlive H1 H2 H3. unfold ScraperReviews.
  rewrite (whileScrolling_app _ _ _ _ _ _ _ Hpre).
  rewrite (empty_step _ _ _ _ _ _ Hlive H1).
  set (st1 := withProcessed (List.length page1) st).
  destruct (le_lt_dec 2 (noNewElementsCount st1)) as [Hc1|Hc1].
  { rewrite (countNoNew_stops st1 Hc1).
    rewrite whileScrolling_stopped by reflexivity. reflexivity. }
  rewrite (countNoNew_counts st1 Hc1).
  set (st1' := withNoNew (S (noNewElementsCount st1)) st1).
  rewrite (empty_step _ _ _ page2 _ st1' Hlive H2).
  set (st2 := withProcessed (List.length page2) st1').
  destruct (le_lt_dec 2 (noNewElementsCount st2)) as [Hc2|Hc2].
  { rewrite (countNoNew_stops st2 Hc2).
    rewrite whileScrolling_stopped by reflexivity. reflexivity. }
  rewrite (countNoNew_counts st2 Hc2).
  set (st2' := withNoNew (S (noNewElementsCount st2)) st2).
  rewrite (empty_step _ _ _ page3 _ st2' Hlive H3).
  set (st3 := withProcessed (List.length page3) st2').
  assert (Hc3 : (2 <= noNewElementsCount st3)%nat) by (simpl; lia).
  rewrite (countNoNew_stops st3 Hc3).
  rewrite whileScrolling_stopped by reflexivity. reflexivity.
Qed.

Lemma stall_ends_the_harvest_witness :
  ScraperReviews Samples.utc Samples.clock (Some "2 days ago"%string)
    ([EvalReturns [Some (Samples.review "a" "1 day ago" false)]]
     ++ EvalReturns [Some (Samples.review "a" "1 day ago" false)]
        :: EvalReturns [] :: EvalReturns []
        :: [EvalReturns [Some (Samples.review "b" "1 day ago" false)]])
  = Some (JsMap.values [("a"%string, Samples.review "a" "1 day ago" false)],
          [] ++ [LogText "Stopping: No new elements found for multiple iterations"]).
Proof.
  apply (stall_ends_the_harvest Samples.utc Samples.clock (Some "2 days ago"%string)
           [EvalReturns [Some (Samples.review "a" "1 day ago" false)]]
           [EvalReturns [Some (Samples.review "b" "1 day ago" false)]]
           (mkState true [("a"%string, Samples.review "a" "1 day ago" false)]
                    1 0 2 [])).
  - vm_compute. reflexivity.
  - reflexivity.
  - simpl. lia.
  - simpl. lia.
  - simpl. lia.
Defined.

(** *** Pages that only grow *)

Lemma last_cons {A : Type} (a d : A) l : last (a :: l) d = last l a.
Proof.
  revert a d. induction l as [|b l IH]; intros a d; [reflexivity|].
  change (last (a :: b :: l) d) with (last (b :: l) d).
  now rewrite (IH b d), (IH b a).
Qed.

Lemma Grows_last page pages :
  Grows page pages -> exists more, last pages page = page ++ more.
Proof.
  revert page. induction pages as [|next pages IH]; intros page H.
  - exists []. simpl. now rewrite app_nil_r.
  - destruct H as [[more ->] Hg]. rewrite last_cons.
    destruct (IH _ Hg) as [more' ->]. exists (more ++ more').
    now rewrite app_assoc.
Qed.

Lemma skipn_length_app {A : Type} (a b : list A) :
  skipn (List.length a) (a ++ b) = b.
Proof. induction a; simpl; auto. Qed.

(** With pages that only grow, every rendered element is handed over once. *)
Lemma extractedBy_Grows pages : forall page,
  Grows page pages ->
  extractedBy (map EvalReturns pages) (List.length page)
  = extract (skipn (List.length page) (last pages page)).
Proof.
  induction pages as [|next pages IH]; intros page H.
  - simpl. now rewrite skipn_all.
  - destruct H as [[more ->] Hg]. cbn [map extractedBy].
    rewrite (IH _ Hg), last_cons.
    destruct (Grows_last _ _ Hg) as [more' ->].
    rewrite <- app_assoc, !skipn_length_app.
    rewrite (app_assoc page more more'), skipn_length_app.
    now rewrite extract_app.
Qed.

Lemma forReviews_keeps_processed LocalTZA clock lastScrapedDate batch : forall st,
  processedElementsCount (forReviews LocalTZA clock lastScrapedDate batch st)
  = processedElementsCount st.
Proof.
  induction batch as [|r rest IH]; intros st; [reflexivity|].
  cbn [forReviews].
  destruct lastScrapedDate as [cutoff|].
  - destruct (truthy (Some cutoff)); [|apply IH].
    destruct (isStopedAt LocalTZA clock cutoff r st) as [[|]|];
      try (rewrite IH; reflexivity).
    destruct (isHighRating r); rewrite IH; [reflexivity|].
    now destruct (addIfAbsent_fields r (tick 2 st)) as (_ & -> & _).
  - destruct (isHighRating r); [reflexivity|]. rewrite IH.
    now destruct (addIfAbsent_fields r st) as (_ & -> & _).
Qed.

(** After an iteration that returned data the cursor is the total it
    reported. *)
Lemma afterIterations_cursor LocalTZA clock lastScrapedDate pages : forall page st st',
  afterIterations LocalTZA clock lastScrapedDate (map EvalReturns pages) st = Some st' ->
  processedElementsCount st = List.length page ->
  processedElementsCount st' = List.length (last pages page).
Proof.
  induction pages as [|next pages IH]; intros page st st'; cbn [map afterIterations].
  - intros H Hc. injection H as <-. exact Hc.
  - destruct (isScrolling st); [|discriminate].
    cbn [iteration]. intros H _. rewrite last_cons.
    apply (IH next _ _ H).
    now rewrite countNoNew_processed, forReviews_keeps_processed.
Qed.

(** X4.  Without a cutoff, when the rendered list only grows at its end and
    the loop is still running after the pages, the map holds the first
    record of each identity on the last page, however the growth was cut
    into iterations, and the cursor is the length of that page: no element
    was handed over twice and none was left out. *)
Theorem growing_pages_are_harvested_once
  (LocalTZA : JsDate.Zone) (clock : nat -> Z) (pages : list (list Element))
  (st : LoopState) :
  Grows [] pages ->
  afterIterations LocalTZA clock None (map EvalReturns pages) initialState = Some st ->
  isScrolling st = true ->
  JsMap.values (scrapedReviews st) = uniqueById (extract (last pages []))
  /\ extractedBy (map EvalReturns pages) 0 = extract (last pages [])
  /\ processedElementsCount st = List.length (last pages []).
Proof.
  intros Hg Hrun Hlive.
  assert (Hinit : Collected [] initialState).
  { split; [reflexivity|]. split; [reflexivity|constructor]. }
  pose proof (afterIterations_Collected LocalTZA clock _ [] initialState st
                Hinit Hrun Hlive) as [Hv _].
  pose proof (extractedBy_Grows pages [] Hg) as He. simpl in He, Hv.
  split; [now rewrite Hv, He|]. split; [exact He|].
  now apply (afterIterations_cursor LocalTZA clock None pages [] initialState st).
Qed.

Lemma growing_pages_are_harvested_once_witness :
  JsMap.values
    [("a"%string, Samples.review "a" "1 day ago" false);
     ("b"%string, Samples.review "b" "1 day ago" false)]
  = uniqueById
      (extract (last [[Some (Samples.review "a" "1 day ago" false)];
                      [Some (Samples.review "a" "1 day ago" false); None;
                       Some (Samples.review "b" "1 day ago" false);
                       Some (Samples.review "a" "1 day ago" false)]] []))
  /\ extractedBy
       (map EvalReturns
            [[Some (Samples.review "a" "1 day ago" false)];
             [Some (Samples.review "a" "1 day ago" false); None;
              Some (Samples.review "b" "1 day ago" false);
              Some (Samples.review "a" "1 day ago" false)]]) 0
     = extract (last [[Some (Samples.review "a" "1 day ago" false)];
                      [Some (Samples.review "a" "1 day ago" false); None;
                       Some (Samples.review "b" "1 day ago" false);
                       Some (Samples.review "a" "1 day ago" false)]] [])
  /\ 4%nat
     = List.length
         (last [[Some (Samples.review "a" "1 day ago" false)];
                [Some (Samples.review "a" "1 day ago" false); None;
                 Some (Samples.review "b" "1 day ago" false);
                 Some (Samples.review "a" "1 day ago" false)]] []).
Proof.
  apply (growing_pages_are_harvested_once Samples.utc Samples.clock
           [[Some (Samples.review "a" "1 day ago" false)];
            [Some (Samples.review "a" "1 day ago" false); None;
             Some (Samples.review "b" "1 day ago" false);
             Some (Samples.review "a" "1 day ago" false)]]
           (mkState true
              [("a"%string, Samples.review "a" "1 day ago" false);
               ("b"%string, Samples.review "b" "1 day ago" false)] 4 0 0 [])).
  - simpl. split; [eexists; reflexivity|]. split; [|exact I].
    exists [None; Some (Samples.review "b" "1 day ago" false);
            Some (Samples.review "a" "1 day ago" false)]. reflexivity.
  - vm_compute. reflexivity.
  - reflexivity.
Defined.

(** *** Why a batch ends the harvest *)

Section Causes.

Variable LocalTZA : JsDate.Zone.
Variable clock : nat -> Z.
Variable lastScrapedDate : option string.

Lemma stoppingRecord_cons r batch :
  stoppingRecord LocalTZA clock lastScrapedDate batch ->
  stoppingRecord LocalTZA clock lastScrapedDate (r :: batch).
Proof.
  unfold stoppingRecord. destruct lastScrapedDate as [cutoff|].
  - intros [Hne (x & k & Hin & H)]. split; [assumption|].
    exists x, k. split; [now right | assumption].
  - intros (x & Hin & H). exists x. split; [now right | assumption].
Qed.

Lemma forReviews_stops_for_a_cause batch : forall st,
  isScrolling st = true ->
  isScrolling (forReviews LocalTZA clock lastScrapedDate batch st) = false ->
  stoppingRecord LocalTZA clock lastScrapedDate batch.
Proof.
  induction batch as [|r rest IH]; intros st Hlive Hstop.
  - simpl in Hstop. congruence.
  - cbn [forReviews] in Hstop. unfold stoppingRecord in *.
    destruct lastScrapedDate as [cutoff|] eqn:Emode.
    + destruct (truthy (Some cutoff)) eqn:Et.
      * assert (Hne : cutoff <> ""%string).
        { simpl in Et. intros ->. discriminate. }
        destruct (isStopedAt LocalTZA clock cutoff r st) as [[|]|] eqn:Ec.
        -- destruct (isHighRating r).
           ++ destruct (IH (tick 2 st) Hlive Hstop) as [_ (x & k & Hin & H)].
              split; [assumption|]. exists x, k. split; [now right|assumption].
           ++ assert (Hl : isScrolling (addIfAbsent r (tick 2 st)) = true)
                by (now rewrite addIfAbsent_flag).
              destruct (IH _ Hl Hstop) as [_ (x & k & Hin & H)].
              split; [assumption|]. exists x, k. split; [now right|assumption].
        -- split; [assumption|]. exists r, (clockReads st).
           split; [now left|]. unfold isStopedAt in Ec. rewrite Ec. discriminate.
        -- split; [assumption|]. exists r, (clockReads st).
           split; [now left|]. unfold isStopedAt in Ec. rewrite Ec. discriminate.
      * destruct (IH _ Hlive Hstop) as [Hne (x & k & Hin & H)].
        split; [assumption|]. exists x, k. split; [now right|assumption].
    + destruct (isHighRating r) eqn:Eh.
      * exists r. split; [now left|assumption].
      * assert (Hl : isScrolling (addIfAbsent r st) = true)
          by (now rewrite addIfAbsent_flag).
        destruct (IH _ Hl Hstop) as (x & Hin & H).
        exists x. split; [now right|assumption].
Qed.

Lemma forReviews_keeps_noNew batch : forall st,
  noNewElementsCount (forReviews LocalTZA clock lastScrapedDate batch st)
  = noNewElementsCount st.
Proof.
  induction batch as [|r rest IH]; intros st; [reflexivity|].
  cbn [forReviews].
  destruct lastScrapedDate as [cutoff|].
  - destruct (truthy (Some cutoff)); [|apply IH].
    destruct (isStopedAt LocalTZA clock cutoff r st) as [[|]|];
      try (rewrite IH; reflexivity).
    destruct (isHighRating r); rewrite IH; [reflexivity|].
    now destruct (addIfAbsent_fields r (tick 2 st)) as (_ & _ & -> & _).
  - destruct (isHighRating r); [reflexivity|]. rewrite IH.
    now destruct (addIfAbsent_fields r st) as (_ & _ & -> & _).
Qed.

End Causes.

(** X5.  The stall count after an iteration that returned data is 0 when
    the iteration met a newly rendered element, whether or not the element
    yielded a record, and one more than before when it met none.  And such
    an iteration clears [isScrolling] only for one of these reasons: it met
    no new element and the count reached 3; or, without a cutoff, a new
    record was a high rating; or, with a non-empty cutoff, the comparison
    of a new record with the cutoff was not [true]. *)
Theorem iteration_stops_only_for_a_cause
  (LocalTZA : JsDate.Zone) (clock : nat -> Z) (lastScrapedDate : option string)
  (allElements : list Element) (st : LoopState) :
  isScrolling st = true ->
  let newElements := skipn (processedElementsCount st) allElements in
  let st' :=
    fst (iteration LocalTZA clock lastScrapedDate (EvalReturns allElements) st) in
  (newElements <> [] -> noNewElementsCount st' = 0%nat)
  /\ (newElements = [] -> noNewElementsCount st' = S (noNewElementsCount st))
  /\ (isScrolling st' = false ->
      (newElements = [] /\ (3 <= noNewElementsCount st')%nat)
      \/ stoppingRecord LocalTZA clock lastScrapedDate (extract newElements)).
Proof.
  intros Hlive newElements st'. unfold st'. cbn [iteration fst].
  fold newElements.
  set (st2 := forReviews _ _ _ _ _).
  assert (H2 : noNewElementsCount st2 = noNewElementsCount st)
    by (unfold st2; now rewrite forReviews_keeps_noNew).
  unfold countNoNew.
  destruct (Nat.eqb (List.length newElements) 0) eqn:En.
  - apply Nat.eqb_eq in En. apply length_zero_iff_nil in En.
    split; [congruence|]. split.
    + intros _. destruct (Nat.leb _ _); simpl; now rewrite H2.
    + destruct (isScrolling st2) eqn:E2.
      * destruct (Nat.leb MAX_NO_NEW_ELEMENTS
                    (noNewElementsCount
                       (withNoNew (S (noNewElementsCount st2)) st2))) eqn:Ec;
          [|simpl; congruence].
        intros _. left. split; [exact En|].
        apply Nat.leb_le in Ec. exact Ec.
      * intros _. right.
        apply (forReviews_stops_for_a_cause LocalTZA clock lastScrapedDate
                 (extract newElements)
                 (withProcessed (List.length allElements) st) Hlive E2).
  - apply Nat.eqb_neq in En. split; [reflexivity|]. split.
    + intros ->. now elim En.
    + cbn [isScrolling withNoNew]. intros E2. right.
      apply (forReviews_stops_for_a_cause LocalTZA clock lastScrapedDate
               (extract newElements)
               (withProcessed (List.length allElements) st) Hlive E2).
Qed.

Lemma iteration_stops_only_for_a_cause_witness :
  noNewElementsCount
    (fst (iteration Samples.utc Samples.clock (Some "2 days ago"%string)
            (EvalReturns [Some (Samples.review "a" "1 day ago" false); None])
            (mkState true [] 1 2 0 [])))
  = 0%nat.
Proof.
  apply (proj1 (iteration_stops_only_for_a_cause Samples.utc Samples.clock
                  (Some "2 days ago"%string)
                  [Some (Samples.review "a" "1 day ago" false); None]
                  (mkState true [] 1 2 0 []) eq_refl)).
  vm_compute. discriminate.
Defined.

(** X6.  Called with the empty string as cutoff, [ScraperReviews] runs
    neither branch of the batch loop: a batch leaves the state as it is,
    whatever its records, so the function returns the empty array and only
    a stall or an error ends it.  (The entry point rejects the empty string
    before it gets here.) *)
Theorem empty_cutoff_stores_nothing
  (LocalTZA : JsDate.Zone) (clock : nat -> Z) :
  (forall batch st, forReviews LocalTZA clock (Some ""%string) batch st = st)
  /\ (forall script result lines,
        ScraperReviews LocalTZA clock (Some ""%string) script
          = Some (result, lines) ->
        result = []
        /\ (forall reviewId, ~ In (LogStopping reviewId) lines)).
Proof.
  assert (Hbatch : forall batch st,
             forReviews LocalTZA clock (Some ""%string) batch st = st).
  { induction batch as [|r rest IH]; intros st; [reflexivity|].
    cbn [forReviews]. simpl truthy. cbv iota. apply IH. }
  split; [exact Hbatch|].
  assert (Hrun : forall script st st',
             whileScrolling LocalTZA clock (Some ""%string) script st = Some st' ->
             scrapedReviews st' = scrapedReviews st
             /\ ((forall reviewId, ~ In (LogStopping reviewId) (console st)) ->
                 forall reviewId, ~ In (LogStopping reviewId) (console st'))).
  { induction script as [|r script IH]; intros st st'; cbn [whileScrolling].
    - destruct (isScrolling st); [discriminate|].
      intros H; injection H as <-. auto.
    - destruct (isScrolling st); [|intros H; injection H as <-; auto].
      destruct r as [e| |allElements]; cbn [iteration].
      + intros H; injection H as <-. split; [reflexivity|].
        simpl. intros Hq reviewId Hin. apply in_app_or in Hin.
        destruct Hin as [Hin|[Hin|[]]]; [apply (Hq _ Hin)|discriminate].
      + intros H; injection H as <-. split; [reflexivity|].
        simpl. intros Hq reviewId Hin. apply in_app_or in Hin.
        destruct Hin as [Hin|[Hin|[]]]; [apply (Hq _ Hin)|discriminate].
      + rewrite Hbatch. intros H. apply IH in H. destruct H as [Hr Hc].
        rewrite Hr, countNoNew_reviews. split; [reflexivity|].
        intros Hq. apply Hc. unfold countNoNew.
        destruct (Nat.eqb _ 0); [|exact Hq].
        destruct (Nat.leb _ _); [|exact Hq].
        simpl. intros reviewId Hin. apply in_app_or in Hin.
        destruct Hin as [Hin|[Hin|[]]]; [apply (Hq _ Hin)|discriminate]. }
  intros script result lines H. unfold ScraperReviews in H.
  destruct (whileScrolling _ _ _ script initialState) as [st|] eqn:E;
    [|discriminate].
  injection H as <- <-. destruct (Hrun _ _ _ E) as [Hr Hc].
  rewrite Hr. split; [reflexivity|]. apply Hc. simpl. auto.
Qed.

Lemma empty_cutoff_stores_nothing_witness :
  ([] : list ReviewType) = []
  /\ (forall reviewId,
        ~ In (LogStopping reviewId)
             [LogText "Stopping: No new elements found for multiple iterations"]).
Proof.
  apply (proj2 (empty_cutoff_stores_nothing Samples.utc Samples.clock)
           [EvalReturns [Some (Samples.review "a" "9 years ago" true)];
            EvalReturns [Some (Samples.review "a" "9 years ago" true)];
            EvalReturns [Some (Samples.review "a" "9 years ago" true)];
            EvalReturns [Some (Samples.review "a" "9 years ago" true)]]).
  vm_compute. reflexivity.
Defined.

(** *** The console of a run *)

Lemma noErrorLine_app a b :
  noErrorLine a -> noErrorLine b -> noErrorLine (a ++ b).
Proof.
  intros Ha Hb text e Hin. apply in_app_or in Hin.
  destruct Hin as [Hin|Hin]; [apply (Ha _ _ Hin) | apply (Hb _ _ Hin)].
Qed.

Lemma noErrorLine_stopping reviewId : noErrorLine [LogStopping reviewId].
Proof. intros text e [H|[]]. discriminate. Qed.

Lemma noErrorLine_text text : noErrorLine [LogText text].
Proof. intros t e [H|[]]. discriminate. Qed.

Section Console.

Variable LocalTZA : JsDate.Zone.
Variable clock : nat -> Z.
Variable lastScrapedDate : option string.

Lemma forReviews_console batch : forall st,
  noErrorLine (console st) ->
  noErrorLine (console (forReviews LocalTZA clock lastScrapedDate batch st)).
Proof.
  induction batch as [|r rest IH]; intros st Hq; [exact Hq|].
  cbn [forReviews].
  destruct lastScrapedDate as [cutoff|].
  - destruct (truthy (Some cutoff)); [|now apply IH].
    assert (Hstop : noErrorLine
              (console (stopScrolling (write (LogStopping (id r)) (tick 2 st))))).
    { simpl. apply noErrorLine_app; [exact Hq | apply noErrorLine_stopping]. }
    destruct (isStopedAt LocalTZA clock cutoff r st) as [[|]|];
      try (now apply IH).
    destruct (isHighRating r); apply IH; [exact Hq|].
    now destruct (addIfAbsent_fields r (tick 2 st)) as (_ & _ & _ & ->).
  - destruct (isHighRating r); [exact Hq|]. apply IH.
    now destruct (addIfAbsent_fields r st) as (_ & _ & _ & ->).
Qed.

Lemma countNoNew_console n st :
  noErrorLine (console st) -> noErrorLine (console (countNoNew n st)).
Proof.
  intros Hq. unfold countNoNew. destruct (Nat.eqb n 0); [|exact Hq].
  destruct (Nat.leb _ _); [|exact Hq].
  simpl. apply noErrorLine_app; [exact Hq | apply noErrorLine_text].
Qed.

(** The console at the end of the loop: free of error lines, or ending in
    the one error line of the call that threw. *)
Lemma whileScrolling_console script : forall st st',
  whileScrolling LocalTZA clock lastScrapedDate script st = Some st' ->
  noErrorLine (console st) ->
  noErrorLine (console st')
  \/ exists before e,
      console st' = before ++ [ErrorWith "Error in scroll iteration:" e]
      /\ noErrorLine before /\ In (EvalThrows e) script.
Proof.
  induction script as [|r script IH]; intros st st'; cbn [whileScrolling].
  - destruct (isScrolling st); [discriminate|].
    intros H Hq; injection H as <-. now left.
  - destruct (isScrolling st); [|intros H Hq; injection H as <-; now left].
    destruct r as [e| |allElements]; cbn [iteration].
    + intros H Hq; injection H as <-. right.
      exists (console st), e. simpl. auto.
    + intros H Hq; injection H as <-. left. simpl.
      apply noErrorLine_app; [exact Hq | apply noErrorLine_text].
    + intros H Hq.
      destruct (IH _ _ H) as [Hclean | (before & e & Hc & Hb & Hin)].
      * apply countNoNew_console, forReviews_console. exact Hq.
      * now left.
      * right. exists before, e. simpl. auto.
Qed.

End Console.

(** X7.  The console tells a clean end of [ScraperReviews] from an end by
    error.  The run reports at most one error: either no line reports one,
    or one line does, with "Error in scroll iteration:" and an error that a
    [page.evaluate] call of the run threw; no line before it and none after
    it reports an error, and the loop announces no decision after it.  A
    run in which no call throws writes no error line. *)
Theorem error_line_marks_a_failed_run
  (LocalTZA : JsDate.Zone) (clock : nat -> Z) (lastScrapedDate : option string)
  (script : list EvaluateResult) (result : list ReviewType)
  (lines : list ConsoleLine) :
  ScraperReviews LocalTZA clock lastScrapedDate script = Some (result, lines) ->
  (noErrorLine lines
   \/ exists before e after,
       lines = before ++ ErrorWith "Error in scroll iteration:" e :: after
       /\ noErrorLine before /\ noErrorLine after /\ noDecision after
       /\ In (EvalThrows e) script)
  /\ ((forall e, ~ In (EvalThrows e) script) -> noErrorLine lines).
Proof.
  intros H. unfold ScraperReviews in H.
  destruct (whileScrolling _ _ _ script initialState) as [st|] eqn:E;
    [|discriminate].
  injection H as <- <-.
  assert (Hinit : noErrorLine (console initialState)) by (intros t e []).
  pose proof (whileScrolling_console _ _ _ _ _ _ E Hinit) as Hc.
  split.
  - destruct Hc as [Hc | (before & e & Hlines & Hbefore & Hin)]; [now left|].
    right. exists before, e, []. rewrite Hlines.
    split; [reflexivity|]. split; [exact Hbefore|].
    split; [intros t x []|]. split; [intros line []|exact Hin].
  - intros Hno. destruct Hc as [Hc | (before & e & _ & _ & Hin)]; [exact Hc|].
    destruct (Hno e Hin).
Qed.

Lemma error_line_marks_a_failed_run_witness :
  (noErrorLine [ErrorWith "Error in scroll iteration:" Samples.failure]
   \/ exists before e after,
       [ErrorWith "Error in scroll iteration:" Samples.failure]
       = before ++ ErrorWith "Error in scroll iteration:" e :: after
       /\ noErrorLine before /\ noErrorLine after /\ noDecision after
       /\ In (EvalThrows e)
             [EvalReturns [Some (Samples.review "a" "1 day ago" false)];
              EvalThrows Samples.failure])
  /\ ((forall e,
         ~ In (EvalThrows e)
              [EvalReturns [Some (Samples.review "a" "1 day ago" false)];
               EvalThrows Samples.failure]) ->
      noErrorLine [ErrorWith "Error in scroll iteration:" Samples.failure]).
Proof.
  apply (error_line_marks_a_failed_run Samples.utc Samples.clock None
           [EvalReturns [Some (Samples.review "a" "1 day ago" false)];
            EvalThrows Samples.failure]
           [Samples.review "a" "1 day ago" false]).
  vm_compute. reflexivity.
Defined.

(** X8.  Without a cutoff the harvest reads no clock and parses no date:
    for every page the run is the same under any two clocks and time zones,
    and [new Date()] is never evaluated. *)
Theorem saturation_ignores_the_clock
  (zone1 zone2 : JsDate.Zone) (clock1 clock2 : nat -> Z)
  (script : list EvaluateResult) :
  ScraperReviews zone1 clock1 None script = ScraperReviews zone2 clock2 None script
  /\ (forall st st',
        whileScrolling zone1 clock1 None script st = Some st' ->
        clockReads st' = clockReads st).
Proof.
  assert (Hbatch : forall batch st,
             forReviews zone1 clock1 None batch st
             = forReviews zone2 clock2 None batch st
             /\ clockReads (forReviews zone1 clock1 None batch st) = clockReads st).
  { induction batch as [|r rest IH]; intros st; [auto|].
    cbn [forReviews]. destruct (isHighRating r); [auto|].
    destruct (IH (addIfAbsent r st)) as [-> ->]. split; [reflexivity|].
    unfold addIfAbsent. destruct (JsMap.has _ _); reflexivity. }
  assert (Hit : forall r st,
             iteration zone1 clock1 None r st = iteration zone2 clock2 None r st
             /\ clockReads (fst (iteration zone1 clock1 None r st)) = clockReads st).
  { intros [e| |allElements] st; cbn [iteration fst]; auto.
    destruct (Hbatch (extract (skipn (processedElementsCount st) allElements))
                (withProcessed (List.length allElements) st)) as [-> Hc].
    split; [reflexivity|].
    unfold countNoNew. destruct (Nat.eqb _ 0); [|exact Hc].
    destruct (Nat.leb _ _); exact Hc. }
  assert (Hrun : forall script' st,
             whileScrolling zone1 clock1 None script' st
             = whileScrolling zone2 clock2 None script' st).
  { induction script' as [|r script' IH]; intros st; cbn [whileScrolling];
      [reflexivity|].
    destruct (isScrolling st); [|reflexivity].
    destruct (Hit r st) as [-> _].
    destruct (iteration zone2 clock2 None r st) as [st1 broke].
    destruct broke; [reflexivity | apply IH]. }
  split.
  - unfold ScraperReviews. now rewrite Hrun.
  - induction script as [|r script IH]; intros st st'; cbn [whileScrolling].
    + destruct (isScrolling st); [discriminate|].
      intros H; now injection H as <-.
    + destruct (isScrolling st); [|intros H; now injection H as <-].
      destruct (Hit r st) as [_ Hc].
      destruct (iteration zone1 clock1 None r st) as [st1 broke].
      simpl in Hc. destruct broke.
      * intros H; injection H as <-. exact Hc.
      * intros H. rewrite (IH _ _ H). exact Hc.
Qed.

Lemma saturation_ignores_the_clock_witness :
  clockReads
    (mkState false [("a"%string, Samples.review "a" "Unknown date" false)] 2 0 0 [])
  = clockReads initialState.
Proof.
  apply (proj2 (saturation_ignores_the_clock Samples.utc Samples.easternTime Samples.clock (fun _ => 0)
                  [EvalReturns [Some (Samples.review "a" "Unknown date" false);
                                Some (Samples.review "b" "1 day ago" true)]])
           initialState).
  vm_compute. reflexivity.
Defined.

End LoopCoverage.

(* ================================================================== *)
(** ** Properties of the earlier loop [ScrapeReviews] *)
(* ================================================================== *)

Module LegacyCoverage.
Import Update Runs Pages MapFacts StoreFacts.

Lemma lowRated_removelast l : lowRated l -> lowRated (removelast l).
Proof.
  unfold lowRated. rewrite !Forall_forall. intros H x Hx.
  apply H. revert Hx. clear H.
  induction l as [|a [|b l] IH]; simpl; [tauto|tauto|].
  intros [H|H]; [now left | right; now apply IH].
Qed.

Lemma Kept_same st st' :
  scrapedReviews st' = scrapedReviews st ->
  (isScrolling st' = true -> isScrolling st = true) ->
  Kept st -> Kept st'.
Proof.
  intros Hr Hf (Hw & Hl & Hb). unfold Kept. rewrite Hr. auto.
Qed.

Lemma storeReviews_Kept batch : forall st,
  isScrolling st = true -> Kept st ->
  Kept (Legacy.storeReviews batch st)
  /\ (JsMap.size (scrapedReviews (Legacy.storeReviews batch st))
      <= JsMap.size (scrapedReviews st) + List.length batch)%nat
  /\ noNewElementsCount (Legacy.storeReviews batch st) = noNewElementsCount st.
Proof.
  induction batch as [|r rest IH]; intros st Hlive HK; cbn [Legacy.storeReviews].
  - split; [exact HK|]. split; [lia|reflexivity].
  - destruct (JsMap.has (id r) (scrapedReviews st)) eqn:Eh.
    + destruct (IH st Hlive HK) as (H1 & H2 & H3).
      split; [exact H1|]. split; [cbn [List.length]; lia|exact H3].
    + destruct HK as (Hw & Hl & Hb). specialize (Hl Hlive).
      assert (Hset : JsMap.set (id r) r (scrapedReviews st)
                     = scrapedReviews st ++ [(id r, r)])
        by (now apply set_absent).
      assert (Hvals : JsMap.values (scrapedReviews st ++ [(id r, r)])
                      = JsMap.values (scrapedReviews st) ++ [r]).
      { unfold JsMap.values. now rewrite map_app. }
      assert (Hsize : JsMap.size (scrapedReviews st ++ [(id r, r)])
                      = S (JsMap.size (scrapedReviews st))).
      { unfold JsMap.size. rewrite length_app. simpl. lia. }
      destruct (isHighRating r) eqn:Er.
      * split; [|split; [|reflexivity]].
        -- unfold Kept. simpl. rewrite Hset, Hvals. split; [|split].
           ++ now apply WellKeyed_add.
           ++ discriminate.
           ++ now rewrite removelast_last.
        -- cbn [scrapedReviews stopScrolling withReviews].
           rewrite Hset, Hsize. cbn [List.length]. lia.
      * destruct (IH (withReviews (JsMap.set (id r) r (scrapedReviews st)) st))
          as (H1 & H2 & H3).
        -- exact Hlive.
        -- unfold Kept. simpl. rewrite Hset, Hvals.
           assert (Hall : lowRated (JsMap.values (scrapedReviews st) ++ [r])).
           { apply Forall_app. split; [exact Hl | repeat constructor; exact Er]. }
           split; [now apply WellKeyed_add|]. split; [auto|].
           now apply lowRated_removelast.
        -- split; [exact H1|]. split; [|exact H3].
           cbn [scrapedReviews withReviews] in H2.
           rewrite Hset in H2 |- *. rewrite Hsize in H2.
           cbn [List.length]. lia.
Qed.

Lemma extract_length l : (List.length (extract l) <= List.length l)%nat.
Proof. induction l as [|[r|] l IH]; simpl; lia. Qed.

(** One round of the loop from a state it can be in. *)
Lemma loopBody_Kept r st bound :
  isScrolling st = true -> Kept st ->
  (JsMap.size (scrapedReviews st) <= 1000)%nat ->
  (largestPage [r] <= bound)%nat ->
  let st' := fst (Legacy.loopBody r st) in
  Kept st'
  /\ (JsMap.size (scrapedReviews st') <= 1000 + bound)%nat
  /\ (isScrolling st' = true ->
      (JsMap.size (scrapedReviews st') <= 1000)%nat).
Proof.
  intros Hlive HK Hsize Hbound. cbv zeta.
  destruct r as [e| |allElements]; cbn [Legacy.loopBody fst].
  - split; [|split; [simpl; lia | discriminate]].
    apply (Kept_same st); [reflexivity | discriminate | exact HK].
  - split; [|split; [simpl; lia | simpl; auto]].
    apply (Kept_same st); [reflexivity | auto | exact HK].
  - set (batch := extract (skipn (processedElementsCount st) allElements)).
    set (st1 := withProcessed (List.length allElements) st).
    destruct (storeReviews_Kept batch st1 Hlive HK) as (HK2 & Hs2 & _).
    set (st2 := Legacy.storeReviews batch st1) in *.
    set (st3 := if Nat.eqb _ 0 then _ else _).
    assert (Hr3 : scrapedReviews st3 = scrapedReviews st2)
      by (unfold st3; destruct (Nat.eqb _ 0); reflexivity).
    assert (Hf3 : isScrolling st3 = isScrolling st2)
      by (unfold st3; destruct (Nat.eqb _ 0); reflexivity).
    assert (HK3 : Kept st3).
    { apply (Kept_same st2); [exact Hr3 | now rewrite Hf3 | exact HK2]. }
    assert (Hlen : (List.length batch <= bound)%nat).
    { unfold batch. etransitivity; [apply extract_length|].
      rewrite length_skipn. simpl in Hbound. lia. }
    assert (Hs3 : (JsMap.size (scrapedReviews st3) <= 1000 + bound)%nat).
    { rewrite Hr3. simpl in Hs2. lia. }
    destruct (_ && _); cbn [fst].
    + split; [|split; [simpl; exact Hs3 | discriminate]].
      apply (Kept_same st3); [reflexivity | discriminate | exact HK3].
    + destruct (Nat.ltb 1000 (JsMap.size (scrapedReviews st3))) eqn:E; cbn [fst].
      * split; [|split; [simpl; exact Hs3 | discriminate]].
        apply (Kept_same st3); [reflexivity | discriminate | exact HK3].
      * apply Nat.ltb_ge in E. auto.
Qed.

Lemma largestPage_cons r script :
  largestPage (r :: script) = Nat.max (largestPage [r]) (largestPage script).
Proof.
  destruct r; simpl; try reflexivity. now rewrite Nat.max_0_r.
Qed.

Lemma whileLoop_Kept script : forall st st' bound,
  Legacy.whileLoop script st = Some st' ->
  Kept st ->
  (JsMap.size (scrapedReviews st) <= 1000 + bound)%nat ->
  (isScrolling st = true -> (JsMap.size (scrapedReviews st) <= 1000)%nat) ->
  (largestPage script <= bound)%nat ->
  Kept st' /\ (JsMap.size (scrapedReviews st') <= 1000 + bound)%nat.
Proof.
  induction script as [|r script IH]; intros st st' bound;
    cbn [Legacy.whileLoop].
  - destruct (isScrolling st); [discriminate|].
    intros H; injection H as <-. auto.
  - destruct (isScrolling st) eqn:Hlive; [|intros H; injection H as <-; auto].
    intros H HK Hs Hs' Hb. rewrite largestPage_cons in Hb.
    destruct (loopBody_Kept r st bound Hlive HK (Hs' eq_refl))
      as (HK1 & Hs1 & Hs1'); [lia|].
    destruct (Legacy.loopBody r st) as [st1 broke]. cbn [fst] in *.
    destruct broke.
    + injection H as <-. auto.
    + apply (IH _ _ bound H HK1 Hs1 Hs1'). lia.
Qed.

Lemma Kept_initial : Kept initialState.
Proof.
  split; [apply WellKeyed_empty|]. split; [intros _|]; constructor.
Qed.

(** X9.  The earlier loop returns no two records of equal identity, and at
    most one high rating: only the last record returned can be one (the
    record that ended the harvest, which this loop stores). *)
Theorem legacy_result_ends_with_the_only_high_rating
  (script : list EvaluateResult) (result : list ReviewType)
  (lines : list ConsoleLine) :
  Legacy.ScrapeReviews script = Some (result, lines) ->
  NoDup (map id result) /\ lowRated (removelast result).
Proof.
  unfold Legacy.ScrapeReviews.
  destruct (Legacy.whileLoop script initialState) as [st|] eqn:E; [|discriminate].
  intros H. injection H as <- _.
  destruct (whileLoop_Kept script initialState st (largestPage script) E
              Kept_initial) as [(Hw & _ & Hb) _];
    [simpl; lia | simpl; lia | lia |].
  split; [|exact Hb]. rewrite values_ids by exact Hw. apply Hw.
Qed.

Lemma legacy_result_ends_with_the_only_high_rating_witness :
  NoDup (map id [Samples.review "a" "a day ago" false;
                 Samples.review "d" "a day ago" true])
  /\ lowRated (removelast [Samples.review "a" "a day ago" false;
                           Samples.review "d" "a day ago" true]).
Proof.
  apply (legacy_result_ends_with_the_only_high_rating
           [EvalReturns [Some (Samples.review "a" "a day ago" false);
                         Some (Samples.review "a" "a day ago" true);
                         Some (Samples.review "d" "a day ago" true);
                         Some (Samples.review "e" "a day ago" false)]]
           _ []).
  reflexivity.
Defined.

(** *** The size check *)

Lemma storeReviews_size batch : forall st,
  (JsMap.size (scrapedReviews (Legacy.storeReviews batch st))
   <= JsMap.size (scrapedReviews st) + List.length batch)%nat
  /\ console (Legacy.storeReviews batch st) = console st.
Proof.
  induction batch as [|r rest IH]; intros st; cbn [Legacy.storeReviews].
  - split; [lia|reflexivity].
  - destruct (JsMap.has (id r) (scrapedReviews st)) eqn:Eh.
    + destruct (IH st) as [H1 H2]. split; [cbn [List.length]; lia|exact H2].
    + assert (Hsize : JsMap.size (JsMap.set (id r) r (scrapedReviews st))
                      = S (JsMap.size (scrapedReviews st))).
      { rewrite set_absent by exact Eh.
        unfold JsMap.size. rewrite length_app. simpl. lia. }
      destruct (isHighRating r).
      * cbn [scrapedReviews stopScrolling withReviews console].
        rewrite Hsize. split; [cbn [List.length]; lia|reflexivity].
      * destruct (IH (withReviews (JsMap.set (id r) r (scrapedReviews st)) st))
          as [H1 H2].
        cbn [scrapedReviews withReviews console] in H1, H2.
        rewrite Hsize in H1. split; [cbn [List.length]; lia|exact H2].
Qed.

Lemma In_snoc (line x : ConsoleLine) lines :
  In line (lines ++ [x]) <-> In line lines \/ line = x.
Proof.
  rewrite in_app_iff. simpl. split; intros [H|H]; auto.
  - destruct H as [H|[]]; auto.
Qed.

(** One round from a state below the limit: it stays below and silent, or
    it goes over the limit, says so and leaves the loop. *)
Lemma loopBody_cap r st :
  (JsMap.size (scrapedReviews st) <= 1000)%nat ->
  ~ In capLine (console st) ->
  let st' := fst (Legacy.loopBody r st) in
  ((JsMap.size (scrapedReviews st') <= 1000)%nat /\ ~ In capLine (console st'))
  \/ ((1000 < JsMap.size (scrapedReviews st'))%nat
      /\ In capLine (console st')
      /\ snd (Legacy.loopBody r st) = true
      /\ exists allElements,
          r = EvalReturns allElements
          /\ (JsMap.size (scrapedReviews st')
              <= 1000 + List.length allElements)%nat).
Proof.
  intros Hsize Hquiet. cbv zeta.
  destruct r as [e| |allElements]; cbn [Legacy.loopBody fst snd].
  - left. split; [exact Hsize|].
    cbn [console stopScrolling write]. rewrite In_snoc.
    intros [H|H]; [auto|discriminate].
  - left. split; [exact Hsize|].
    cbn [console write]. rewrite In_snoc.
    intros [H|H]; [auto | unfold capLine in H; discriminate].
  - set (newElements := skipn (processedElementsCount st) allElements).
    set (st1 := withProcessed (List.length allElements) st).
    destruct (storeReviews_size (extract newElements) st1) as [Hs2 Hc2].
    set (st2 := Legacy.storeReviews (extract newElements) st1) in *.
    set (st3 := if Nat.eqb _ 0 then _ else _).
    assert (Hr3 : scrapedReviews st3 = scrapedReviews st2)
      by (unfold st3; destruct (Nat.eqb _ 0); reflexivity).
    assert (Hc3 : console st3 = console st)
      by (unfold st3; destruct (Nat.eqb _ 0); exact Hc2).
    assert (Hlen : (List.length (extract newElements)
                    <= List.length allElements)%nat).
    { etransitivity; [apply extract_length|].
      unfold newElements. rewrite length_skipn. lia. }
    destruct (Nat.eqb (List.length newElements) 0) eqn:En; cbn [andb].
    + apply Nat.eqb_eq, length_zero_iff_nil in En.
      assert (Hsame : scrapedReviews st3 = scrapedReviews st)
        by (rewrite Hr3; unfold st2; rewrite En; reflexivity).
      destruct (Nat.leb _ _); cbn [fst snd].
      * left. cbn [scrapedReviews console stopScrolling write].
        rewrite Hsame, Hc3, In_snoc. split; [exact Hsize|].
        intros [H|H]; [auto | unfold capLine in H; discriminate].
      * destruct (Nat.ltb 1000 (JsMap.size (scrapedReviews st3))) eqn:E;
          cbn [fst snd].
        -- apply Nat.ltb_lt in E. rewrite Hsame in E. lia.
        -- left. rewrite Hsame, Hc3. auto.
    + destruct (Nat.ltb 1000 (JsMap.size (scrapedReviews st3))) eqn:E;
        cbn [fst snd].
      * apply Nat.ltb_lt in E. right.
        cbn [scrapedReviews console stopScrolling write].
        split; [exact E|]. rewrite In_snoc. split; [now right|].
        split; [reflexivity|]. exists allElements. split; [reflexivity|].
        change (scrapedReviews st1) with (scrapedReviews st) in Hs2.
        rewrite Hr3. lia.
      * apply Nat.ltb_ge in E. left. rewrite Hc3. auto.
Qed.

Lemma whileLoop_stopped script st :
  isScrolling st = false -> Legacy.whileLoop script st = Some st.
Proof. intros H. destruct script; cbn [Legacy.whileLoop]; now rewrite H. Qed.

Lemma whileLoop_cap script : forall st st',
  Legacy.whileLoop script st = Some st' ->
  (JsMap.size (scrapedReviews st) <= 1000)%nat ->
  ~ In capLine (console st) ->
  ((JsMap.size (scrapedReviews st') <= 1000)%nat /\ ~ In capLine (console st'))
  \/ ((1000 < JsMap.size (scrapedReviews st'))%nat
      /\ In capLine (console st')
      /\ exists pre allElements rest,
          script = pre ++ EvalReturns allElements :: rest
          /\ (forall rest',
                Legacy.whileLoop (pre ++ EvalReturns allElements :: rest') st
                = Some st')
          /\ (JsMap.size (scrapedReviews st')
              <= 1000 + List.length allElements)%nat).
Proof.
  induction script as [|r script IH]; intros st st';
    cbn [Legacy.whileLoop].
  - destruct (isScrolling st); [discriminate|].
    intros H; injection H as <-. auto.
  - destruct (isScrolling st) eqn:Hlive; [|intros H; injection H as <-; auto].
    intros H Hsize Hquiet.
    pose proof (loopBody_cap r st Hsize Hquiet) as Hbody. cbv zeta in Hbody.
    destruct (Legacy.loopBody r st) as [st1 broke] eqn:Eb. cbn [fst snd] in *.
    destruct broke.
    + injection H as <-.
      destruct Hbody as [Hlow | (Hover & Hsaid & _ & all & -> & Hbound)];
        [now left|].
      right. split; [exact Hover|]. split; [exact Hsaid|].
      exists [], all, script. split; [reflexivity|]. split; [|exact Hbound].
      intros rest'. cbn [app Legacy.whileLoop]. now rewrite Hlive, Eb.
    + destruct Hbody as [[Hlow Hq] | (_ & _ & Hb & _)]; [|discriminate].
      destruct (IH _ _ H Hlow Hq)
        as [Hl | (Hover & Hsaid & pre & all & rest & -> & Hrun & Hbound)];
        [now left|].
      right. split; [exact Hover|]. split; [exact Hsaid|].
      exists (r :: pre), all, rest. split; [reflexivity|].
      split; [|exact Hbound].
      intros rest'. cbn [app Legacy.whileLoop]. rewrite Hlive, Eb.
      apply Hrun.
Qed.

(** X10.  The size check of the earlier loop.  The loop never starts an
    iteration with more than 1000 entries: when it returns more than 1000
    records, the iteration that took the map over 1000 was the last one,
    whatever the page would have answered afterwards; the result is then
    at most 1000 records plus the elements of that page, and the console
    holds the line "Stopping: Maximum review limit reached".  That line is
    written in no other case. *)
Theorem legacy_result_is_bounded
  (script : list EvaluateResult) (result : list ReviewType)
  (lines : list ConsoleLine) :
  Legacy.ScrapeReviews script = Some (result, lines) ->
  ((1000 < List.length result)%nat <-> In capLine lines)
  /\ ((1000 < List.length result)%nat ->
      exists pre allElements rest,
        script = pre ++ EvalReturns allElements :: rest
        /\ (forall rest',
              Legacy.ScrapeReviews (pre ++ EvalReturns allElements :: rest')
              = Some (result, lines))
        /\ (List.length result <= 1000 + List.length allElements)%nat).
Proof.
  unfold Legacy.ScrapeReviews.
  destruct (Legacy.whileLoop script initialState) as [st|] eqn:E; [|discriminate].
  intros H. injection H as <- <-.
  assert (Hlen : List.length (JsMap.values (scrapedReviews st))
                 = JsMap.size (scrapedReviews st))
    by (unfold JsMap.values, JsMap.size; apply length_map).
  rewrite Hlen.
  destruct (whileLoop_cap script initialState st E)
    as [[Hlow Hq] | (Hover & Hsaid & pre & all & rest & Hs & Hrun & Hbound)];
    [simpl; lia | intros [] |..].
  - split; [split; [lia|tauto]|lia].
  - split; [tauto|]. intros _. exists pre, all, rest.
    split; [exact Hs|]. split; [|exact Hbound].
    intros rest'. now rewrite Hrun.
Qed.

Lemma legacy_result_is_bounded_witness :
  ((1000 < List.length (extract (Samples.lowElements 1001)))%nat
   <-> In capLine [capLine])
  /\ ((1000 < List.length (extract (Samples.lowElements 1001)))%nat ->
      exists pre allElements rest,
        [EvalReturns (Samples.lowElements 1001);
         EvalReturns (Samples.lowElements 1002)]
        = pre ++ EvalReturns allElements :: rest
        /\ (forall rest',
              Legacy.ScrapeReviews (pre ++ EvalReturns allElements :: rest')
              = Some (extract (Samples.lowElements 1001), [capLine]))
        /\ (List.length (extract (Samples.lowElements 1001))
            <= 1000 + List.length allElements)%nat).
Proof.
  apply (legacy_result_is_bounded
           [EvalReturns (Samples.lowElements 1001);
            EvalReturns (Samples.lowElements 1002)]
           (extract (Samples.lowElements 1001)) [capLine]).
  vm_compute. reflexivity.
Defined.

End LegacyCoverage.

(* ================================================================== *)
(** ** Further properties of the dates *)
(* ================================================================== *)

Module DatesCoverage.
Import JsString JsNumber JsDate Dates Grammar DateFacts GrammarFacts ParseProperties Pages.

Lemma isDateBefore_finite t1 t2 :
  isDateBefore (Some (mkDate (Finite t1))) (Some (mkDate (Finite t2)))
  = Some (t1 >=? t2).
Proof. reflexivity. Qed.

(** X11.  On what it is called with, [isDateBefore] is a total preorder by
    time value, with "at or after" as its meaning: a valid date compares
    [true] with itself; of two valid dates at least one direction is
    [true], and both are only at equal times; [true] is transitive; and
    the answer is [null] exactly when one side is [null] or an invalid
    date, in whichever order they are given. *)
Theorem isDateBefore_is_a_total_preorder (d1 d2 d3 : option Date) :
  (isDateBefore d1 d2 = None <-> timeOf d1 = None \/ timeOf d2 = None)
  /\ (timeOf d1 <> None -> isDateBefore d1 d1 = Some true)
  /\ (isDateBefore d1 d2 = Some false -> isDateBefore d2 d1 = Some true)
  /\ (isDateBefore d1 d2 = Some true -> isDateBefore d2 d1 = Some true ->
      timeOf d1 = timeOf d2)
  /\ (isDateBefore d1 d2 = Some true -> isDateBefore d2 d3 = Some true ->
      isDateBefore d1 d3 = Some true).
Proof.
  destruct d1 as [[[|t1]]|], d2 as [[[|t2]]|], d3 as [[[|t3]]|]; simpl;
    repeat split; intros; try discriminate; try tauto; try congruence;
    repeat match goal with
      | H : _ \/ _ |- _ => destruct H
      | H : Some _ = Some _ |- _ => injection H as H
      end; try discriminate;
    try (f_equal; lia).
Qed.

Lemma isDateBefore_is_a_total_preorder_witness :
  isDateBefore (Some (mkDate (Finite 5))) (Some (mkDate (Finite 7))) = Some false
  /\ isDateBefore (Some (mkDate (Finite 7))) (Some (mkDate (Finite 5))) = Some true
  /\ isDateBefore (Some (mkDate (Finite 7))) (Some (mkDate (Finite 7))) = Some true.
Proof.
  split; [reflexivity|]. split.
  - apply (proj1 (proj2 (proj2 (isDateBefore_is_a_total_preorder
             (Some (mkDate (Finite 5))) (Some (mkDate (Finite 7))) None)))).
    reflexivity.
  - apply (proj1 (proj2 (isDateBefore_is_a_total_preorder
             (Some (mkDate (Finite 7))) None None))).
    discriminate.
Defined.

(** *** Hosts whose offset from UTC never changes *)

Lemma monthsBack_more n : forall k j, monthsBack k n <= monthsBack k (n + j).
Proof.
  induction n as [|n IH]; intros k j.
  - pose proof (monthsBack_bounds j k). simpl. lia.
  - cbn [monthsBack Nat.add]. specialize (IH (k - 1) j). lia.
Qed.

Lemma monthsBack_monotone k n1 n2 :
  0 <= n1 <= n2 -> monthsBack k (Z.to_nat n1) <= monthsBack k (Z.to_nat n2).
Proof.
  intros H.
  replace (Z.to_nat n2) with (Z.to_nat n1 + Z.to_nat (n2 - n1))%nat by lia.
  apply monthsBack_more.
Qed.

(** More units back is never later on the wall clock. *)
Lemma wallClockBefore_antitone k wall u n1 n2 :
  0 <= n1 <= n2 ->
  wallClockBefore k wall n2 u <= wallClockBefore k wall n1 u.
Proof.
  intros Hn. unfold wallClockBefore.
  repeat match goal with
         | |- context [if ?b then _ else _] => destruct b
         end;
    unfold msPerSecond, msPerMinute, msPerHour, msPerDay; try lia.
  - pose proof (monthsBack_monotone k n1 n2 Hn). lia.
  - pose proof (monthsBack_monotone k (12 * n1) (12 * n2)). lia.
Qed.

Lemma wallClockBefore_zero k wall u : wallClockBefore k wall 0 u = wall.
Proof.
  unfold wallClockBefore.
  repeat match goal with
         | |- context [if ?b then _ else _] => destruct b
         end; simpl; lia.
Qed.

(** With a constant offset the instant is the wall-clock reading moved
    back by the offset. *)
Lemma shifted_constant LocalTZA offset now k n u :
  constantZone LocalTZA offset ->
  shifted LocalTZA now k n u = wallClockBefore k (now + offset) n u - offset.
Proof.
  intros Hc. unfold shifted, instantOf, wallClock. now rewrite !Hc.
Qed.

Lemma sameOffset_constant LocalTZA offset now d :
  constantZone LocalTZA offset -> sameOffset LocalTZA now d.
Proof. intros Hc. unfold sameOffset. now rewrite !Hc. Qed.

Lemma dateAt_valid x :
  timeOf (Some (dateAt x)) <> None -> dateAt x = mkDate (Finite x).
Proof.
  unfold dateAt. destruct (Z.abs x <=? maxTime); [reflexivity|simpl; congruence].
Qed.

(** X12.  On a host whose offset from UTC never changes, a record is
    compared with the cutoff by age: when its posted-time and the cutoff
    are recognized texts in seconds to weeks and both dates are valid, the
    comparison is [true] exactly when the record's instant, taken at the
    first clock reading, is at or after the cutoff's instant, taken at the
    second.  So a record exactly as old as the cutoff (the same text, say)
    is past the cutoff as soon as the clock has advanced between the two
    readings. *)
Theorem cutoff_comparison_by_age
  (LocalTZA : JsDate.Zone) (offset : Z) (clock : nat -> Z) (cutoff : string)
  (review : ReviewType) (st : Update.LoopState)
  (amountR unitR amountC unitC : list ascii) (msR msC : Z) :
  let first := clock (Update.clockReads st) in
  let second := clock (S (Update.clockReads st)) in
  constantZone LocalTZA offset ->
  Z.abs offset <= msPerDay ->
  Z.abs first <= horizon ->
  Z.abs second <= horizon ->
  Recognized (normalized (reviewPostedAt review)) amountR unitR ->
  unitMs unitR = Some msR ->
  Recognized (normalized cutoff) amountC unitC ->
  unitMs unitC = Some msC ->
  Z.abs (first - magnitude amountR * msR) <= maxTime ->
  Z.abs (second - magnitude amountC * msC) <= maxTime ->
  Update.isStopedAt LocalTZA clock cutoff review st
  = Some (first - magnitude amountR * msR >=? second - magnitude amountC * msC)
  /\ (magnitude amountR * msR = magnitude amountC * msC ->
      first < second ->
      Update.isStopedAt LocalTZA clock cutoff review st = Some false).
Proof.
  intros first second Hc Ho H1 H2 HR HmsR HC HmsC HvR HvC.
  pose proof (constant_bounded _ _ Hc Ho) as Hzone.
  assert (E : Update.isStopedAt LocalTZA clock cutoff review st
              = Some (first - magnitude amountR * msR
                      >=? second - magnitude amountC * msC)).
  { unfold Update.isStopedAt. fold first second.
    rewrite (parseRelativeDate_recognized _ _ _ _ _ _ H1 Hzone HR
               (inMonth_fields _)).
    rewrite (parseRelativeDate_recognized _ _ _ _ _ _ H2 Hzone HC
               (inMonth_fields _)).
    rewrite (shifted_fixed _ _ _ _ _ _ HmsR (sameOffset_constant _ _ _ _ Hc)).
    rewrite (shifted_fixed _ _ _ _ _ _ HmsC (sameOffset_constant _ _ _ _ Hc)).
    rewrite (dateAt_in_range _ HvR), (dateAt_in_range _ HvC).
    reflexivity. }
  split; [exact E|].
  intros Hage Hlt. rewrite E. f_equal.
  rewrite Z.geb_leb. apply Z.leb_gt. lia.
Qed.

Lemma cutoff_comparison_by_age_witness :
  Update.isStopedAt Samples.utc Samples.clock "2 days ago"
    (Samples.review "a" "2 Days ago" false) Update.initialState
  = Some false.
Proof.
  refine (proj2 (cutoff_comparison_by_age Samples.utc 0 Samples.clock
                   "2 days ago"
                   (Samples.review "a" "2 Days ago" false) Update.initialState
                   (chars "2") (chars "day") (chars "2") (chars "day")
                   msPerDay msPerDay _ _ _ _ _ _ _ _ _ _) _ _).
  - intros t isUTC. reflexivity.
  - vm_compute. discriminate.
  - vm_compute. discriminate.
  - vm_compute. discriminate.
  - apply matchRelative_sound. reflexivity.
  - reflexivity.
  - apply matchRelative_sound. reflexivity.
  - reflexivity.
  - vm_compute. discriminate.
  - vm_compute. discriminate.
  - reflexivity.
  - reflexivity.
Defined.

(** X13.  The date depends on the text only through the amount and the
    unit: two recognized texts with the same unit and equal amounts ("a
    day ago", "1 days ago", "01 DAY  ago") give the same date at the same
    clock reading, on every host.  On a host whose offset from UTC never
    changes, with the same unit the text with the smaller amount is never
    the older one, for all seven units. *)
Theorem date_is_a_function_of_amount_and_unit
  (LocalTZA : JsDate.Zone) (offset now : Z) (s1 s2 : string)
  (a1 a2 u : list ascii) :
  Recognized (normalized s1) a1 u ->
  Recognized (normalized s2) a2 u ->
  (magnitude a1 = magnitude a2 ->
   parseRelativeDate LocalTZA now s1 = parseRelativeDate LocalTZA now s2)
  /\ (constantZone LocalTZA offset ->
      Z.abs offset <= msPerDay ->
      Z.abs now <= horizon ->
      magnitude a1 <= magnitude a2 ->
      timeOf (parseRelativeDate LocalTZA now s1) <> None ->
      timeOf (parseRelativeDate LocalTZA now s2) <> None ->
      isDateBefore (parseRelativeDate LocalTZA now s1)
                   (parseRelativeDate LocalTZA now s2) = Some true).
Proof.
  intros H1 H2. split.
  - intros Heq. unfold parseRelativeDate. fold (normalized s1) (normalized s2).
    rewrite (matchRelative_complete _ _ _ H1), (matchRelative_complete _ _ _ H2).
    cbv zeta. rewrite !amount_magnitude, Heq. reflexivity.
  - intros Hc Ho Hnow Hle.
    pose proof (constant_bounded _ _ Hc Ho) as Hzone.
    rewrite (parseRelativeDate_recognized _ _ _ _ _ _ Hnow Hzone H1
               (inMonth_fields _)).
    rewrite (parseRelativeDate_recognized _ _ _ _ _ _ Hnow Hzone H2
               (inMonth_fields _)).
    intros Hv1 Hv2.
    rewrite (dateAt_valid _ Hv1), (dateAt_valid _ Hv2).
    rewrite isDateBefore_finite. f_equal.
    rewrite Z.geb_leb. apply Z.leb_le.
    rewrite !(shifted_constant _ offset) by exact Hc.
    destruct (Recognized_parts _ _ _ H1) as [Ha _].
    apply magnitude_nonneg in Ha.
    pose proof (wallClockBefore_antitone
                  (12 * YearFromTime (wallClock LocalTZA now)
                   + MonthFromTime (wallClock LocalTZA now))
                  (now + offset) u (magnitude a1) (magnitude a2)).
    lia.
Qed.

Lemma date_is_a_function_of_amount_and_unit_witness :
  parseRelativeDate Samples.easternTime 1750420800000 "a month ago"
  = parseRelativeDate Samples.easternTime 1750420800000 " 01 MONTHS  ago"
  /\ isDateBefore (parseRelativeDate Samples.utc 1750420800000 "a month ago")
                  (parseRelativeDate Samples.utc 1750420800000 "2 months ago")
     = Some true.
Proof.
  split.
  - apply (proj1 (date_is_a_function_of_amount_and_unit
                    Samples.easternTime 0 1750420800000
                    "a month ago" " 01 MONTHS  ago"
                    (chars "a") (chars "01") (chars "month")
                    ltac:(apply matchRelative_sound; reflexivity)
                    ltac:(apply matchRelative_sound; reflexivity))).
    reflexivity.
  - apply (proj2 (date_is_a_function_of_amount_and_unit
                    Samples.utc 0 1750420800000
                    "a month ago" "2 months ago"
                    (chars "a") (chars "2") (chars "month")
                    ltac:(apply matchRelative_sound; reflexivity)
                    ltac:(apply matchRelative_sound; reflexivity))).
    + intros t isUTC. reflexivity.
    + vm_compute. discriminate.
    + vm_compute. discriminate.
    + vm_compute. discriminate.
    + vm_compute. discriminate.
    + vm_compute. discriminate.
Defined.

(** X14.  On a host whose offset from UTC never changes,
    [parseRelativeDate] never returns a date after the clock reading it
    was computed from: a valid result is at or before [now], whatever the
    unit and the amount ("0 days ago" is [now] itself). *)
Theorem parsed_date_is_never_after_now
  (LocalTZA : JsDate.Zone) (offset now : Z) (s : string) (t : Z) :
  constantZone LocalTZA offset ->
  Z.abs offset <= msPerDay ->
  Z.abs now <= horizon ->
  timeOf (parseRelativeDate LocalTZA now s) = Some t -> t <= now.
Proof.
  intros Hc Ho Hnow H.
  pose proof (constant_bounded _ _ Hc Ho) as Hzone.
  destruct (matchRelative (normalized s)) as [[a u]|] eqn:E.
  - apply matchRelative_sound in E.
    pose proof (inMonth_fields (wallClock LocalTZA now)) as Hk.
    remember (12 * YearFromTime (wallClock LocalTZA now)
              + MonthFromTime (wallClock LocalTZA now)) as k eqn:Ek.
    clear Ek.
    rewrite (parseRelativeDate_recognized _ _ _ _ _ k Hnow Hzone E Hk) in H.
    destruct (Recognized_parts _ _ _ E) as [Ha Hu].
    apply magnitude_nonneg in Ha.
    rewrite (shifted_constant _ offset) in H by exact Hc.
    pose proof (wallClockBefore_antitone k (now + offset) u 0 (magnitude a))
      as Hle.
    rewrite wallClockBefore_zero in Hle.
    unfold dateAt in H.
    destruct (Z.abs _ <=? maxTime); [|discriminate].
    injection H as <-. lia.
  - assert (Hnull : parseRelativeDate LocalTZA now s = None).
    { apply parseRelativeDate_null. intros a u Hr.
      apply matchRelative_complete in Hr. congruence. }
    rewrite Hnull in H. discriminate.
Qed.

Lemma parsed_date_is_never_after_now_witness :
  1718884800000 <= 1750420800000.
Proof.
  apply (parsed_date_is_never_after_now Samples.utc 0 1750420800000
           "a year ago").
  - intros t isUTC. reflexivity.
  - vm_compute. discriminate.
  - vm_compute. discriminate.
  - vm_compute. reflexivity.
Defined.

End DatesCoverage.

(* ================================================================== *)
(** ** Properties of the extraction *)
(* ================================================================== *)

Module ExtractionCoverage.
Import JsString JsText Extraction Update Pages.

Lemma string_length_of_list l :
  String.length (string_of_list_ascii l) = List.length l.
Proof. induction l as [|c l IH]; simpl; auto. Qed.

Lemma string_length_append a b :
  String.length (a ++ b) = (String.length a + String.length b)%nat.
Proof. induction a as [|c a IH]; simpl; auto. Qed.

Lemma firstSegment_free sep l : ~ In sep (firstSegment sep l).
Proof.
  induction l as [|c l IH]; simpl; [tauto|].
  destruct (Ascii.eqb c sep) eqn:E; simpl; [tauto|].
  apply Ascii.eqb_neq in E. intros [H|H]; [congruence|tauto].
Qed.

Lemma substring0_length n s : (String.length (substring0 n s) <= n)%nat.
Proof.
  unfold substring0. rewrite string_length_of_list. apply firstn_le_length.
Qed.

Lemma reviewTextOf_nonempty e : reviewTextOf e <> ""%string.
Proof.
  unfold reviewTextOf. destruct (reviewTextElement e) as [text|]; [|discriminate].
  destruct (String.eqb text "") eqn:E; [discriminate|].
  now apply String.eqb_neq in E.
Qed.

(** What a pushed record is made of. *)
Lemma extractReview_Some e r :
  extractReview e = Some r ->
  exists second shareUrl starLabel,
    nth_error (buttons e) 1 = Some second
    /\ splitFirst newline second <> ""%string
    /\ (3 <= List.length (buttonsAtShare e))%nat
    /\ shareOption e = true
    /\ shareInput e = Some shareUrl
    /\ documentButton e = true
    /\ (exists labels, starLabels (spans e) = starLabel :: labels)
    /\ r = mkReview
             (splitFirst newline second ++ "_" ++ substring0 50 (reviewTextOf e))
             (splitFirst newline second)
             (splitFirst space starLabel)
             (existsb (fun text => includes text "Response from the owner") (divs e))
             (reviewTextOf e)
             match dateElement (spans e) with
             | s :: _ => spanText s
             | [] => "Unknown date"%string
             end
             (includes starLabel "4" || includes starLabel "5")
             starLabel shareUrl.
Proof.
  unfold extractReview.
  destruct (buttons e) as [|first [|second rest]]; try discriminate.
  destruct (String.eqb (splitFirst newline second) "") eqn:En; [discriminate|].
  destruct (nth_error (buttonsAtShare e) 2) eqn:Eb; [|discriminate].
  destruct (shareOption e); [|discriminate]. simpl negb. cbv iota.
  destruct (shareInput e) as [shareUrl|]; [|discriminate].
  destruct (documentButton e); [|discriminate]. simpl negb. cbv iota.
  destruct (starLabels (spans e)) as [|starLabel labels] eqn:Es; [discriminate|].
  intros H. injection H as <-.
  exists second, shareUrl, starLabel.
  split; [reflexivity|]. split; [now apply String.eqb_neq|].
  split; [apply nth_error_Some; congruence|].
  repeat split; try reflexivity. now exists labels.
Qed.

(** X15.  An element yields a record exactly when: it has a second button
    and the first line of that button's text is not empty; it has a third
    button when the share button is clicked; the share dialog offers its
    option, its input and a button; and one of its spans has a label that
    mentions "star".  So an element with just two buttons is passed over,
    although the guard [nameButtons.length < 2] lets it through: indexing
    the missing third button throws, and the [catch] swallows the error. *)
Theorem extraction_succeeds_exactly_when (e : ReviewElement) :
  (exists r, extractReview e = Some r)
  <-> ((exists second,
          nth_error (buttons e) 1 = Some second
          /\ splitFirst newline second <> ""%string)
       /\ (3 <= List.length (buttonsAtShare e))%nat
       /\ shareOption e = true
       /\ shareInput e <> None
       /\ documentButton e = true
       /\ starLabels (spans e) <> []).
Proof.
  split.
  - intros [r H]. apply extractReview_Some in H.
    destruct H as (second & shareUrl & starLabel & H1 & H2 & H3 & H4 & H5 & H6
                   & [labels H7] & _).
    split; [now exists second|]. repeat split; try assumption; congruence.
  - intros ([second [H1 H2]] & H3 & H4 & H5 & H6 & H7).
    unfold extractReview.
    destruct (buttons e) as [|first [|second' rest]]; try discriminate.
    simpl in H1. injection H1 as ->.
    apply String.eqb_neq in H2. rewrite H2.
    destruct (nth_error (buttonsAtShare e) 2) eqn:Eb.
    + rewrite H4, H6. simpl negb. cbv iota.
      destruct (shareInput e); [|congruence].
      destruct (starLabels (spans e)); [congruence|]. eexists. reflexivity.
    + apply nth_error_None in Eb. lia.
Qed.

Lemma extraction_succeeds_exactly_when_witness :
  (exists second,
     nth_error (buttons (SampleElements.rendered "Ana" None None)) 1 = Some second
     /\ splitFirst newline second <> ""%string)
  /\ (3 <= List.length (buttonsAtShare (SampleElements.rendered "Ana" None None)))%nat
  /\ shareOption (SampleElements.rendered "Ana" None None) = true
  /\ shareInput (SampleElements.rendered "Ana" None None) <> None
  /\ documentButton (SampleElements.rendered "Ana" None None) = true
  /\ starLabels (spans (SampleElements.rendered "Ana" None None)) <> [].
Proof.
  apply (proj1 (extraction_succeeds_exactly_when
                  (SampleElements.rendered "Ana" None None))).
  eexists. reflexivity.
Defined.

(** X16.  The identity of a record is the author's name, "_" and the first
    50 code units of the review text, and nothing else: the name is the
    non-empty first line of the second button, the text is never empty, the
    identity is at most 51 code units longer than the name; and two
    elements with the same name and the same first 50 code units of text
    get the same identity, whatever their position, date, rating, share
    link or the rest of their text, so that a batch stores only the first
    of them. *)
Theorem identity_is_name_and_opening
  (e1 e2 : ReviewElement) (r1 r2 : ReviewType) :
  extractReview e1 = Some r1 ->
  extractReview e2 = Some r2 ->
  id r1 = (reviewName r1 ++ "_" ++ substring0 50 (reviewText r1))%string
  /\ reviewName r1 <> ""%string
  /\ ~ In newline (chars (reviewName r1))
  /\ reviewText r1 <> ""%string
  /\ (String.length (id r1) <= String.length (reviewName r1) + 51)%nat
  /\ (reviewName r1 = reviewName r2 ->
      substring0 50 (reviewText r1) = substring0 50 (reviewText r2) ->
      id r1 = id r2
      /\ forall LocalTZA clock st,
          scrapedReviews (forReviews LocalTZA clock None [r1; r2] st)
          = scrapedReviews (forReviews LocalTZA clock None [r1] st)).
Proof.
  intros H1 H2.
  apply extractReview_Some in H1.
  destruct H1 as (second1 & url1 & label1 & _ & Hn1 & _ & _ & _ & _ & _ & ->).
  apply extractReview_Some in H2.
  destruct H2 as (second2 & url2 & label2 & _ & Hn2 & _ & _ & _ & _ & _ & ->).
  cbn [id reviewName reviewText].
  split; [reflexivity|]. split; [exact Hn1|].
  split.
  { unfold splitFirst, chars. rewrite list_ascii_of_string_of_list_ascii.
    apply firstSegment_free. }
  split; [apply reviewTextOf_nonempty|].
  split.
  { rewrite !string_length_append.
    pose proof (substring0_length 50 (reviewTextOf e1)). simpl. lia. }
  intros Hname Htext.
  assert (Hid : (splitFirst newline second1 ++ "_" ++ substring0 50 (reviewTextOf e1)
                 = splitFirst newline second2 ++ "_" ++ substring0 50 (reviewTextOf e2))%string)
    by (now rewrite Hname, Htext).
  split; [exact Hid|].
  intros LocalTZA clock st. cbn [forReviews isHighRating].
  destruct (includes label1 "4" || includes label1 "5"); [reflexivity|].
  set (r1 := mkReview _ _ _ _ _ _ false label1 url1).
  set (r2 := mkReview _ _ _ _ _ _ _ label2 url2).
  destruct (includes label2 "4" || includes label2 "5"); [reflexivity|].
  assert (Hhas : JsMap.has (id r2) (scrapedReviews (addIfAbsent r1 st)) = true).
  { replace (id r2) with (id r1) by exact Hid.
    rewrite MapFacts.addIfAbsent_reviews.
    destruct (JsMap.has (id r1) (scrapedReviews st)) eqn:E; [exact E|].
    rewrite MapFacts.has_app. simpl. rewrite String.eqb_refl.
    now rewrite orb_true_r. }
  unfold addIfAbsent at 1. now rewrite Hhas.
Qed.

Lemma identity_is_name_and_opening_witness :
  id (mkReview "Ana_The room was small and the staff was not helpful a" "Ana" "1"
        false SampleElements.longText "2 weeks ago" false "1 star"
        "https://maps.app.goo.gl/x")
  = id (mkReview "Ana_The room was small and the staff was not helpful a" "Ana" "1"
          false SampleElements.sameOpening "Unknown date" false "1 star"
          "https://maps.app.goo.gl/x").
Proof.
  refine (proj1 (proj2 (proj2 (proj2 (proj2 (proj2
    (identity_is_name_and_opening
       (SampleElements.rendered "Ana" (Some SampleElements.longText)
                                (Some "2 weeks ago"%string))
       (SampleElements.rendered "Ana" (Some SampleElements.sameOpening) None)
       _ _ eq_refl eq_refl))))) _ _)); reflexivity.
Defined.

(** X17.  A review without text gets the text "No review text found", and
    that text enters the identity like any other: all reviews without text
    by one author share the identity made of the name and
    "_No review text found". *)
Theorem textless_reviews_share_an_identity
  (e1 e2 : ReviewElement) (r1 r2 : ReviewType) :
  extractReview e1 = Some r1 ->
  extractReview e2 = Some r2 ->
  reviewTextElement e1 = None \/ reviewTextElement e1 = Some ""%string ->
  reviewTextElement e2 = None \/ reviewTextElement e2 = Some ""%string ->
  reviewText r1 = "No review text found"%string
  /\ id r1 = (reviewName r1 ++ "_No review text found")%string
  /\ (reviewName r1 = reviewName r2 -> id r1 = id r2).
Proof.
  intros H1 H2 T1 T2.
  assert (Ht : forall e, reviewTextElement e = None
                         \/ reviewTextElement e = Some ""%string ->
                         reviewTextOf e = "No review text found"%string).
  { intros e [H|H]; unfold reviewTextOf; now rewrite H. }
  apply extractReview_Some in H1.
  destruct H1 as (second1 & url1 & label1 & _ & _ & _ & _ & _ & _ & _ & ->).
  apply extractReview_Some in H2.
  destruct H2 as (second2 & url2 & label2 & _ & _ & _ & _ & _ & _ & _ & ->).
  cbn [id reviewName reviewText]. rewrite (Ht e1 T1), (Ht e2 T2).
  split; [reflexivity|]. split; [reflexivity|]. now intros ->.
Qed.

Lemma textless_reviews_share_an_identity_witness :
  reviewText (mkReview "Ana_No review text found" "Ana" "1" false
                "No review text found" "Unknown date" false "1 star"
                "https://maps.app.goo.gl/x")
  = "No review text found"%string
  /\ id (mkReview "Ana_No review text found" "Ana" "1" false
           "No review text found" "Unknown date" false "1 star"
           "https://maps.app.goo.gl/x")
     = (reviewName (mkReview "Ana_No review text found" "Ana" "1" false
                      "No review text found" "Unknown date" false "1 star"
                      "https://maps.app.goo.gl/x")
        ++ "_No review text found")%string
  /\ (reviewName (mkReview "Ana_No review text found" "Ana" "1" false
                    "No review text found" "Unknown date" false "1 star"
                    "https://maps.app.goo.gl/x")
      = reviewName (mkReview "Ana_No review text found" "Ana" "1" false
                      "No review text found" "a week ago" false "1 star"
                      "https://maps.app.goo.gl/x") ->
      id (mkReview "Ana_No review text found" "Ana" "1" false
            "No review text found" "Unknown date" false "1 star"
            "https://maps.app.goo.gl/x")
      = id (mkReview "Ana_No review text found" "Ana" "1" false
              "No review text found" "a week ago" false "1 star"
              "https://maps.app.goo.gl/x")).
Proof.
  apply (textless_reviews_share_an_identity
           (SampleElements.rendered "Ana" None None)
           (SampleElements.rendered "Ana" (Some ""%string) (Some "a week ago"%string))).
  - reflexivity.
  - reflexivity.
  - left. reflexivity.
  - right. reflexivity.
Defined.

(** X18.  An element none of whose spans mentions "ago" gets the
    posted-time "Unknown date"; that text does not parse, so with any
    cutoff the comparison of its record is [null], at every clock
    reading. *)
Theorem undated_element_cannot_be_compared
  (e : ReviewElement) (r : ReviewType) :
  extractReview e = Some r ->
  dateElement (spans e) = [] ->
  reviewPostedAt r = "Unknown date"%string
  /\ forall LocalTZA clock cutoff st,
      isStopedAt LocalTZA clock cutoff r st = None.
Proof.
  intros H Hd. apply extractReview_Some in H.
  destruct H as (second & url & label & _ & _ & _ & _ & _ & _ & _ & ->).
  cbn [reviewPostedAt]. rewrite Hd. split; [reflexivity|].
  intros LocalTZA clock cutoff st. unfold isStopedAt. cbn [reviewPostedAt].
  reflexivity.
Qed.

Lemma undated_element_cannot_be_compared_witness :
  reviewPostedAt
    (mkReview "Ana_No review text found" "Ana" "1" false
       "No review text found" "Unknown date" false "1 star"
       "https://maps.app.goo.gl/x")
  = "Unknown date"%string
  /\ forall LocalTZA clock cutoff st,
      isStopedAt LocalTZA clock cutoff
        (mkReview "Ana_No review text found" "Ana" "1" false
           "No review text found" "Unknown date" false "1 star"
           "https://maps.app.goo.gl/x") st
      = None.
Proof.
  apply (undated_element_cannot_be_compared
           (SampleElements.rendered "Ana" None None)); reflexivity.
Defined.

End ExtractionCoverage.

(* ================================================================== *)
(** ** Further properties of the entry points *)
(* ================================================================== *)

Module EntryCoverage.
Import Update Index EntryProperties.



End EntryCoverage.
